(* ===== verification/_CoqProject ===== *)
-Q . S2P
Prelude.v
Schema.v
Sql.v
Fms.v
Runtime.v
PyStr.v
Config.v
Demo.v
Handlers.v
Router.v
Invariant.v
Spec.v
App.v
Interleave.v
Race.v
