(* ===== verification/Prelude.v ===== *)
(** * A verification development of myboard ([src/app.py])

    myboard is a Flask bulletin board over a PostgreSQL store.  At start-up
    (lines 10-13) it loads a [.env] file into the environment and draws a
    random [secret_key].  Each route handler of [src/app.py] reads its form
    fields and path parameters, opens a fresh psycopg2 connection with
    [get_db_connection] (configured from the [DB_*] variables), issues one
    to five SQL statements in autocommit mode, closes the connection, flashes
    a one-shot message and answers with a redirect or a rendered page.
    [python app.py] (lines 252-253) serves with Flask's development server
    in debug mode, each request on a thread of its own.  The parts of the
    program and how they interact:

    - the configuration: the [.env] file, the process environment and the
      connection parameters read from it;
    - the store: the tables [board.posts], [board.comments], [board.likes]
      and [fms.chick_info], and the effect of each SQL statement the
      handlers issue (each statement is a string in [src/app.py]);
    - the runtime the handlers call: [get_db_connection] (lines 16-27), the
      connection and cursor calls of psycopg2, Flask's [flash], the
      request's form ([request.form.get], [getlist]) and [remote_addr],
      Python's [int];
    - the handlers [index], [create_form], [create_post], [view_post],
      [edit_form], [edit_post], [delete_post], [add_comment], [like_post],
      [delete_batch] (lines 29-225) and the FMS dashboard [fms_dashboard]
      (lines 227-250), composed of the above, and the route table
      ([@app.route]) that Werkzeug matches to dispatch to them;
    - concurrent requests: the threaded server runs the statements of two
      requests in any interleaving.

    ** Files, in dependency order
    - [Prelude.v] (this file): the request monad [RSE] (it reads the
      request, threads the world and may raise a Python exception, returning
      the world also on an exception because autocommitted statements stay),
      its laws, the [try:]/[when] notations in [rse_scope], the hint
      databases [rse] (how each runtime call runs) and [rse_run] (rewrites),
      and the list lemmas that model [COUNT]/[DELETE ... WHERE] on tables
      held as lists.
    - [Schema.v]: the rows ([Post], [Comment], [Like], [ChickInfo]) and the
      database [Db]: posts as a [gmap] keyed by id with the SERIAL sequence
      [post_seq]; comments and likes as bags in insertion order.
    - [Sql.v], [Module Sql]: one definition per statement of [src/app.py],
      with the parameters the code passes (the INSERT of line 62 keeps its
      column/parameter mismatch); [SqlFacts]: what each reads and writes.
    - [Fms.v], [Module Fms]: the dashboard's three queries over
      [fms.chick_info] ([count]/[avg], [GROUP BY breeds],
      [ORDER BY hatchday DESC LIMIT 5]) and what each returns.
    - [Runtime.v]: the [World] (database, whether the server accepts
      connections, open connections with their autocommit flag, the
      session's flashes), the [Request], the exceptions [Exn], and
      [get_db_connection], [cursor], [execute], [close], [rollback],
      [flash], the form accessors, Python's truthiness ([filled]) and
      [int] on strings ([Module PyInt]).  Its run lemmas and the tactics
      [rse_run]/[rse_done] execute a handler symbolically; [request_done]
      is the world after a request that opened and closed [k] connections.
    - [PyStr.v], [Module PyStr]: [str] on integers, as Werkzeug's [int]
      converter writes a post id into the URL [url_for] builds (a digit loop
      whose fuel of [log2 n + 1] steps is enough), with the facts the
      router needs: digits that [int] reads back, and no [/].
    - [Config.v], [Module Config]: lines 10-11 and 17-23: the [.env] test in
      the working directory, python-dotenv's [load_dotenv] ([find_dotenv]
      from the directory of [app.py] up to the root, a later binding of a
      key wins, the process environment is not overridden), [os.getenv] of
      the five [DB_*] variables and psycopg2 dropping [None] arguments; C29.
    - [Demo.v]: a one-post board with six hatchings and the requests the
      witnesses run on.
    - [Handlers.v], [Module Handlers]: one definition per handler, the
      route type [Route] and the dispatch [handle]; for every handler and
      every branch an exact equation of its run ([*_run], [*_down]); the
      properties C1, C7-C9, C13-C16, C20, C22-C25 and their witnesses.
    - [Router.v], [Module Router]: the decorators as the rule table
      [url_map], Werkzeug's matching [route] (path segments, the [int]
      converter [conv_int], the automatic [HEAD] and [OPTIONS], 404, 405 and
      the redirect to a rule's trailing slash), and [url_for] on the
      redirect targets.  Matching is computed on segment classes
      ([route_by_cls]) and the table's rules are checked pairwise by
      [vm_compute] ([url_map_compatible]); [RouterProps]: C10, C11, C21.
    - [Invariant.v], [Module Invariant]: the store invariant [db_inv] (ids
      keyed and issued, like rows unique, [like_count] equal to the number of
      like rows), its preservation by each statement, the relation
      [db_write] listing what a request may write, the step relations
      [step] (requests that like only issued ids, or the server going down
      or up) and [step_any] (any request), the tactic [handle_cases] that
      splits a request into the branches of its handler, and the
      properties C2, C3, C6, C17, C18, C28.
    - [Spec.v], [Module Spec]: the board as the spec describes it (§3, §4):
      posts with their fields, the set of addresses that like each and its
      comments; one abstract operation per handler ([b_create], [b_view],
      [b_edit], [b_delete], [b_delete_any], [b_comment], [b_toggle]) and
      the abstract step [spec_handle] of each route; the abstraction [abs]
      of a store; [db_effect], the write of each handler, proved exact by
      [handle_db]; runs of requests as labelled steps [lsteps] and their
      abstract counterpart [spec_run]; the properties C4, C5, C19.
    - [App.v], [Module App]: Flask's dispatch [serve], the router followed
      by the view, with a 500 on a view's exception, or the debugger's
      traceback page under [app.run(debug=True)] (lines 252-253,
      [main_options]); definitions only.
    - [Interleave.v], [Module Interleave]: two [like_post] requests from
      one address running at once: each is a thread whose steps are its
      three autocommitted statements ([th_step]: the [COUNT], the
      [DELETE] or [INSERT], the [UPDATE] of [like_count]); a schedule is a
      list of thread choices run by the generic two-thread scheduler
      [sched_run], [interleavings 3 3] all 20 of them.  The rewrite
      database [interleave] commutes the statements; C26, C27.
    - [Race.v], [Module Race]: a like toggle against [delete_post] or the
      batch delete, whose single [DELETE] is a thread of one statement
      ([once_step]); a section over any statement that commutes with the
      toggle's, instantiated by the two deletions; C12.

    ** What the theorems show
    - Functional behaviour of every handler on every branch: the rows
      written, the page or redirect returned, the flash message, errors
      included (C1, C7-C9, C13-C16, C20, C22-C25).  C1 proves that
      [create_post] stores the submitted content as author and the author
      as content; C20 that the batch message counts the submitted ids.
    - Refinement: on a store satisfying [abs_inv] ([db_inv], and every
      comment names an issued id) each request but [create_post] does to
      the abstract board what the spec's operation does (C4); every run of
      requests from the empty board ends in the board the spec's operations
      give on the same requests in the same order, creation with author and
      content exchanged (C5).
    - Invariants: every request keeps [db_inv] as long as likes name issued
      ids (C3), and every world reachable so satisfies it (C2); a like of
      the next id, or a comment to it, attaches to the post created next
      and the like breaks the invariant (C19); [view_count] is never
      negative after any requests and [like_count] after requests that like
      issued ids (C28); views never decrease (C18); every request closes
      the connections it opens, on every path (C17).
    - Round trips: two like toggles restore the store (C6); the URL of
      every route dispatches back to it (C10).
    - Routing: at most one rule matches a request (C11); negative ids are
      404 and a [GET] on a POST-only URL is 405 (C21).
    - Error handling: [delete_batch] never raises and leaves the store as
      it is on an empty selection (C16), and catches the [ValueError] of
      [int] (C15); missing form fields store nothing (C13).
    - Configuration: the connection parameters are the process
      environment's [DB_*] variables, else those of the [.env] that
      [find_dotenv] finds from the directory of [app.py], loaded only when
      the working directory has a [.env]; missing ones are dropped (C29).
    - The dashboard (C25): it writes nothing, counts the rows, lists each
      breed once with its row count, shows [min 5 n] rows that are a
      prefix of the table sorted by hatch day, and averages the non-NULL
      weights (the exact rational; [numeric] display rounding is not
      modelled, nor the order of the groups, which SQL leaves open).
    - Concurrency: the 8 schedules of two like toggles in which one thread
      counts after the other's write end as the two toggles in sequence
      and keep the invariant (C26); the other 12 break it on an existing
      post (C27); a toggle against a deletion is safe in all four
      schedules (C12).
    - Findings: like and comment of an unissued id (C19); the batch message
      (C20); the like race (C27), real because the development server is
      threaded; the [.env] tested in the working directory but loaded from
      the directory of [app.py], and missing [DB_*] variables falling back
      to libpq's defaults (C29); [debug=True] answering an exception with
      the debugger's traceback (the model [App.run_route]).
    Fuel: [PyStr.digits_rev] runs on [log2 n + 1] steps, enough because a
    number has no more decimal than binary digits ([digits_rev_value]);
    every other recursion is structural.

    ** Left open
    - [ORDER BY] as a relation that the merge sort refines, and the tie
      order of the index page: the model fixes one stable order where SQL
      leaves ties unspecified.

    ** Not modelled
    HTML rendering ([render_template] and the templates, which are not in
    [src/]; a rendered page is the data passed to the template, and the
    templates' consumption of the flashes is not modelled), Flask's signed
    session cookie and the random [secret_key] of lines 12-13 that signs
    it (Flask's own code), the console output of [print], the [.env]
    parser (quotes, comments, [export]) and its [${VAR}] interpolation (a
    file is its parsed literal bindings), libpq's own defaults, the widths
    of the integer columns, statement-level store errors once a connection
    is open, a [remote_addr] of [None], and the cursor objects of psycopg2
    (a cursor is created on an open connection and closed before it; each
    statement is executed on the connection, which is checked to be open).
    Python's [int] is modelled on ASCII strings.  Werkzeug's router is
    modelled from its documented behaviour on this table; its
    [merge_slashes] redirect, URL quoting and host matching are not.  Of
    the debug mode only the error page is modelled (not the reloader or the
    debugger's console); of concurrency, the pairs of requests above (the
    others write disjoint columns or are idempotent deletes), each
    statement atomic.  The imports of lines 1-7 have no behaviour to model.
*)

From stdpp Require Export base gmap strings list sorting.
From Stdlib Require Export ZArith.

(** * The request monad *)

(** The outcome of a computation: a value, or a raised Python exception. *)
Inductive outcome (E A : Type) : Type :=
  | Ok (a : A)
  | Raise (e : E).
Arguments Ok {E A} a.
Arguments Raise {E A} e.

(** A computation reads the request [R], threads the world [S] and may
    raise an exception of [E].  The world is returned also when an
    exception is raised: the statements already executed stay committed
    (autocommit). *)
Definition RSE (R S E A : Type) : Type := R → S → outcome E A * S.

Section Monad.
Context {R S E : Type}.

#[export] Instance rse_ret : MRet (RSE R S E) :=
    λ A a _ s, (Ok a, s).

#[export] Instance rse_bind : MBind (RSE R S E) :=
    λ A B f m r s,
      match m r s with
      | (Ok a, s') => f a r s'
      | (Raise e, s') => (Raise e, s')
      end.

Definition raise {A} (e : E) : RSE R S E A := λ _ s, (Raise e, s).

  (** [try: m except e: h e] *)
Definition catch {A} (m : RSE R S E A) (h : E → RSE R S E A) : RSE R S E A :=
    λ r s,
      match m r s with
      | (Raise e, s') => h e r s'
      | res => res
      end.

Definition ask : RSE R S E R := λ r s, (Ok r, s).
Definition gets {A} (f : S → A) : RSE R S E A := λ _ s, (Ok (f s), s).
Definition modify (f : S → S) : RSE R S E unit := λ _ s, (Ok (), f s).
End Monad.

(** The number of elements of [l] satisfying [P]: SQL's [COUNT( * )] with a
    [WHERE] clause over a table held as a list of rows. *)
Definition count_where {A} (P : A → Prop) `{∀ x, Decision (P x)} (l : list A) : nat :=
  length (filter P l).

(** * The laws of the monad *)

Section MonadLaws.
Context {R S E : Type}.

Lemma bind_ok {A B} (m : RSE R S E A) (f : A → RSE R S E B) r s a s' :
    m r s = (Ok a, s') → (m ≫= f) r s = f a r s'.
  Proof. intros H. unfold mbind, rse_bind. by rewrite H. Qed.

Lemma bind_raise {A B} (m : RSE R S E A) (f : A → RSE R S E B) r s e s' :
    m r s = (Raise e, s') → (m ≫= f) r s = (Raise e, s').
  Proof. intros H. unfold mbind, rse_bind. by rewrite H. Qed.

Lemma catch_ok {A} (m : RSE R S E A) h r s a s' :
    m r s = (Ok a, s') → catch m h r s = (Ok a, s').
  Proof. intros H. unfold catch. by rewrite H. Qed.

Lemma catch_raise {A} (m : RSE R S E A) h r s e s' :
    m r s = (Raise e, s') → catch m h r s = h e r s'.
  Proof. intros H. unfold catch. by rewrite H. Qed.

Lemma ret_run {A} (a : A) r s : (mret a : RSE R S E A) r s = (Ok a, s).
  Proof. reflexivity. Qed.

  (** The monad laws, pointwise. *)
Lemma bind_ret_l {A B} (a : A) (f : A → RSE R S E B) r s :
    (mret a ≫= f) r s = f a r s.
  Proof. reflexivity. Qed.

Lemma bind_ret_r {A} (m : RSE R S E A) r s : (m ≫= mret) r s = m r s.
  Proof. unfold mbind, rse_bind. by destruct (m r s) as [[] ?]. Qed.

Lemma bind_assoc {A B C} (m : RSE R S E A) (f : A → RSE R S E B)
      (g : B → RSE R S E C) r s :
    ((m ≫= f) ≫= g) r s = (m ≫= (λ a, f a ≫= g)) r s.
  Proof. unfold mbind, rse_bind. by destruct (m r s) as [[] ?]. Qed.
End MonadLaws.

Declare Scope rse_scope.
Delimit Scope rse_scope with rse.
Notation "'try:' m 'except' e '=>' h" := (catch m (λ e, h))
  (at level 10, m at level 100, e binder, h at level 200) : rse_scope.
Notation "'when' b 'then' m" := (if b then m else mret ())
  (at level 10, b at level 100, m at level 200) : rse_scope.
Open Scope rse_scope.

Create HintDb rse discriminated.
Create Rewrite HintDb rse_run.
#[export] Hint Rewrite @bind_ret_l @bind_ret_r @bind_assoc @ret_run : rse_run.
#[export] Hint Resolve ret_run : rse.

(** [run_rse] rewrites the run of a bind or a catch whose first computation
    is known by a hypothesis [m r s = (_, _)]. *)
Ltac run_rse :=
  repeat match goal with
  | H : ?m ?r ?s = (Ok _, _) |- context [(?m ≫= _) ?r ?s] => rewrite (bind_ok _ _ _ _ _ _ H)
  | H : ?m ?r ?s = (Raise _, _) |- context [(?m ≫= _) ?r ?s] => rewrite (bind_raise _ _ _ _ _ _ H)
  | H : ?m ?r ?s = (Ok _, _) |- context [catch ?m _ ?r ?s] => rewrite (catch_ok _ _ _ _ _ _ H)
  | H : ?m ?r ?s = (Raise _, _) |- context [catch ?m _ ?r ?s] => rewrite (catch_raise _ _ _ _ _ _ H)
  end.

(** * Generic lemmas on lists *)

Section Lists.
Context {A : Type}.

Lemma count_where_app (P : A → Prop) `{∀ x, Decision (P x)} l1 l2 :
    count_where P (l1 ++ l2) = count_where P l1 + count_where P l2.
  Proof. unfold count_where. by rewrite filter_app, length_app. Qed.

Lemma count_where_cons_yes (P : A → Prop) `{∀ x, Decision (P x)} x l :
    P x → count_where P (x :: l) = S (count_where P l).
  Proof. intros Hx. unfold count_where. by rewrite filter_cons_True. Qed.

Lemma count_where_cons_no (P : A → Prop) `{∀ x, Decision (P x)} x l :
    ¬ P x → count_where P (x :: l) = count_where P l.
  Proof. intros Hx. unfold count_where. by rewrite filter_cons_False. Qed.

Lemma count_where_zero (P : A → Prop) `{∀ x, Decision (P x)} l :
    count_where P l = 0 ↔ Forall (λ x, ¬ P x) l.
  Proof.
    unfold count_where. rewrite length_zero_iff_nil.
    induction l as [|x l IH]; [split; auto|].
    rewrite Forall_cons. destruct (decide (P x)).
    - rewrite filter_cons_True by done. naive_solver.
    - rewrite filter_cons_False by done. naive_solver.
  Qed.

  (** Removing the elements that satisfy [P]: SQL's [DELETE ... WHERE]. *)
Lemma count_where_filter_not (P Q : A → Prop)
      `{∀ x, Decision (P x)} `{∀ x, Decision (Q x)} l :
    (∀ x, Q x → P x) → count_where Q (filter (λ x, ¬ P x) l) = 0.
  Proof.
    intros HQP. apply count_where_zero, Forall_forall.
    intros x Hx%list_elem_of_filter. naive_solver.
  Qed.

Lemma count_where_filter_disjoint (P Q : A → Prop)
      `{∀ x, Decision (P x)} `{∀ x, Decision (Q x)} l :
    (∀ x, Q x → ¬ P x) → count_where Q (filter (λ x, ¬ P x) l) = count_where Q l.
  Proof.
    intros HQP. unfold count_where. rewrite list_filter_filter.
    f_equal. apply list_filter_iff. naive_solver.
  Qed.

Lemma count_where_ext (P Q : A → Prop)
      `{∀ x, Decision (P x)} `{∀ x, Decision (Q x)} l :
    (∀ x, P x ↔ Q x) → count_where P l = count_where Q l.
  Proof. intros HPQ. unfold count_where. f_equal. by apply list_filter_iff. Qed.

  (** Deleting the rows that satisfy [P] from those that satisfy [Q ⊇ P]
      removes exactly [count_where P l] of them. *)
Lemma count_where_filter_sub (P Q : A → Prop)
      `{∀ x, Decision (P x)} `{∀ x, Decision (Q x)} l :
    (∀ x, P x → Q x) →
    (count_where Q (filter (λ x, ¬ P x) l) + count_where P l = count_where Q l)%nat.
  Proof.
    intros HPQ. unfold count_where. rewrite list_filter_filter.
    induction l as [|x l IH]; [done|].
    rewrite !filter_cons. repeat case_decide; cbn; naive_solver lia.
  Qed.

  (** In a list without duplicates an element occurs at most once. *)
Lemma count_where_eq_NoDup `{EqDecision A} (l : list A) x :
    NoDup l → count_where (λ y, y = x) l = if decide (x ∈ l) then 1%nat else 0%nat.
  Proof.
    induction 1 as [|y l Hy Hl IH]; [done|].
    destruct (decide (y = x)) as [->|Hne].
    - rewrite count_where_cons_yes by done. rewrite IH, decide_False by done.
      rewrite decide_True by set_solver. done.
    - rewrite count_where_cons_no by done. rewrite IH.
      destruct (decide (x ∈ l)), (decide (x ∈ y :: l)); set_solver.
  Qed.

  (** [DELETE ... WHERE row = x] on a table without that row changes nothing. *)
Lemma filter_neq_notin `{EqDecision A} (l : list A) x :
    x ∉ l → filter (λ y, y ≠ x) l = l.
  Proof.
    induction l as [|y l IH]; intros Hx; [done|].
    rewrite filter_cons_True by set_solver. f_equal. apply IH. set_solver.
  Qed.

  (** Deleting the only copy of [x] and inserting it again permutes the table. *)
Lemma filter_neq_snoc_perm `{EqDecision A} (l : list A) x :
    NoDup l → x ∈ l → filter (λ y, y ≠ x) l ++ [x] ≡ₚ l.
  Proof.
    induction 1 as [|y l Hy Hl IH]; intros Hx; [set_solver|].
    destruct (decide (y = x)) as [->|Hne].
    - rewrite filter_cons_False by naive_solver. rewrite filter_neq_notin by done.
      by rewrite Permutation_app_comm.
    - rewrite filter_cons_True by done. cbn. constructor. apply IH. set_solver.
  Qed.
End Lists.

#[export] Hint Resolve count_where_cons_yes count_where_cons_no : rse.
