(* ===== verification/Schema.v ===== *)
(** * The store's schema

    The rows of [board.posts], [board.comments], [board.likes] and
    [fms.chick_info] as the SQL statements of [src/app.py] read and write
    them, and the database as a record of tables.  Timestamps are integers
    (seconds); a column that may be NULL is an [option]. *)

From S2P Require Import Prelude.

Definition timestamp := Z.

(** A row of [board.posts]: the columns named by [SELECT id, title, author,
    created_at, view_count, like_count] (line 36), by the [UPDATE] of line
    128 ([updated_at]) and by [SELECT *]. *)
Record Post := mkPost {
  post_id : Z;
  title : string;
  author : string;
  content : string;
  created_at : timestamp;
  updated_at : option timestamp;
  view_count : Z;
  like_count : Z;
}.

(** A row of [board.comments] (lines 85 and 160). *)
Record Comment := mkComment {
  comment_id : Z;
  comment_post_id : Z;
  comment_author : string;
  comment_content : string;
  comment_created_at : timestamp;
}.

(** A row of [board.likes] (lines 94, 175, 179, 183): [(post_id, user_ip)]. *)
Record Like := mkLike {
  like_post_id : Z;
  user_ip : string;
}.

(** A row of [fms.chick_info] restricted to the columns the dashboard
    reads (lines 233-241); [egg_weight] may be NULL, which [avg] skips. *)
Record ChickInfo := mkChick {
  chick_id : Z;
  breeds : string;
  egg_weight : option Z;
  hatchday : timestamp;
}.

#[export] Instance Post_eq_dec : EqDecision Post.
Proof. solve_decision. Defined.
#[export] Instance Comment_eq_dec : EqDecision Comment.
Proof. solve_decision. Defined.
#[export] Instance Like_eq_dec : EqDecision Like.
Proof. solve_decision. Defined.
#[export] Instance ChickInfo_eq_dec : EqDecision ChickInfo.
Proof. solve_decision. Defined.

(** The database.  [posts] is keyed by the [id] column (its primary key);
    [post_seq] and [comment_seq] are the next values of the SERIAL
    sequences that generate the ids.  The other tables are bags of rows in
    insertion order: nothing in the code declares a key on them. *)
Record Db := mkDb {
  posts : gmap Z Post;
  post_seq : Z;
  comments : list Comment;
  comment_seq : Z;
  likes : list Like;
  chick_info : list ChickInfo;
}.

Definition db_empty : Db :=
  {| posts := ∅; post_seq := 1; comments := []; comment_seq := 1;
     likes := []; chick_info := [] |}.

(** Record updates, one per table. *)
Definition set_posts (f : gmap Z Post → gmap Z Post) (d : Db) : Db :=
  {| posts := f (posts d); post_seq := post_seq d; comments := comments d;
     comment_seq := comment_seq d; likes := likes d; chick_info := chick_info d |}.
Definition set_likes (f : list Like → list Like) (d : Db) : Db :=
  {| posts := posts d; post_seq := post_seq d; comments := comments d;
     comment_seq := comment_seq d; likes := f (likes d); chick_info := chick_info d |}.

Definition set_view_count (n : Z) (p : Post) : Post :=
  {| post_id := post_id p; title := title p; author := author p;
     content := content p; created_at := created_at p;
     updated_at := updated_at p; view_count := n; like_count := like_count p |}.
Definition set_like_count (n : Z) (p : Post) : Post :=
  {| post_id := post_id p; title := title p; author := author p;
     content := content p; created_at := created_at p;
     updated_at := updated_at p; view_count := view_count p; like_count := n |}.

(** The number of rows of [board.likes] for a post, and for a post and an
    address. *)
Definition post_likes (pid : Z) (d : Db) : nat :=
  count_where (λ l, like_post_id l = pid) (likes d).
Definition ip_likes (pid : Z) (ip : string) (d : Db) : nat :=
  count_where (λ l, l = mkLike pid ip) (likes d).

Lemma set_posts_likes f d : likes (set_posts f d) = likes d.
Proof. reflexivity. Qed.
Lemma set_likes_posts f d : posts (set_likes f d) = posts d.
Proof. reflexivity. Qed.
Lemma set_view_count_id n p : post_id (set_view_count n p) = post_id p.
Proof. reflexivity. Qed.
Lemma set_like_count_id n p : post_id (set_like_count n p) = post_id p.
Proof. reflexivity. Qed.

#[export] Hint Rewrite set_posts_likes set_likes_posts set_view_count_id
  set_like_count_id : rse_run.
