(* ===== verification/Sql.v ===== *)
(** * The SQL statements of [src/app.py]

    One definition per statement string of the board handlers, with the
    parameters the code passes.  A query returns its rows and leaves the
    database unchanged; a write returns the new database.  [UPDATE] and
    [DELETE] on a key that matches no row change nothing (they are not
    errors).  [ORDER BY] is a stable merge sort of the table in storage
    order: PostgreSQL leaves the order of ties unspecified, and [Spec.v]
    states the order as a relation that this sort refines. *)

From S2P Require Import Prelude Schema.

Module Sql.
  Local Open Scope Z_scope.

  (** The columns of line 36. *)
Record IndexRow := mkIndexRow {
    row_id : Z;
    row_title : string;
    row_author : string;
    row_created_at : timestamp;
    row_view_count : Z;
    row_like_count : Z;
  }.

Definition index_row (p : Post) : IndexRow :=
    mkIndexRow (post_id p) (title p) (author p) (created_at p)
      (view_count p) (like_count p).

  (** [ORDER BY created_at DESC]: [a] may precede [b] when it is not older. *)
Definition newer_first (a b : IndexRow) : Prop :=
    row_created_at b ≤ row_created_at a.
#[export] Instance newer_first_dec : RelDecision newer_first.
  Proof. intros a b. unfold newer_first. apply _. Defined.

  (** Line 36: [SELECT id, title, author, created_at, view_count, like_count
      FROM board.posts ORDER BY created_at DESC]. *)
Definition select_index (d : Db) : list IndexRow :=
    merge_sort newer_first (index_row <$> (snd <$> map_to_list (posts d))).

  (** Line 62: [INSERT INTO board.posts (title, content, author) VALUES
      (%s, %s, %s) RETURNING id] with the parameters [(title, author,
      content)]: the column list and the parameter tuple are in different
      orders, so the second parameter ([author]) is stored in [content] and
      the third ([content]) in [author].  The id is the next value of the
      sequence; [created_at] is the store's default, the time of the
      statement; [updated_at] is NULL and the counters start at 0. *)
Definition insert_post (p_title p_content p_author : string) (now : timestamp)
      (d : Db) : Z * Db :=
    let pid := post_seq d in
    let row := {| post_id := pid; title := p_title; content := p_content;
                  author := p_author; created_at := now; updated_at := None;
                  view_count := 0; like_count := 0 |} in
    (pid, {| posts := <[pid := row]> (posts d); post_seq := pid + 1;
             comments := comments d; comment_seq := comment_seq d;
             likes := likes d; chick_info := chick_info d |}).

  (** Line 74: [UPDATE board.posts SET view_count = view_count + 1 WHERE id = %s]. *)
Definition incr_view_count (pid : Z) (d : Db) : Db :=
    set_posts (alter (λ p, set_view_count (view_count p + 1) p) pid) d.

  (** Lines 76 and 105: [SELECT * FROM board.posts WHERE id = %s], [fetchone()]. *)
Definition select_post (pid : Z) (d : Db) : option Post := posts d !! pid.

  (** [ORDER BY created_at] (ascending). *)
Definition older_first (a b : Comment) : Prop :=
    comment_created_at a ≤ comment_created_at b.
#[export] Instance older_first_dec : RelDecision older_first.
  Proof. intros a b. unfold older_first. apply _. Defined.

  (** Line 85: [SELECT * FROM board.comments WHERE post_id = %s ORDER BY created_at]. *)
Definition select_comments (pid : Z) (d : Db) : list Comment :=
    merge_sort older_first (filter (λ c, comment_post_id c = pid) (comments d)).

  (** Lines 94 and 175: [SELECT COUNT( * ) FROM board.likes WHERE post_id = %s
      AND user_ip = %s]. *)
Definition count_likes (pid : Z) (ip : string) (d : Db) : Z :=
    Z.of_nat (ip_likes pid ip d).

  (** Line 128: [UPDATE board.posts SET title = %s, content = %s,
      updated_at = %s WHERE id = %s]. *)
Definition update_post (pid : Z) (p_title p_content : string) (now : timestamp)
      (d : Db) : Db :=
    set_posts (alter (λ p,
      {| post_id := post_id p; title := p_title; author := author p;
         content := p_content; created_at := created_at p;
         updated_at := Some now; view_count := view_count p;
         like_count := like_count p |}) pid) d.

  (** Line 141: [DELETE FROM board.posts WHERE id = %s].  Nothing cascades
      to [board.comments] or [board.likes]. *)
Definition delete_post (pid : Z) (d : Db) : Db := set_posts (delete pid) d.

  (** Line 160: [INSERT INTO board.comments (post_id, author, content)
      VALUES (%s, %s, %s)]; no check that the post exists. *)
Definition insert_comment (pid : Z) (c_author c_content : string)
      (now : timestamp) (d : Db) : Db :=
    {| posts := posts d; post_seq := post_seq d;
       comments := comments d ++ [mkComment (comment_seq d) pid c_author c_content now];
       comment_seq := comment_seq d + 1; likes := likes d;
       chick_info := chick_info d |}.

  (** Line 179: [DELETE FROM board.likes WHERE post_id = %s AND user_ip = %s]:
      every matching row. *)
Definition delete_likes (pid : Z) (ip : string) (d : Db) : Db :=
    set_likes (filter (λ l, l ≠ mkLike pid ip)) d.

  (** Line 183: [INSERT INTO board.likes (post_id, user_ip) VALUES (%s, %s)]. *)
Definition insert_like (pid : Z) (ip : string) (d : Db) : Db :=
    set_likes (λ ls, ls ++ [mkLike pid ip]) d.

  (** Lines 180 and 184: [UPDATE board.posts SET like_count = like_count - 1]
      and [+ 1] [WHERE id = %s]. *)
Definition add_like_count (delta pid : Z) (d : Db) : Db :=
    set_posts (alter (λ p, set_like_count (like_count p + delta) p) pid) d.

  (** Line 210: [DELETE FROM board.posts WHERE id = ANY(%s)]. *)
Definition delete_posts_any (ids : list Z) (d : Db) : Db :=
    set_posts (filter (λ kv, kv.1 ∉ ids)) d.

End Sql.

(** * What each statement reads and writes *)
Module SqlFacts.
  Import Sql.
  Local Open Scope Z_scope.

Lemma select_post_incr_view_count pid pid' d :
    select_post pid' (incr_view_count pid d) =
      (if decide (pid = pid') then (λ p, set_view_count (view_count p + 1) p) <$> select_post pid' d
       else select_post pid' d).
  Proof.
    unfold select_post, incr_view_count, set_posts. cbn [posts].
    rewrite lookup_alter. case_decide; by subst.
  Qed.

Lemma select_post_incr_view_count_eq pid d :
    select_post pid (incr_view_count pid d) =
      (λ p, set_view_count (view_count p + 1) p) <$> select_post pid d.
  Proof. by rewrite select_post_incr_view_count, decide_True. Qed.

  (** Queries that do not read [board.posts] are blind to its writes. *)
Lemma select_comments_set_posts pid f d :
    select_comments pid (set_posts f d) = select_comments pid d.
  Proof. reflexivity. Qed.
Lemma count_likes_set_posts pid ip f d :
    count_likes pid ip (set_posts f d) = count_likes pid ip d.
  Proof. reflexivity. Qed.
Lemma post_likes_set_posts pid f d : post_likes pid (set_posts f d) = post_likes pid d.
  Proof. reflexivity. Qed.

Lemma select_post_set_likes pid f d : select_post pid (set_likes f d) = select_post pid d.
  Proof. reflexivity. Qed.

  (** [delete_likes] removes every row of the address for the post. *)
Lemma ip_likes_delete_likes pid ip d : ip_likes pid ip (delete_likes pid ip d) = 0%nat.
  Proof. apply count_where_filter_not. naive_solver. Qed.

Lemma ip_likes_insert_like pid ip d :
    ip_likes pid ip (insert_like pid ip d) = S (ip_likes pid ip d).
  Proof.
    unfold ip_likes, insert_like, set_likes. cbn [likes].
    rewrite count_where_app, (count_where_cons_yes _ _ []) by done.
    unfold count_where at 2. cbn. lia.
  Qed.

Lemma post_likes_insert_like pid pid' ip d :
    post_likes pid' (insert_like pid ip d) =
      (post_likes pid' d + if decide (pid = pid') then 1 else 0)%nat.
  Proof.
    unfold post_likes, insert_like, set_likes. cbn [likes].
    rewrite count_where_app. f_equal. unfold count_where. cbn.
    by case_decide.
  Qed.

Lemma lookup_add_like_count delta pid pid' d :
    posts (add_like_count delta pid d) !! pid' =
      (if decide (pid = pid') then (λ p, set_like_count (like_count p + delta) p) <$> posts d !! pid'
       else posts d !! pid').
  Proof.
    unfold add_like_count, set_posts. cbn [posts].
    rewrite lookup_alter. case_decide; by subst.
  Qed.
End SqlFacts.

#[export] Hint Rewrite SqlFacts.select_post_incr_view_count_eq
  SqlFacts.select_comments_set_posts SqlFacts.count_likes_set_posts
  SqlFacts.post_likes_set_posts SqlFacts.select_post_set_likes : rse_run.

Module SqlFacts2.
  Import Sql.
  (** [DELETE ... WHERE id = ANY(ids)] removes exactly the listed ids. *)
Lemma lookup_delete_posts_any ids d k :
    posts (delete_posts_any ids d) !! k = if decide (k ∈ ids) then None else posts d !! k.
  Proof.
    unfold delete_posts_any, set_posts. cbn [posts].
    case_decide.
    - apply map_lookup_filter_None. right. intros x _. cbn. tauto.
    - destruct (posts d !! k) as [p|] eqn:E.
      + apply map_lookup_filter_Some. done.
      + apply map_lookup_filter_None. by left.
  Qed.
End SqlFacts2.
