(* ===== verification/Fms.v ===== *)
(** * The FMS dashboard's queries (lines 227-250)

    The three read-only statements of [fms_dashboard] over
    [fms.chick_info]: the row count with the average egg weight, the count
    per breed, and the five latest hatchings.  PostgreSQL returns the
    groups of [GROUP BY] in no specified order; the model returns them in
    the order of a map keyed by breed, one of the orders allowed.  [avg]
    skips NULL weights and is NULL on no weight; its value is the exact
    rational (PostgreSQL's [numeric] rounds it to its display scale). *)

From S2P Require Import Prelude Schema Sql.
From Stdlib Require Import QArith_base.

Module Fms.
  Local Open Scope Z_scope.

  (** The row of line 233. *)
Record Summary := mkSummary {
    total : Z;
    avg_weight : option Q;
  }.

  (** The non-NULL weights, the values [avg] aggregates. *)
Definition weights (cs : list ChickInfo) : list Z := omap egg_weight cs.

  (** Line 233: [SELECT count( * ) as total, avg(egg_weight) as avg_weight
      FROM fms.chick_info], [fetchone()]. *)
Definition select_summary (d : Db) : Summary :=
    let ws := weights (chick_info d) in
    mkSummary (Z.of_nat (length (chick_info d)))
      (match ws with
       | [] => None
       | _ => Some (Qmake (foldr Z.add 0 ws) (Pos.of_nat (length ws)))
       end).

  (** [count( * )] per breed. *)
Definition breed_counts (cs : list ChickInfo) : gmap string Z :=
    foldr (λ c m, <[breeds c := default 0 (m !! breeds c) + 1]> m) ∅ cs.

  (** Line 237: [SELECT breeds, count( * ) as count FROM fms.chick_info
      GROUP BY breeds], [fetchall()]. *)
Definition select_breed_stats (d : Db) : list (string * Z) :=
    map_to_list (breed_counts (chick_info d)).

  (** [ORDER BY hatchday DESC]. *)
Definition later_hatch (a b : ChickInfo) : Prop := hatchday b ≤ hatchday a.
#[export] Instance later_hatch_dec : RelDecision later_hatch.
  Proof. intros a b. unfold later_hatch. apply _. Defined.

  (** Line 241: [SELECT * FROM fms.chick_info ORDER BY hatchday DESC LIMIT 5]. *)
Definition select_recent (d : Db) : list ChickInfo :=
    take 5 (merge_sort later_hatch (chick_info d)).

  (** * What the queries return *)

Lemma breed_counts_lookup cs b :
    breed_counts cs !! b =
      match count_where (λ c, breeds c = b) cs with
      | O => None
      | n => Some (Z.of_nat n)
      end.
  Proof.
    induction cs as [|c cs IH]; [done|]. cbn [breed_counts foldr].
    fold (breed_counts cs). destruct (decide (breeds c = b)) as [<-|Hne].
    - rewrite lookup_insert_eq, count_where_cons_yes by done. rewrite IH.
      destruct (count_where _ cs); cbn; f_equal; lia.
    - rewrite lookup_insert_ne, count_where_cons_no by done. done.
  Qed.

Lemma later_hatch_total : Total later_hatch.
  Proof. intros a b. unfold later_hatch. lia. Qed.

Lemma later_hatch_trans : Transitive later_hatch.
  Proof. intros a b c. unfold later_hatch. lia. Qed.

  (** One row per breed present, with its number of rows. *)
Lemma select_breed_stats_elem d b n :
    (b, n) ∈ select_breed_stats d ↔
      (0 < count_where (λ c, breeds c = b) (chick_info d))%nat ∧
      n = Z.of_nat (count_where (λ c, breeds c = b) (chick_info d)).
  Proof.
    unfold select_breed_stats. rewrite elem_of_map_to_list, breed_counts_lookup.
    destruct (count_where _ _); split; intros H; naive_solver lia.
  Qed.

Lemma select_breed_stats_NoDup d : NoDup (select_breed_stats d).*1.
  Proof. apply NoDup_fst_map_to_list. Qed.

  (** The five rows are a prefix of the table sorted by [hatchday]
      descending. *)
Lemma select_recent_prefix d :
    ∃ rest, select_recent d ++ rest ≡ₚ chick_info d ∧
            Sorted later_hatch (select_recent d ++ rest) ∧
            length (select_recent d) = Nat.min 5 (length (chick_info d)).
  Proof.
    exists (drop 5 (merge_sort later_hatch (chick_info d))).
    unfold select_recent. rewrite take_drop, length_take, (Permutation_length (merge_sort_Permutation _ _)).
    split_and!; [apply merge_sort_Permutation| |lia].
    apply Sorted_merge_sort. apply later_hatch_total.
  Qed.

  (** The average times the number of weights is their sum. *)
Lemma select_summary_avg d q :
    avg_weight (select_summary d) = Some q →
    (q * inject_Z (Z.of_nat (length (weights (chick_info d)))) ==
       inject_Z (foldr Z.add 0%Z (weights (chick_info d))))%Q.
  Proof.
    unfold select_summary; cbn. destruct (weights _) as [|w ws] eqn:Hw; [done|].
    intros [= <-]. unfold Qeq, Qmult, inject_Z; cbn -[foldr Pos.of_nat].
    rewrite Pos.mul_1_r, Z.mul_1_r, <-Pos.of_nat_succ, Zpos_P_of_succ_nat.
    cbn [foldr]. lia.
  Qed.

Lemma select_summary_avg_none d :
    avg_weight (select_summary d) = None ↔ weights (chick_info d) = [].
  Proof. unfold select_summary; cbn. by destruct (weights _). Qed.
End Fms.
