(* ===== verification/Runtime.v ===== *)
(** * The runtime the handlers call

    The world a request runs in (the database, whether the PostgreSQL
    server accepts connections, the open psycopg2 connections, the
    session's flash list), the request (form, [remote_addr], the clock),
    Python's exceptions, and the calls of [src/app.py] into psycopg2, Flask
    and Python: [get_db_connection] (lines 16-27), [cursor()],
    [execute], [close], [rollback], [flash], [request.form.get] and
    [getlist], and the builtin [int] on strings (line 208). *)

From S2P Require Import Prelude Schema Sql Fms.
From Stdlib Require Import Ascii.

(** * Requests, worlds and exceptions *)

(** The request: [request.form] is a multi-dict, the fields in the order
    the browser sent them; [now] is the clock ([datetime.now()] and the
    store's default for [created_at]). *)
Record Request := mkRequest {
  form : list (string * string);
  remote_addr : string;
  now : timestamp;
}.

(** The exceptions the code can raise: psycopg2's [OperationalError]
    when [connect] fails, [InterfaceError] when a closed connection is
    used, and the [ValueError] of [int()] with the literal it rejected. *)
Inductive Exn :=
  | OperationalError
  | InterfaceError
  | ValueError (literal : string).

#[export] Instance Exn_eq_dec : EqDecision Exn.
Proof. solve_decision. Defined.

(** The flash messages of the handlers, by the line that flashes them. *)
Inductive FlashMsg :=
  | MsgFillAllFields          (* line 55 *)
  | MsgPostCreated            (* line 66 *)
  | MsgPostNotFound           (* lines 82, 111 *)
  | MsgTitleContentRequired   (* line 122 *)
  | MsgPostEdited             (* line 134 *)
  | MsgPostDeleted            (* line 145 *)
  | MsgAuthorContentRequired  (* line 153 *)
  | MsgCommentAdded           (* line 166 *)
  | MsgLikeRemoved            (* line 181 *)
  | MsgLikeAdded              (* line 185 *)
  | MsgSelectPosts            (* line 197 *)
  | MsgBatchDeleted (n : nat) (* line 212: len(ids_to_delete) *)
  | MsgBatchError (e : Exn).  (* line 219: the exception's text *)

#[export] Instance FlashMsg_eq_dec : EqDecision FlashMsg.
Proof. solve_decision. Defined.

(** The world.  [conns] maps each open connection to its autocommit flag;
    [conn_seq] names the next connection. *)
Record World := mkWorld {
  db : Db;
  db_up : bool;
  conns : gmap Z bool;
  conn_seq : Z;
  flashes : list FlashMsg;
}.

Definition set_db (f : Db → Db) (w : World) : World :=
  mkWorld (f (db w)) (db_up w) (conns w) (conn_seq w) (flashes w).
Definition set_conns (f : gmap Z bool → gmap Z bool) (w : World) : World :=
  mkWorld (db w) (db_up w) (f (conns w)) (conn_seq w) (flashes w).

(** The targets of [redirect(url_for(...))] and the pages the handlers
    render (the data passed to [render_template]). *)
Inductive Target :=
  | ToIndex
  | ToCreateForm
  | ToViewPost (pid : Z)
  | ToEditForm (pid : Z).

Inductive Page :=
  | PageIndex (rows : list Sql.IndexRow)
  | PageCreate
  | PageView (p : Post) (cs : list Comment) (liked : bool)
  | PageEdit (p : Post)
  | PageFms (summary : Fms.Summary) (breed_stats : list (string * Z))
      (recent_chicks : list ChickInfo).

Inductive Response :=
  | Redirect (t : Target)
  | Render (pg : Page).

(** A handler reads the request, threads the world and may raise. *)
Abbreviation M := (RSE Request World Exn).

(** * psycopg2 *)

Definition ConnId := Z.

(** [psycopg2.connect(...)]: a new connection (autocommit off), or
    [OperationalError] when the server refuses it. *)
Definition connect : M ConnId :=
  λ _ w,
    if db_up w then
      (Ok (conn_seq w),
       mkWorld (db w) (db_up w) (<[conn_seq w := false]> (conns w))
         (conn_seq w + 1)%Z (flashes w))
    else (Raise OperationalError, w).

(** Using a closed connection raises [InterfaceError]. *)
Definition check_open (c : ConnId) : M unit :=
  λ _ w, if decide (is_Some (conns w !! c)) then (Ok (), w)
         else (Raise InterfaceError, w).

(** [conn.autocommit = b] *)
Definition set_autocommit (c : ConnId) (b : bool) : M unit :=
  check_open c;; modify (set_conns <[c := b]>).

(** Lines 16-27: [get_db_connection]. *)
Definition get_db_connection : M ConnId :=
  conn ← connect;
  set_autocommit conn true;;
  mret conn.

(** [conn.cursor()]: fails on a closed connection. *)
Definition cursor (c : ConnId) : M unit := check_open c.

(** [cursor.execute(sql, params)] on an autocommit connection: the
    statement takes effect at once; a query returns its rows. *)
Definition execute {A} (c : ConnId) (stmt : Db → A * Db) : M A :=
  check_open c;;
  ((λ _ w, let '(a, d') := stmt (db w) in (Ok a, set_db (λ _, d') w)) : M A).

Definition query {A} (c : ConnId) (q : Db → A) : M A :=
  execute c (λ d, (q d, d)).
Definition exec (c : ConnId) (f : Db → Db) : M unit :=
  execute c (λ d, ((), f d)).

(** [conn.close()]: idempotent. *)
Definition close (c : ConnId) : M unit := modify (set_conns (delete c)).

(** [conn.rollback()]: on an autocommit connection every statement is
    already committed and there is nothing to undo. *)
Definition rollback (c : ConnId) : M unit := check_open c.

(** * Flask *)

(** [flash(message)] appends to the session's flash list. *)
Definition flash (m : FlashMsg) : M unit :=
  λ _ w, (Ok (), mkWorld (db w) (db_up w) (conns w) (conn_seq w) (flashes w ++ [m])).

(** [request.form.get(k)]: the first value of the field, or [None]. *)
Definition form_lookup (k : string) (f : list (string * string)) : option string :=
  snd <$> head (filter (λ kv, kv.1 = k) f).

(** [request.form.getlist(k)]: every value of the field, in order. *)
Definition form_values (k : string) (f : list (string * string)) : list string :=
  snd <$> filter (λ kv, kv.1 = k) f.

Definition form_get (k : string) : M (option string) :=
  λ r w, (Ok (form_lookup k (form r)), w).
Definition form_getlist (k : string) : M (list string) :=
  λ r w, (Ok (form_values k (form r)), w).
Definition get_remote_addr : M string := λ r w, (Ok (remote_addr r), w).
Definition get_now : M timestamp := λ r w, (Ok (now r), w).

(** Python's truth value of [request.form.get(k)]: [None] and [""] are
    falsy.  [filled v] is [Some s] exactly when [v] is truthy. *)
Definition filled (v : option string) : option string :=
  match v with
  | Some s => if decide (s = ""%string) then None else Some s
  | None => None
  end.

(** * Python's [int] on a string (line 208)

    [int(s)] strips surrounding whitespace, accepts one optional sign, then
    decimal digits where single underscores may separate two digits;
    anything else raises [ValueError].  ASCII only: Python also accepts
    non-ASCII decimal digits and spaces, which the model rejects. *)
Module PyInt.
  Local Open Scope Z_scope.

  (** [str.isspace] on ASCII: \t \n \v \f \r, the separators 28-31, space. *)
Definition is_space (a : ascii) : bool :=
    let n := nat_of_ascii a in
    ((9 <=? n) && (n <=? 13) || (28 <=? n) && (n <=? 32))%nat.

Definition digit_value (a : ascii) : option Z :=
    let n := nat_of_ascii a in
    if ((48 <=? n) && (n <=? 57))%nat then Some (Z.of_nat n - 48) else None.

Fixpoint strip_left (l : list ascii) : list ascii :=
    match l with
    | a :: l' => if is_space a then strip_left l' else l
    | [] => []
    end.

Definition strip (l : list ascii) : list ascii :=
    reverse (strip_left (reverse (strip_left l))).

  (** The digits after a first digit, with the value [acc] so far. *)
Fixpoint digits_from (acc : Z) (l : list ascii) : option Z :=
    match l with
    | [] => Some acc
    | a :: l' =>
        match digit_value a with
        | Some v => digits_from (10 * acc + v) l'
        | None =>
            if decide (a = "_"%char) then
              match l' with
              | b :: l'' =>
                  match digit_value b with
                  | Some v => digits_from (10 * acc + v) l''
                  | None => None
                  end
              | [] => None
              end
            else None
        end
    end.

Definition unsigned (l : list ascii) : option Z :=
    match l with
    | a :: l' => v ← digit_value a; digits_from v l'
    | [] => None
    end.

Definition parse (s : string) : option Z :=
    match strip (String.list_ascii_of_string s) with
    | "-"%char :: l => Z.opp <$> unsigned l
    | "+"%char :: l => unsigned l
    | l => unsigned l
    end.
End PyInt.

(** [int(pid)]: the value, or [ValueError] with the literal. *)
Definition py_int (s : string) : M Z :=
  match PyInt.parse s with
  | Some n => mret n
  | None => raise (ValueError s)
  end.

(** * The world after a request *)

(** Opening connection [c] (autocommit on) and closing it, [k] times from
    [c] on. *)
Fixpoint cycle_conns (c : Z) (k : nat) (m : gmap Z bool) : gmap Z bool :=
  match k with
  | O => m
  | S k' => cycle_conns (c + 1)%Z k' (delete c (<[c := true]> m))
  end.

Fixpoint seq_after (c : Z) (k : nat) : Z :=
  match k with
  | O => c
  | S k' => seq_after (c + 1)%Z k'
  end.

(** The world after a request that opened and closed [k] connections,
    left the database [d] and flashed [fl]. *)
Definition request_done (w : World) (d : Db) (k : nat) (fl : list FlashMsg) : World :=
  mkWorld d (db_up w) (cycle_conns (conn_seq w) k (conns w))
    (seq_after (conn_seq w) k) (flashes w ++ fl).

(** Connection ids at or above [conn_seq] are not in use. *)
Definition conns_fresh (w : World) : Prop :=
  ∀ c, (conn_seq w ≤ c)%Z → conns w !! c = None.

(** * Running the calls *)

(** The world after [get_db_connection] succeeds: connection [conn_seq w]
    is open with autocommit on. *)
Definition open_conn (w : World) : World :=
  mkWorld (db w) (db_up w) (<[conn_seq w := true]> (conns w))
    (conn_seq w + 1)%Z (flashes w).

Definition add_flash (m : FlashMsg) (w : World) : World :=
  mkWorld (db w) (db_up w) (conns w) (conn_seq w) (flashes w ++ [m]).

Section Run.
Context (r : Request) (w : World).

Lemma get_db_connection_up :
    db_up w = true → get_db_connection r w = (Ok (conn_seq w), open_conn w).
  Proof.
    intros Hup. unfold get_db_connection, connect, set_autocommit, check_open,
      modify, mbind, rse_bind, mret, rse_ret.
    rewrite Hup. cbn [conns].
    destruct (decide _) as [_|Hn]; [|exfalso; apply Hn; rewrite lookup_insert_eq; by eexists].
    unfold open_conn, set_conns. cbn -[insert]. by rewrite insert_insert_eq, Hup.
  Qed.

Lemma get_db_connection_down :
    db_up w = false → get_db_connection r w = (Raise OperationalError, w).
  Proof.
    intros Hdown. unfold get_db_connection, connect, mbind, rse_bind.
    by rewrite Hdown.
  Qed.

Lemma check_open_ok c : is_Some (conns w !! c) → check_open c r w = (Ok (), w).
  Proof. intros Hc. unfold check_open. by rewrite decide_True. Qed.

Lemma check_open_closed c : conns w !! c = None → check_open c r w = (Raise InterfaceError, w).
  Proof. intros Hc. unfold check_open. rewrite decide_False; [done|]. rewrite Hc. by intros []. Qed.

Lemma cursor_ok c : is_Some (conns w !! c) → cursor c r w = (Ok (), w).
  Proof. apply check_open_ok. Qed.

Lemma rollback_ok c : is_Some (conns w !! c) → rollback c r w = (Ok (), w).
  Proof. apply check_open_ok. Qed.

Lemma set_autocommit_ok c b :
    is_Some (conns w !! c) → set_autocommit c b r w = (Ok (), set_conns <[c := b]> w).
  Proof. intros Hc. unfold set_autocommit. by erewrite bind_ok by (by apply check_open_ok). Qed.

Lemma query_ok {A} c (q : Db → A) :
    is_Some (conns w !! c) → query c q r w = (Ok (q (db w)), set_db (λ _, db w) w).
  Proof. intros Hc. unfold query, execute. by erewrite bind_ok by (by apply check_open_ok). Qed.

Lemma exec_ok c f :
    is_Some (conns w !! c) → exec c f r w = (Ok (), set_db (λ _, f (db w)) w).
  Proof. intros Hc. unfold exec, execute. by erewrite bind_ok by (by apply check_open_ok). Qed.

Lemma execute_ok {A} c (stmt : Db → A * Db) :
    is_Some (conns w !! c) →
    execute c stmt r w = (Ok (stmt (db w)).1, set_db (λ _, (stmt (db w)).2) w).
  Proof.
    intros Hc. unfold execute. erewrite bind_ok by (by apply check_open_ok).
    by destruct (stmt (db w)).
  Qed.

Lemma close_run c : close c r w = (Ok (), set_conns (delete c) w).
  Proof. reflexivity. Qed.

Lemma flash_run m : flash m r w = (Ok (), add_flash m w).
  Proof. reflexivity. Qed.

Lemma form_get_run k : form_get k r w = (Ok (form_lookup k (form r)), w).
  Proof. reflexivity. Qed.
Lemma form_getlist_run k : form_getlist k r w = (Ok (form_values k (form r)), w).
  Proof. reflexivity. Qed.
Lemma get_remote_addr_run : get_remote_addr r w = (Ok (remote_addr r), w).
  Proof. reflexivity. Qed.
Lemma get_now_run : get_now r w = (Ok (now r), w).
  Proof. reflexivity. Qed.
End Run.

(** The projections of the world after each call. *)
Lemma conns_open_conn w : conns (open_conn w) = <[conn_seq w := true]> (conns w).
Proof. reflexivity. Qed.
Lemma conns_set_db f w : conns (set_db f w) = conns w.
Proof. reflexivity. Qed.
Lemma conns_add_flash m w : conns (add_flash m w) = conns w.
Proof. reflexivity. Qed.
Lemma conns_set_conns f w : conns (set_conns f w) = f (conns w).
Proof. reflexivity. Qed.
Lemma db_open_conn w : db (open_conn w) = db w.
Proof. reflexivity. Qed.
Lemma db_set_db f w : db (set_db f w) = f (db w).
Proof. reflexivity. Qed.
Lemma db_add_flash m w : db (add_flash m w) = db w.
Proof. reflexivity. Qed.
Lemma db_set_conns f w : db (set_conns f w) = db w.
Proof. reflexivity. Qed.
Lemma db_up_open_conn w : db_up (open_conn w) = db_up w.
Proof. reflexivity. Qed.
Lemma db_up_set_db f w : db_up (set_db f w) = db_up w.
Proof. reflexivity. Qed.
Lemma db_up_set_conns f w : db_up (set_conns f w) = db_up w.
Proof. reflexivity. Qed.
Lemma conn_seq_set_db f w : conn_seq (set_db f w) = conn_seq w.
Proof. reflexivity. Qed.
Lemma conn_seq_set_conns f w : conn_seq (set_conns f w) = conn_seq w.
Proof. reflexivity. Qed.

#[export] Hint Rewrite conns_open_conn conns_set_db conns_add_flash conns_set_conns
  db_open_conn db_set_db db_add_flash db_set_conns db_up_open_conn db_up_set_db
  db_up_set_conns conn_seq_set_db conn_seq_set_conns : rse_run.

#[export] Hint Resolve get_db_connection_up get_db_connection_down check_open_ok
  check_open_closed cursor_ok rollback_ok set_autocommit_ok query_ok exec_ok
  close_run flash_run form_get_run form_getlist_run
  get_remote_addr_run get_now_run : rse.
#[export] Hint Resolve execute_ok | 5 : rse.

(** An open connection: the side condition of the calls above. *)
#[export] Hint Extern 2 (is_Some (_ !! _)) =>
  autorewrite with rse_run; simplify_map_eq; first [by eexists | eauto] : rse.
#[export] Hint Extern 2 (db_up _ = _) =>
  autorewrite with rse_run; assumption : rse.

(** [rse_step] runs the first call of a [≫=] (or of a [try]) whose
    outcome the [rse] hints determine, and [rse_run] runs as far as they go. *)
Ltac rse_step :=
  match goal with
  | |- context [((?m ≫= ?f) ≫= ?g) ?r ?s] => rewrite (bind_assoc m f g r s)
  | |- context [(?m ≫= ?f) ?r ?s] =>
      first [ erewrite (bind_ok m f r s) by (eauto with rse)
            | erewrite (bind_raise m f r s) by (eauto with rse) ]
  | |- context [catch ?m ?h ?r ?s] =>
      first [ erewrite (catch_ok m h r s) by (eauto with rse)
            | erewrite (catch_raise m h r s) by (eauto with rse) ]
  end; cbv beta; cbn [fst snd].

Ltac rse_run := repeat rse_step.

Lemma seq_after_spec c k : seq_after c k = (c + Z.of_nat k)%Z.
Proof. revert c. induction k as [|k IH]; intros c; cbn; [lia|]. rewrite IH. lia. Qed.

Lemma cycle_conns_fresh c k m :
  (∀ c', (c ≤ c')%Z → m !! c' = None) → cycle_conns c k m = m.
Proof.
  revert c m. induction k as [|k IH]; intros c m Hfresh; [done|]. cbn.
  rewrite delete_insert_id by (apply Hfresh; lia).
  apply IH. intros c' Hc'. apply Hfresh. lia.
Qed.

(** A request that closes what it opens leaves the open connections as
    they were. *)
Lemma request_done_conns w d k fl :
  conns_fresh w → conns (request_done w d k fl) = conns w.
Proof. intros Hf. by apply cycle_conns_fresh. Qed.

Lemma request_done_fresh w d k fl :
  conns_fresh w → conns_fresh (request_done w d k fl).
Proof.
  intros Hf c Hc. rewrite request_done_conns by done. apply Hf.
  cbn in Hc. rewrite seq_after_spec in Hc. lia.
Qed.

(** [rse_done] closes the goal [h r w = (res, request_done ...)] once
    [rse_run] has run the handler to its last [mret]. *)
Ltac rse_done :=
  rewrite ?ret_run;
  unfold request_done, open_conn, set_conns, set_db, add_flash;
  cbn -[insert delete alter]; rewrite ?app_nil_r, ?insert_insert_eq; try reflexivity.
