(* ===== verification/PyStr.v ===== *)
(** * Python's [str] on integers, in the URLs [url_for] builds

    [url_for] builds the path of a [<int:post_id>] rule with Werkzeug's
    converter, whose [to_url] is [str] of the id.  [py_str] is that [str]:
    a loop that peels decimal digits off, bounded by a fuel of
    [log2 n + 1] steps, enough for every [n] ([digits_rev_value]).  The
    lemmas give what [Router.v] needs to match such a path: a non-negative
    id is written as digits that [int] (of [Runtime.v]) reads back, and no
    [/]. *)

From S2P Require Import Prelude Schema Sql Runtime.
From Stdlib Require Import Ascii.

(** * Python's [str] on integers *)
Module PyStr.
  Local Open Scope Z_scope.

Definition ascii_of_digit (d : Z) : ascii := ascii_of_nat (48 + Z.to_nat d).

  (** The decimal digits of [n >= 0], least significant first. *)
Fixpoint digits_rev (fuel : nat) (n : Z) : list ascii :=
    match fuel with
    | O => []
    | S f => ascii_of_digit (n mod 10) :: (if n <? 10 then [] else digits_rev f (n / 10))
    end.

  (** [Z.log2 n + 1] binary digits bound the decimal ones. *)
Definition str_nat (n : Z) : list ascii :=
    reverse (digits_rev (S (Z.to_nat (Z.log2 n))) n).

  (** [str(n)]: a minus sign, then the digits of the absolute value. *)
Definition py_str (n : Z) : string :=
    String.string_of_list_ascii
      (if n <? 0 then "-"%char :: str_nat (- n) else str_nat n).

  (** Every character is a decimal digit. *)
Definition digits_ok (l : list ascii) : Prop :=
    Forall (λ a, ∃ d, 0 ≤ d < 10 ∧ a = ascii_of_digit d) l.

Lemma digit_value_of_digit d :
    0 ≤ d < 10 → PyInt.digit_value (ascii_of_digit d) = Some d.
  Proof.
    intros Hd. unfold PyInt.digit_value, ascii_of_digit.
    rewrite nat_ascii_embedding by lia.
    replace ((48 <=? _) && (_ <=? 57))%nat with true
      by (symmetry; apply andb_true_intro; split; apply Nat.leb_le; lia).
    f_equal. lia.
  Qed.

Lemma is_space_digit d : 0 ≤ d < 10 → PyInt.is_space (ascii_of_digit d) = false.
  Proof.
    intros Hd. unfold PyInt.is_space, ascii_of_digit. rewrite nat_ascii_embedding by lia.
    apply orb_false_intro; apply andb_false_iff; right; apply Nat.leb_gt; lia.
  Qed.

Lemma digits_from_snoc acc l a d :
    Forall (λ b, is_Some (PyInt.digit_value b)) l → PyInt.digit_value a = Some d →
    PyInt.digits_from acc (l ++ [a]) = v ← PyInt.digits_from acc l; Some (10 * v + d).
  Proof.
    revert acc. induction l as [|b l IH]; intros acc Hl Ha; cbn; [by rewrite Ha|].
    apply Forall_cons in Hl as [[v ->] Hl]. by apply IH.
  Qed.

Lemma digits_ok_is_digit l : digits_ok l → Forall (λ b, is_Some (PyInt.digit_value b)) l.
  Proof.
    intros Hl. eapply Forall_impl; [exact Hl|].
    intros ? (d & ? & ->). eexists. by apply digit_value_of_digit.
  Qed.

  (** A loop iteration on a number of two digits or more. *)
Lemma digits_rev_step f n :
    ¬ n < 10 → digits_rev (S f) n = ascii_of_digit (n mod 10) :: digits_rev f (n / 10).
  Proof. intros Hn. cbn [digits_rev]. by destruct (Z.ltb_spec n 10); [lia|]. Qed.

  (** The fuel [log2 n + 1] bounds [n]. *)
Lemma log2_fuel n : 0 ≤ n → 0 ≤ n < 2 ^ Z.of_nat (S (Z.to_nat (Z.log2 n))).
  Proof.
    intros Hn. rewrite Nat2Z.inj_succ, Z2Nat.id by apply Z.log2_nonneg.
    destruct (decide (n = 0)) as [->|]; [cbn; lia|].
    split; [lia|apply Z.log2_spec; lia].
  Qed.

  (** One digit. *)
Lemma digits_rev_small f n acc :
    0 ≤ n < 10 →
    PyInt.digits_from acc (reverse (digits_rev (S f) n)) =
      Some (acc * 10 ^ Z.of_nat (length (digits_rev (S f) n)) + n) ∧
    digits_rev (S f) n ≠ [] ∧ digits_ok (digits_rev (S f) n).
  Proof.
    intros Hn. cbn [digits_rev]. rewrite Z.mod_small by lia.
    destruct (Z.ltb_spec n 10); [|lia]. cbn. rewrite digit_value_of_digit by lia.
    split_and!; [f_equal; lia|done|]. repeat constructor. eauto.
  Qed.

  (** Enough fuel: [n < 2 ^ (f + 1)]. *)
Lemma digits_rev_value f n acc :
    0 ≤ n < 2 ^ Z.of_nat (S f) →
    PyInt.digits_from acc (reverse (digits_rev (S f) n)) =
      Some (acc * 10 ^ Z.of_nat (length (digits_rev (S f) n)) + n) ∧
    digits_rev (S f) n ≠ [] ∧ digits_ok (digits_rev (S f) n).
  Proof.
    revert n acc. induction f as [|f IH]; intros n acc Hn.
    { apply digits_rev_small. cbn in Hn. lia. }
    destruct (decide (n < 10)); [apply digits_rev_small; lia|].
    rewrite Nat2Z.inj_succ, Z.pow_succ_r in Hn by lia.
    destruct (IH (n / 10) acc) as (Hv & _ & Hall);
      [split; [apply Z.div_pos; lia|apply Z.div_lt_upper_bound; lia]|].
    assert (Hm : 0 ≤ n mod 10 < 10) by (apply Z.mod_pos_bound; lia).
    rewrite (digits_rev_step (S f)) by lia.
    rewrite reverse_cons.
    rewrite (digits_from_snoc _ _ _ (n mod 10)), Hv;
      [|by apply Forall_reverse, digits_ok_is_digit|by apply digit_value_of_digit].
    cbn -[Z.pow digits_rev]. rewrite Nat2Z.inj_succ, Z.pow_succ_r by lia.
    split_and!; [|done|constructor; [eauto|done]].
    f_equal. pose proof (Z.div_mod n 10 ltac:(lia)). lia.
  Qed.

Lemma unsigned_digits l :
    l ≠ [] → Forall (λ b, is_Some (PyInt.digit_value b)) l →
    PyInt.unsigned l = PyInt.digits_from 0 l.
  Proof.
    destruct l as [|a l]; [done|]. intros _ [[v Hv] _]%Forall_cons.
    cbn. rewrite Hv. cbn. by replace (10 * 0 + v) with v by lia.
  Qed.

Lemma str_nat_spec n :
    0 ≤ n →
    PyInt.unsigned (str_nat n) = Some n ∧ str_nat n ≠ [] ∧
    digits_ok (str_nat n).
  Proof.
    intros Hn. unfold str_nat.
    destruct (digits_rev_value (Z.to_nat (Z.log2 n)) n 0 (log2_fuel n Hn)) as (Hv & Hne & Hall).
    split_and!; [| by intros ?%(f_equal reverse); rewrite reverse_involutive in *
                 | by apply Forall_reverse].
    rewrite unsigned_digits, Hv; [f_equal; lia| |].
    - by intros ?%(f_equal reverse); rewrite reverse_involutive in *.
    - by apply Forall_reverse, digits_ok_is_digit.
  Qed.
Lemma strip_left_id l : Forall (λ a, PyInt.is_space a = false) l → PyInt.strip_left l = l.
  Proof. destruct l as [|a l]; [done|]. intros [Ha _]%Forall_cons. cbn. by rewrite Ha. Qed.

Lemma strip_id l : Forall (λ a, PyInt.is_space a = false) l → PyInt.strip l = l.
  Proof.
    intros Hl. unfold PyInt.strip.
    rewrite (strip_left_id l), strip_left_id; [apply reverse_involutive| |done].
    by apply Forall_reverse.
  Qed.

Lemma digits_ok_not_space l : digits_ok l → Forall (λ a, PyInt.is_space a = false) l.
  Proof. intros Hl. eapply Forall_impl; [exact Hl|]. intros ? (d & ? & ->). by apply is_space_digit. Qed.

  (** A string of digits reads as its digits: it has no sign. *)
Lemma parse_digits l :
    digits_ok l → PyInt.parse (String.string_of_list_ascii l) = PyInt.unsigned l.
  Proof.
    intros Hl. unfold PyInt.parse. rewrite String.list_ascii_of_string_of_list_ascii.
    rewrite strip_id by (by apply digits_ok_not_space).
    destruct l as [|a l]; [done|]. apply Forall_cons in Hl as [(d & Hd & ->) _].
    assert (d = 0 ∨ d = 1 ∨ d = 2 ∨ d = 3 ∨ d = 4 ∨ d = 5 ∨ d = 6 ∨ d = 7 ∨ d = 8 ∨ d = 9)
      as Hd' by lia.
    repeat (destruct Hd' as [->|Hd']; [reflexivity|]). by subst.
  Qed.
Lemma py_str_digits n :
    0 ≤ n → ∃ l, py_str n = String.string_of_list_ascii l ∧ l ≠ [] ∧ digits_ok l ∧
                 PyInt.unsigned l = Some n.
  Proof.
    intros Hn. unfold py_str. destruct (Z.ltb_spec n 0); [lia|].
    destruct (str_nat_spec n) as (? & ? & ?); [done|]. eauto.
  Qed.

Lemma digit_not_slash d : 0 ≤ d < 10 → ascii_of_digit d ≠ "/"%char.
  Proof.
    intros Hd Heq. apply (f_equal nat_of_ascii) in Heq.
    unfold ascii_of_digit in Heq. rewrite nat_ascii_embedding in Heq by lia.
    change (nat_of_ascii "/") with 47%nat in Heq. lia.
  Qed.

Lemma py_str_no_slash n : "/"%char ∉ String.list_ascii_of_string (py_str n).
  Proof.
    unfold py_str. rewrite String.list_ascii_of_string_of_list_ascii.
    assert (∀ m, 0 ≤ m → "/"%char ∉ str_nat m) as Hd.
    { intros m Hm Hin. destruct (str_nat_spec m Hm) as (_ & _ & Hok).
      eapply Forall_forall in Hok as (d & Hd & Heq); [|exact Hin].
      by apply (digit_not_slash d). }
    destruct (Z.ltb_spec n 0).
    - intros [Heq|Hin]%elem_of_cons; [done|]. revert Hin. apply Hd. lia.
    - apply Hd. lia.
  Qed.
End PyStr.
