(* ===== verification/Config.v ===== *)
(** * Start-up configuration and the connection parameters

    Lines 10-11 of [src/app.py] load a [.env] file into the process
    environment when the working directory has one; [get_db_connection]
    (lines 17-23) passes [os.getenv] of the five [DB_*] variables to
    [psycopg2.connect] as keyword arguments.  This file models the
    environment as a string map, the [.env] files of the file system by
    directory, python-dotenv's [load_dotenv] as the code calls it
    ([find_dotenv] from the directory of [app.py] up to the root,
    [DotEnv.dict] where a later binding of a key wins, and
    [set_as_environment_variables] without [override], so the process
    environment wins), and psycopg2's [make_dsn], which drops the [None]
    arguments so that libpq falls back to its own defaults for them. *)

From S2P Require Import Prelude.

Module Config.

  (** [os.environ]. *)
Abbreviation Env := (gmap string string).

  (** A directory, innermost name first: [/srv/app] is [["app"; "srv"]]. *)
Definition Path := list string.

  (** The bindings of a [.env] file in their order; a key written without
      [=] binds [None]. *)
Definition DotEnvFile := list (string * option string).

  (** The [.env] files, by the directory that holds them. *)
Abbreviation Fs := (gmap Path DotEnvFile).

  (** [os.getenv(key)]. *)
Definition getenv (env : Env) (key : string) : option string := env !! key.

  (** [_walk_to_root(path)]: the directory, then each parent up to [/]. *)
Fixpoint walk_to_root (p : Path) : list Path :=
    p :: match p with [] => [] | _ :: q => walk_to_root q end.

  (** [find_dotenv()] called from [app.py]: the first [.env] file on the
      walk from the script's directory ([usecwd=False]). *)
Definition find_dotenv (fs : Fs) (script_dir : Path) : option DotEnvFile :=
    head (omap (λ d, fs !! d) (walk_to_root script_dir)).

  (** [DotEnv.dict()]: the bindings in order, a later one replacing an
      earlier one of the same key. *)
Definition dotenv_dict (f : DotEnvFile) : gmap string (option string) :=
    foldl (λ m kv, <[kv.1 := kv.2]> m) ∅ f.

  (** The loop of [set_as_environment_variables] with [override=False]:
      a key already in [os.environ] is skipped, a [None] value is not set. *)
Fixpoint set_env_vars (kvs : list (string * option string)) (env : Env) : Env :=
    match kvs with
    | [] => env
    | (k, v) :: rest =>
        set_env_vars rest
          (if decide (is_Some (env !! k)) then env
           else match v with Some s => <[k := s]> env | None => env end)
    end.

Definition set_as_environment_variables (dict : gmap string (option string)) (env : Env) : Env :=
    set_env_vars (map_to_list dict) env.

  (** [load_dotenv()]: without a file found the dictionary is empty and
      the environment is left as it is. *)
Definition load_dotenv (fs : Fs) (script_dir : Path) (env : Env) : Env :=
    match find_dotenv fs script_dir with
    | Some f => set_as_environment_variables (dotenv_dict f) env
    | None => env
    end.

  (** Lines 10-11: [if os.path.exists('.env'): load_dotenv()], the test in
      the working directory, the load from the script's.  [exists] also
      holds for a directory named [.env]; the model knows files only. *)
Definition startup (fs : Fs) (cwd script_dir : Path) (env : Env) : Env :=
    if decide (is_Some (fs !! cwd)) then load_dotenv fs script_dir env else env.

  (** The keyword arguments of [psycopg2.connect] and the variable each
      reads (lines 18-22). *)
Definition db_vars : list (string * string) :=
    [("host", "DB_HOST"); ("port", "DB_PORT"); ("dbname", "DB_NAME");
     ("user", "DB_USER"); ("password", "DB_PASSWORD")]%string.

Definition db_params (env : Env) : list (string * option string) :=
    (λ '(k, var), (k, getenv env var)) <$> db_vars.

  (** [make_dsn] on the keyword arguments: the [None] ones are dropped, the others
      kept in order. *)
Definition make_dsn (kwargs : list (string * option string)) : list (string * string) :=
    omap (λ '(k, v), (k,.) <$> v) kwargs.

  (** The value a variable takes after [startup] from a directory with
      the [.env] file [f]: the process environment's, else the last
      binding of [f]. *)
Definition conf_value (env : Env) (f : DotEnvFile) (var : string) : option string :=
    match env !! var with
    | Some v => Some v
    | None => dotenv_dict f !! var ≫= id
    end.

  (** A directory under [/srv/myboard] where the application is deployed
      with its complete [.env], and a home directory with one of its own. *)
Definition app_dir : Path := ["myboard"; "srv"]%string.
Definition home_dir : Path := ["dev"; "home"]%string.
Definition app_env_file : DotEnvFile :=
    [("DB_HOST", Some "db.internal"); ("DB_PORT", Some "5432"); ("DB_NAME", Some "board");
     ("DB_USER", Some "board"); ("DB_PASSWORD", Some "s3cret")]%string.
Definition home_env_file : DotEnvFile := [("DB_HOST", Some "localhost")]%string.
Definition demo_fs : Fs := <[app_dir := app_env_file]> {[home_dir := home_env_file]}.

  (** * The environment after [load_dotenv] *)

Lemma set_env_vars_lookup kvs env k :
    NoDup kvs.*1 →
    set_env_vars kvs env !! k =
      match env !! k with Some v => Some v | None => (list_to_map kvs : gmap _ _) !! k ≫= id end.
  Proof.
    revert env. induction kvs as [|[k' v] kvs IH]; intros env Hnd; cbn; [by destruct (env !! k)|].
    apply NoDup_cons in Hnd as [Hk' Hnd]. rewrite IH by done.
    destruct (decide (k = k')) as [->|Hne].
    - rewrite lookup_insert_eq, (not_elem_of_list_to_map_1 kvs k') by done.
      destruct (decide (is_Some (env !! k'))) as [[x ->]|Hn]; [done|].
      apply eq_None_not_Some in Hn. rewrite Hn. destruct v; [by rewrite lookup_insert_eq|by rewrite Hn].
    - rewrite lookup_insert_ne by done.
      case_decide; [done|]. destruct v; [by rewrite lookup_insert_ne|done].
  Qed.

  (** Without [override], a variable keeps its value; an unset one takes
      the file's last binding of it. *)
Lemma set_as_env_lookup dict env k :
    set_as_environment_variables dict env !! k =
      match env !! k with Some v => Some v | None => dict !! k ≫= id end.
  Proof.
    unfold set_as_environment_variables. rewrite set_env_vars_lookup by apply NoDup_fst_map_to_list.
    by rewrite list_to_map_to_list.
  Qed.

Lemma find_dotenv_here fs d f : fs !! d = Some f → find_dotenv fs d = Some f.
  Proof. intros Hd. unfold find_dotenv. destruct d; cbn; by rewrite Hd. Qed.

Lemma make_dsn_params env vars :
    make_dsn ((λ '(k, var), (k, getenv env var)) <$> vars) =
      omap (λ '(k, var), (k,.) <$> env !! var) vars.
  Proof. induction vars as [|[k var] vars IH]; [done|]. cbn. by rewrite <-IH. Qed.

  (** The connection string holds exactly the five keyword arguments
      whose variable has a value, each under its own key. *)
Lemma dsn_elem (g : string → option string) k v :
    (k, v) ∈ omap (λ '(k, var), (k,.) <$> g var) db_vars ↔
      (k = "host" ∧ g "DB_HOST" = Some v) ∨ (k = "port" ∧ g "DB_PORT" = Some v) ∨
      (k = "dbname" ∧ g "DB_NAME" = Some v) ∨ (k = "user" ∧ g "DB_USER" = Some v) ∨
      (k = "password" ∧ g "DB_PASSWORD" = Some v).
  Proof.
    rewrite list_elem_of_omap. split.
    - intros ([k' var] & Hin & Hg). destruct (g var) eqn:E; cbn in Hg; [|done].
      injection Hg as <- <-. unfold db_vars in Hin.
      repeat (apply elem_of_cons in Hin as [Hin|Hin]; [injection Hin as <- <-; naive_solver|]).
      by apply elem_of_nil in Hin.
    - intros [[-> Hg]|[[-> Hg]|[[-> Hg]|[[-> Hg]|[-> Hg]]]]];
        [exists ("host", "DB_HOST")%string | exists ("port", "DB_PORT")%string
        | exists ("dbname", "DB_NAME")%string | exists ("user", "DB_USER")%string
        | exists ("password", "DB_PASSWORD")%string];
        (split; [apply (bool_decide_unpack _); vm_compute; exact I|by rewrite Hg]).
  Qed.

  (** C29: the connection parameters of [get_db_connection].  When the
      working directory has no [.env], they are the process environment's
      [DB_HOST], [DB_PORT], [DB_NAME], [DB_USER], [DB_PASSWORD] under
      [host], [port], [dbname], [user], [password], whatever [.env] the
      directory of [app.py] holds.  When it has one, the file read is the
      one [find_dotenv] finds from the directory of [app.py], not the
      working directory's, and each parameter is the environment's value,
      else that file's last binding.  Either way a variable set nowhere is
      dropped from the connection string (libpq then uses its default). *)
Theorem startup_dsn fs cwd sd env :
    (fs !! cwd = None → ∀ k v,
       (k, v) ∈ make_dsn (db_params (startup fs cwd sd env)) ↔
         (k = "host" ∧ env !! "DB_HOST" = Some v) ∨ (k = "port" ∧ env !! "DB_PORT" = Some v) ∨
         (k = "dbname" ∧ env !! "DB_NAME" = Some v) ∨ (k = "user" ∧ env !! "DB_USER" = Some v) ∨
         (k = "password" ∧ env !! "DB_PASSWORD" = Some v)) ∧
    (∀ f, is_Some (fs !! cwd) → find_dotenv fs sd = Some f → ∀ k v,
       (k, v) ∈ make_dsn (db_params (startup fs cwd sd env)) ↔
         (k = "host" ∧ conf_value env f "DB_HOST" = Some v) ∨
         (k = "port" ∧ conf_value env f "DB_PORT" = Some v) ∨
         (k = "dbname" ∧ conf_value env f "DB_NAME" = Some v) ∨
         (k = "user" ∧ conf_value env f "DB_USER" = Some v) ∨
         (k = "password" ∧ conf_value env f "DB_PASSWORD" = Some v))%string.
  Proof.
    unfold startup, db_params. split.
    - intros Hc k v. rewrite decide_False by (rewrite Hc; apply is_Some_None).
      rewrite make_dsn_params. apply (dsn_elem (λ var, env !! var)).
    - intros f Hc Hf k v. rewrite decide_True by done. unfold load_dotenv. rewrite Hf, make_dsn_params.
      rewrite (dsn_elem (λ var, set_as_environment_variables (dotenv_dict f) env !! var)).
      by rewrite !set_as_env_lookup.
  Qed.
End Config.

Module ConfigWitnesses.
  Import Config.

  (** Run from a home directory with a [.env] of its own: the host is
      the one of the application's [.env]. *)
Lemma startup_dsn_witness :
    is_Some (demo_fs !! home_dir) ∧ find_dotenv demo_fs app_dir = Some app_env_file ∧
    ("host", "db.internal") ∈ make_dsn (db_params (startup demo_fs home_dir app_dir ∅)).
  Proof.
    assert (H1 : is_Some (demo_fs !! home_dir)) by (eexists; vm_compute; reflexivity).
    assert (H2 : find_dotenv demo_fs app_dir = Some app_env_file) by (vm_compute; reflexivity).
    split_and!; [exact H1|exact H2|].
    apply (proj2 (startup_dsn demo_fs home_dir app_dir ∅) app_env_file H1 H2).
    left. split; [reflexivity|vm_compute; reflexivity].
  Defined.
End ConfigWitnesses.
