(* ===== verification/Demo.v ===== *)
(** * Concrete worlds and requests

    A board with one post (id 1, one comment, one like), six rows of
    [fms.chick_info], and the requests
    the witnesses of the handler theorems run on it. *)

From S2P Require Import Prelude Schema Sql Runtime.

Module Demo.
  Local Open Scope string_scope.
  Local Open Scope Z_scope.

Definition demo_post : Post :=
    mkPost 1 "hello" "kim" "first post" 100 None 3 1.

  (** Six hatchings of three breeds, one without a recorded weight. *)
Definition demo_chicks : list ChickInfo :=
    [mkChick 1 "silkie" (Some 40) 10; mkChick 2 "leghorn" (Some 55) 30;
     mkChick 3 "silkie" None 20; mkChick 4 "brahma" (Some 60) 50;
     mkChick 5 "leghorn" (Some 57) 40; mkChick 6 "silkie" (Some 42) 60].

Definition demo_db : Db :=
    {| posts := {[1%Z := demo_post]}; post_seq := 2;
       comments := [mkComment 1 1 "lee" "nice" 110]; comment_seq := 2;
       likes := [mkLike 1 "198.51.100.1"]; chick_info := demo_chicks |}.

Definition demo_world : World := mkWorld demo_db true ∅ 0 [].
Definition demo_world_down : World := mkWorld demo_db false ∅ 0 [].

  (** A request from [ip] with form [f] at time 200. *)
Definition req (f : list (string * string)) (ip : string) : Request :=
    mkRequest f ip 200.

Definition ip_liker : string := "198.51.100.1".
Definition ip_other : string := "203.0.113.9".

Definition form_post : list (string * string) :=
    [("title", "T"); ("author", "A"); ("content", "C")].
Definition form_no_content : list (string * string) :=
    [("title", "T"); ("author", "A"); ("content", "")].
Definition form_comment : list (string * string) :=
    [("author", "park"); ("content", "me too")].
Definition form_batch : list (string * string) :=
    [("post_ids", "1"); ("post_ids", " 1 "); ("post_ids", "7")].
Definition form_batch_bad : list (string * string) :=
    [("post_ids", "1"); ("post_ids", "abc")].
End Demo.
