(* ===== verification/Handlers.v ===== *)
(** * The route handlers of [src/app.py]

    One definition per handler, composed of the calls of [Runtime.v] and
    the statements of [Sql.v] in the order the code makes them, with the
    guards of its [if] statements and early returns.  The [cursor.close()]
    calls are not modelled (see the header of [Prelude.v]). *)

From S2P Require Import Prelude Schema Sql Fms Runtime Demo.
From Stdlib Require Import QArith_base.

Module Handlers.
  Local Open Scope Z_scope.

  (** Lines 29-41: [GET /]. *)
Definition index : M Response :=
    conn ← get_db_connection;
    cursor conn;;
    posts ← query conn Sql.select_index;
    close conn;;
    mret (Render (PageIndex posts)).

  (** Lines 43-45: [GET /create/]. *)
Definition create_form : M Response := mret (Render PageCreate).

  (** Lines 47-67: [POST /create/].  The parameters of the [INSERT] are
      passed as the code passes them: [(title, author, content)]. *)
Definition create_post : M Response :=
    f_title ← form_get "title";
    f_author ← form_get "author";
    f_content ← form_get "content";
    match filled f_title, filled f_author, filled f_content with
    | Some t, Some a, Some c =>
        conn ← get_db_connection;
        cursor conn;;
        tm ← get_now;
        post_id ← execute conn (Sql.insert_post t a c tm);
        close conn;;
        flash MsgPostCreated;;
        mret (Redirect (ToViewPost post_id))
    | _, _, _ =>
        flash MsgFillAllFields;;
        mret (Redirect ToCreateForm)
    end.

  (** Lines 69-99: [GET /post/<post_id>].  Two connections, one after the
      other: the first for the view count, the post and its comments, the
      second for the like state of the requesting address. *)
Definition view_post (pid : Z) : M Response :=
    conn ← get_db_connection;
    cursor conn;;
    exec conn (Sql.incr_view_count pid);;
    post ← query conn (Sql.select_post pid);
    match post with
    | None =>
        close conn;;
        flash MsgPostNotFound;;
        mret (Redirect ToIndex)
    | Some p =>
        cs ← query conn (Sql.select_comments pid);
        close conn;;
        user_ip ← get_remote_addr;
        conn2 ← get_db_connection;
        cursor conn2;;
        n ← query conn2 (Sql.count_likes pid user_ip);
        close conn2;;
        mret (Render (PageView p cs (bool_decide (n > 0))))
    end.

  (** Lines 101-114: [GET /edit/<post_id>]. *)
Definition edit_form (pid : Z) : M Response :=
    conn ← get_db_connection;
    cursor conn;;
    post ← query conn (Sql.select_post pid);
    close conn;;
    match post with
    | None => flash MsgPostNotFound;; mret (Redirect ToIndex)
    | Some p => mret (Render (PageEdit p))
    end.

  (** Lines 116-135: [POST /edit/<post_id>]. *)
Definition edit_post (pid : Z) : M Response :=
    f_title ← form_get "title";
    f_content ← form_get "content";
    match filled f_title, filled f_content with
    | Some t, Some c =>
        conn ← get_db_connection;
        cursor conn;;
        tm ← get_now;
        exec conn (Sql.update_post pid t c tm);;
        close conn;;
        flash MsgPostEdited;;
        mret (Redirect (ToViewPost pid))
    | _, _ =>
        flash MsgTitleContentRequired;;
        mret (Redirect (ToEditForm pid))
    end.

  (** Lines 137-146: [POST /delete/<post_id>]. *)
Definition delete_post (pid : Z) : M Response :=
    conn ← get_db_connection;
    cursor conn;;
    exec conn (Sql.delete_post pid);;
    close conn;;
    flash MsgPostDeleted;;
    mret (Redirect ToIndex).

  (** Lines 148-167: [POST /post/comment/<post_id>]. *)
Definition add_comment (pid : Z) : M Response :=
    f_author ← form_get "author";
    f_content ← form_get "content";
    match filled f_author, filled f_content with
    | Some a, Some c =>
        conn ← get_db_connection;
        cursor conn;;
        tm ← get_now;
        exec conn (Sql.insert_comment pid a c tm);;
        close conn;;
        flash MsgCommentAdded;;
        mret (Redirect (ToViewPost pid))
    | _, _ =>
        flash MsgAuthorContentRequired;;
        mret (Redirect (ToViewPost pid))
    end.

  (** Lines 169-190: [POST /post/like/<post_id>]: a count, then two writes. *)
Definition like_post (pid : Z) : M Response :=
    user_ip ← get_remote_addr;
    conn ← get_db_connection;
    cursor conn;;
    n ← query conn (Sql.count_likes pid user_ip);
    message ←
      (if bool_decide (n > 0) then
         exec conn (Sql.delete_likes pid user_ip);;
         exec conn (Sql.add_like_count (-1) pid);;
         mret MsgLikeRemoved
       else
         exec conn (Sql.insert_like pid user_ip);;
         exec conn (Sql.add_like_count 1 pid);;
         mret MsgLikeAdded);
    close conn;;
    flash message;;
    mret (Redirect (ToViewPost pid)).

  (** Lines 202-212, the body of the [try] after [conn] is assigned. *)
Definition delete_batch_body (conn : ConnId) (post_ids : list string) : M unit :=
    set_autocommit conn true;;
    cursor conn;;
    ids_to_delete ← mapM py_int post_ids;
    exec conn (Sql.delete_posts_any ids_to_delete);;
    flash (MsgBatchDeleted (length ids_to_delete)).

  (** Lines 200-212, the [try] block: the value of the local [conn] when
      the block ends ([None] while [get_db_connection] has not returned) and
      the exception it raised, if any. *)
Definition delete_batch_try (post_ids : list string) : M (option ConnId * option Exn) :=
    try: (conn ← get_db_connection;
          try: (delete_batch_body conn post_ids;; mret (Some conn, None))
          except e => mret (Some conn, Some e))
    except e => mret (None, Some e).

  (** Lines 192-225: [POST /delete/batch]: the [except] clause rolls back
      and flashes the error, the [finally] clause closes the connection;
      an exception of the [except] clause is raised again after it. *)
Definition delete_batch : M Response :=
    post_ids ← form_getlist "post_ids";
    match post_ids with
    | [] =>
        flash MsgSelectPosts;;
        mret (Redirect ToIndex)
    | _ =>
        '(conn, err) ← delete_batch_try post_ids;
        pending ←
          (match err with
           | None => mret None
           | Some e =>
               try: ((match conn with Some c => rollback c | None => mret () end);;
                     flash (MsgBatchError e);;
                     mret None)
               except e' => mret (Some e')
           end);
        (match conn with Some c => close c | None => mret () end);;
        match pending with
        | Some e' => raise e'
        | None => mret (Redirect ToIndex)
        end
    end.

  (** Lines 227-250: [GET /fms]: three queries on one connection. *)
Definition fms_dashboard : M Response :=
    conn ← get_db_connection;
    cursor conn;;
    summary ← query conn Fms.select_summary;
    breed_stats ← query conn Fms.select_breed_stats;
    recent_chicks ← query conn Fms.select_recent;
    close conn;;
    mret (Render (PageFms summary breed_stats recent_chicks)).

  (** The board's routes (the [@app.route] decorators) and the handler
      Flask dispatches each to. *)
Inductive Route :=
    | RIndex                  (* GET  /                      *)
    | RCreateForm             (* GET  /create/               *)
    | RCreatePost             (* POST /create/               *)
    | RViewPost (pid : Z)     (* GET  /post/<int:post_id>    *)
    | REditForm (pid : Z)     (* GET  /edit/<int:post_id>    *)
    | REditPost (pid : Z)     (* POST /edit/<int:post_id>    *)
    | RDeletePost (pid : Z)   (* POST /delete/<int:post_id>  *)
    | RAddComment (pid : Z)   (* POST /post/comment/<int:post_id> *)
    | RLikePost (pid : Z)     (* POST /post/like/<int:post_id>    *)
    | RDeleteBatch            (* POST /delete/batch          *)
    | RFms.                   (* GET  /fms                   *)

Definition handle (rt : Route) : M Response :=
    match rt with
    | RIndex => index
    | RCreateForm => create_form
    | RCreatePost => create_post
    | RViewPost pid => view_post pid
    | REditForm pid => edit_form pid
    | REditPost pid => edit_post pid
    | RDeletePost pid => delete_post pid
    | RAddComment pid => add_comment pid
    | RLikePost pid => like_post pid
    | RDeleteBatch => delete_batch
    | RFms => fms_dashboard
    end.

  (** [[int(pid) for pid in post_ids]]: the first literal [int] rejects, or
      the values. *)
Fixpoint ints_of (l : list string) : outcome Exn (list Z) :=
    match l with
    | [] => Ok []
    | s :: l' =>
        match PyInt.parse s with
        | None => Raise (ValueError s)
        | Some n =>
            match ints_of l' with
            | Ok ns => Ok (n :: ns)
            | Raise e => Raise e
            end
        end
    end.

  (** * Every branch of every handler *)

  Section Run.
Context (r : Request) (w : World).

Lemma mapM_py_int l : mapM py_int l r w = (ints_of l, w).
    Proof.
      induction l as [|s l IH]; [done|].
      change (mapM py_int (s :: l)) with (n ← py_int s; ns ← mapM py_int l; mret (n :: ns)).
      unfold py_int; cbn [ints_of]. destruct (PyInt.parse s); [|done].
      rewrite bind_ret_l. destruct (ints_of l) eqn:E.
      - by erewrite bind_ok by exact IH.
      - by erewrite bind_raise by exact IH.
    Qed.

Theorem index_run :
      db_up w = true →
      index r w = (Ok (Render (PageIndex (Sql.select_index (db w)))),
                   request_done w (db w) 1 []).
    Proof. intros Hup. unfold index. rse_run. rse_done. Qed.

Theorem create_post_run t a c :
      db_up w = true →
      filled (form_lookup "title" (form r)) = Some t →
      filled (form_lookup "author" (form r)) = Some a →
      filled (form_lookup "content" (form r)) = Some c →
      create_post r w =
        (Ok (Redirect (ToViewPost (post_seq (db w)))),
         request_done w (Sql.insert_post t a c (now r) (db w)).2 1 [MsgPostCreated]).
    Proof.
      intros Hup Ht Ha Hc. unfold create_post. rse_run.
      rewrite Ht, Ha, Hc. cbv beta iota. rse_run; rse_done.
    Qed.

Theorem create_post_missing_run :
      filled (form_lookup "title" (form r)) = None ∨
      filled (form_lookup "author" (form r)) = None ∨
      filled (form_lookup "content" (form r)) = None →
      create_post r w = (Ok (Redirect ToCreateForm), request_done w (db w) 0 [MsgFillAllFields]).
    Proof.
      intros Hmiss. unfold create_post. rse_run.
      destruct (filled (form_lookup "title" _)), (filled (form_lookup "author" _)),
        (filled (form_lookup "content" _)); naive_solver.
    Qed.

Theorem view_post_found_run pid p :
      db_up w = true → posts (db w) !! pid = Some p →
      view_post pid r w =
        (Ok (Render (PageView (set_view_count (view_count p + 1) p)
                       (Sql.select_comments pid (db w))
                       (bool_decide (Sql.count_likes pid (remote_addr r) (db w) > 0)))),
         request_done w (Sql.incr_view_count pid (db w)) 2 []).
    Proof.
      intros Hup Hp. unfold view_post. rse_run. autorewrite with rse_run.
      unfold Sql.select_post at 1. rewrite Hp. cbn [fmap option_fmap option_map].
      rse_run. rse_done.
    Qed.

Theorem view_post_missing_run pid :
      db_up w = true → posts (db w) !! pid = None →
      view_post pid r w = (Ok (Redirect ToIndex), request_done w (db w) 1 [MsgPostNotFound]).
    Proof.
      intros Hup Hp. unfold view_post. rse_run. autorewrite with rse_run.
      unfold Sql.select_post at 1. rewrite Hp. cbn [fmap option_fmap option_map].
      rse_run. unfold request_done, Sql.incr_view_count, set_posts. cbn.
      rewrite alter_id' by done. by destruct (db w).
    Qed.

Theorem edit_form_found_run pid p :
      db_up w = true → posts (db w) !! pid = Some p →
      edit_form pid r w = (Ok (Render (PageEdit p)), request_done w (db w) 1 []).
    Proof.
      intros Hup Hp. unfold edit_form. rse_run. autorewrite with rse_run.
      unfold Sql.select_post. rewrite Hp.
      cbv beta iota. rse_run. rse_done.
    Qed.

Theorem edit_form_missing_run pid :
      db_up w = true → posts (db w) !! pid = None →
      edit_form pid r w = (Ok (Redirect ToIndex), request_done w (db w) 1 [MsgPostNotFound]).
    Proof.
      intros Hup Hp. unfold edit_form. rse_run. autorewrite with rse_run.
      unfold Sql.select_post. rewrite Hp.
      cbv beta iota. rse_run; rse_done.
    Qed.

Theorem edit_post_run pid t c :
      db_up w = true →
      filled (form_lookup "title" (form r)) = Some t →
      filled (form_lookup "content" (form r)) = Some c →
      edit_post pid r w =
        (Ok (Redirect (ToViewPost pid)),
         request_done w (Sql.update_post pid t c (now r) (db w)) 1 [MsgPostEdited]).
    Proof.
      intros Hup Ht Hc. unfold edit_post. rse_run. rewrite Ht, Hc. cbv beta iota.
      rse_run; rse_done.
    Qed.

Theorem edit_post_missing_run pid :
      filled (form_lookup "title" (form r)) = None ∨
      filled (form_lookup "content" (form r)) = None →
      edit_post pid r w =
        (Ok (Redirect (ToEditForm pid)), request_done w (db w) 0 [MsgTitleContentRequired]).
    Proof.
      intros Hmiss. unfold edit_post. rse_run.
      destruct (filled (form_lookup "title" _)), (filled (form_lookup "content" _));
        naive_solver.
    Qed.

Theorem delete_post_run pid :
      db_up w = true →
      delete_post pid r w =
        (Ok (Redirect ToIndex), request_done w (Sql.delete_post pid (db w)) 1 [MsgPostDeleted]).
    Proof. intros Hup. unfold delete_post. rse_run; rse_done. Qed.

Theorem add_comment_run pid a c :
      db_up w = true →
      filled (form_lookup "author" (form r)) = Some a →
      filled (form_lookup "content" (form r)) = Some c →
      add_comment pid r w =
        (Ok (Redirect (ToViewPost pid)),
         request_done w (Sql.insert_comment pid a c (now r) (db w)) 1 [MsgCommentAdded]).
    Proof.
      intros Hup Ha Hc. unfold add_comment. rse_run. rewrite Ha, Hc. cbv beta iota.
      rse_run; rse_done.
    Qed.

Theorem add_comment_missing_run pid :
      filled (form_lookup "author" (form r)) = None ∨
      filled (form_lookup "content" (form r)) = None →
      add_comment pid r w =
        (Ok (Redirect (ToViewPost pid)), request_done w (db w) 0 [MsgAuthorContentRequired]).
    Proof.
      intros Hmiss. unfold add_comment. rse_run.
      destruct (filled (form_lookup "author" _)), (filled (form_lookup "content" _));
        naive_solver.
    Qed.

Theorem like_post_add_run pid :
      db_up w = true → Sql.count_likes pid (remote_addr r) (db w) = 0 →
      like_post pid r w =
        (Ok (Redirect (ToViewPost pid)),
         request_done w (Sql.add_like_count 1 pid (Sql.insert_like pid (remote_addr r) (db w)))
           1 [MsgLikeAdded]).
    Proof.
      intros Hup Hn. unfold like_post. rse_run. autorewrite with rse_run.
      rewrite Hn, bool_decide_false by lia. rse_run. rse_done.
    Qed.

Theorem like_post_remove_run pid :
      db_up w = true → Sql.count_likes pid (remote_addr r) (db w) > 0 →
      like_post pid r w =
        (Ok (Redirect (ToViewPost pid)),
         request_done w (Sql.add_like_count (-1) pid (Sql.delete_likes pid (remote_addr r) (db w)))
           1 [MsgLikeRemoved]).
    Proof.
      intros Hup Hn. unfold like_post. rse_run. autorewrite with rse_run.
      rewrite bool_decide_true by lia. rse_run. rse_done.
    Qed.

    (** When the server refuses connections, [get_db_connection] raises
        before anything changes. *)
Theorem fms_dashboard_run :
      db_up w = true →
      fms_dashboard r w =
        (Ok (Render (PageFms (Fms.select_summary (db w)) (Fms.select_breed_stats (db w))
                       (Fms.select_recent (db w)))),
         request_done w (db w) 1 []).
    Proof. intros Hup. unfold fms_dashboard. rse_run. rse_done. Qed.

Lemma fms_dashboard_down : db_up w = false → fms_dashboard r w = (Raise OperationalError, w).
    Proof. intros Hd. unfold fms_dashboard. by rse_run. Qed.

Lemma index_down : db_up w = false → index r w = (Raise OperationalError, w).
    Proof. intros Hd. unfold index. by rse_run. Qed.
Lemma view_post_down pid : db_up w = false → view_post pid r w = (Raise OperationalError, w).
    Proof. intros Hd. unfold view_post. by rse_run. Qed.
Lemma edit_form_down pid : db_up w = false → edit_form pid r w = (Raise OperationalError, w).
    Proof. intros Hd. unfold edit_form. by rse_run. Qed.
Lemma delete_post_down pid : db_up w = false → delete_post pid r w = (Raise OperationalError, w).
    Proof. intros Hd. unfold delete_post. by rse_run. Qed.
Lemma like_post_down pid : db_up w = false → like_post pid r w = (Raise OperationalError, w).
    Proof. intros Hd. unfold like_post. by rse_run. Qed.
Lemma create_post_down t a c :
      db_up w = false →
      filled (form_lookup "title" (form r)) = Some t →
      filled (form_lookup "author" (form r)) = Some a →
      filled (form_lookup "content" (form r)) = Some c →
      create_post r w = (Raise OperationalError, w).
    Proof. intros Hd Ht Ha Hc. unfold create_post. rse_run. rewrite Ht, Ha, Hc. by rse_run. Qed.
Lemma edit_post_down pid t c :
      db_up w = false →
      filled (form_lookup "title" (form r)) = Some t →
      filled (form_lookup "content" (form r)) = Some c →
      edit_post pid r w = (Raise OperationalError, w).
    Proof. intros Hd Ht Hc. unfold edit_post. rse_run. rewrite Ht, Hc. by rse_run. Qed.
Lemma add_comment_down pid a c :
      db_up w = false →
      filled (form_lookup "author" (form r)) = Some a →
      filled (form_lookup "content" (form r)) = Some c →
      add_comment pid r w = (Raise OperationalError, w).
    Proof. intros Hd Ha Hc. unfold add_comment. rse_run. rewrite Ha, Hc. by rse_run. Qed.

Lemma mapM_py_int_ok l ns : ints_of l = Ok ns → mapM py_int l r w = (Ok ns, w).
    Proof. intros H. by rewrite mapM_py_int, H. Qed.
Lemma mapM_py_int_raise l e : ints_of l = Raise e → mapM py_int l r w = (Raise e, w).
    Proof. intros H. by rewrite mapM_py_int, H. Qed.
  End Run.

#[local] Hint Resolve mapM_py_int_ok mapM_py_int_raise : rse.

  Section Batch.
Context (r : Request) (w : World).

Lemma delete_batch_try_ok ids ns :
      db_up w = true → ints_of ids = Ok ns →
      delete_batch_try ids r w =
        (Ok (Some (conn_seq w), None),
         add_flash (MsgBatchDeleted (length ns))
           (set_db (λ _, Sql.delete_posts_any ns (db w)) (open_conn w))).
    Proof.
      intros Hup Hns. unfold delete_batch_try, delete_batch_body.
      apply catch_ok. rse_run. apply catch_ok. rse_run. rse_done.
    Qed.

Lemma delete_batch_try_bad ids e :
      db_up w = true → ints_of ids = Raise e →
      delete_batch_try ids r w = (Ok (Some (conn_seq w), Some e), open_conn w).
    Proof.
      intros Hup He. unfold delete_batch_try, delete_batch_body.
      apply catch_ok. rse_run. erewrite catch_raise.
      2: { rse_run. reflexivity. }
      rse_done.
    Qed.

Lemma delete_batch_try_down ids :
      db_up w = false → delete_batch_try ids r w = (Ok (None, Some OperationalError), w).
    Proof.
      intros Hdown. unfold delete_batch_try. erewrite catch_raise.
      2: { rse_run. reflexivity. }
      rse_done.
    Qed.

Theorem delete_batch_empty_run :
      form_values "post_ids" (form r) = [] →
      delete_batch r w = (Ok (Redirect ToIndex), request_done w (db w) 0 [MsgSelectPosts]).
    Proof. intros Hids. unfold delete_batch. rse_run. rewrite Hids. rse_run. rse_done. Qed.

Theorem delete_batch_ok_run ids ns :
      db_up w = true → form_values "post_ids" (form r) = ids → ids ≠ [] →
      ints_of ids = Ok ns →
      delete_batch r w =
        (Ok (Redirect ToIndex),
         request_done w (Sql.delete_posts_any ns (db w)) 1 [MsgBatchDeleted (length ns)]).
    Proof.
      intros Hup Hids Hne Hns. unfold delete_batch. rse_run. rewrite Hids.
      destruct ids as [|s l]; [done|]. cbv iota.
      erewrite bind_ok by (by apply delete_batch_try_ok). cbv beta iota.
      rse_run. rse_done.
    Qed.

Theorem delete_batch_bad_run ids e :
      db_up w = true → form_values "post_ids" (form r) = ids → ids ≠ [] →
      ints_of ids = Raise e →
      delete_batch r w =
        (Ok (Redirect ToIndex), request_done w (db w) 1 [MsgBatchError e]).
    Proof.
      intros Hup Hids Hne He. unfold delete_batch. rse_run. rewrite Hids.
      destruct ids as [|s l]; [done|]. cbv iota.
      erewrite bind_ok by (by apply delete_batch_try_bad). cbv beta iota.
      erewrite bind_ok.
      2: { apply catch_ok. rse_run. reflexivity. }
      cbv beta iota. rse_run. rse_done.
    Qed.

Theorem delete_batch_down_run ids :
      db_up w = false → form_values "post_ids" (form r) = ids → ids ≠ [] →
      delete_batch r w =
        (Ok (Redirect ToIndex), request_done w (db w) 0 [MsgBatchError OperationalError]).
    Proof.
      intros Hdown Hids Hne. unfold delete_batch. rse_run. rewrite Hids.
      destruct ids as [|s l]; [done|]. cbv iota.
      erewrite bind_ok by (by apply delete_batch_try_down). cbv beta iota.
      erewrite bind_ok.
      2: { apply catch_ok. rse_run. reflexivity. }
      cbv beta iota. rse_run. rse_done.
    Qed.
  End Batch.

  (** * The properties of the handlers *)

  Section Properties.
Context (r : Request) (w : World).

    (** C1: creating a post with the three fields filled inserts exactly
        one row under the next id, with view and like counts 0, and
        redirects to it; the row's [author] column holds the submitted
        content and its [content] column the submitted author, because the
        INSERT's column list and parameter tuple are in different orders. *)
Theorem create_post_stores_swapped t a c res w' :
      db_up w = true →
      filled (form_lookup "title" (form r)) = Some t →
      filled (form_lookup "author" (form r)) = Some a →
      filled (form_lookup "content" (form r)) = Some c →
      create_post r w = (res, w') →
      res = Ok (Redirect (ToViewPost (post_seq (db w)))) ∧
      posts (db w') = <[post_seq (db w) := mkPost (post_seq (db w)) t c a (now r) None 0 0]>
                        (posts (db w)) ∧
      post_seq (db w') = post_seq (db w) + 1 ∧
      likes (db w') = likes (db w) ∧ comments (db w') = comments (db w) ∧
      flashes w' = flashes w ++ [MsgPostCreated].
    Proof.
      intros Hup Ht Ha Hc H. rewrite (create_post_run r w t a c) in H by done.
      injection H as <- <-. by split_and!.
    Qed.

    (** C9: viewing an existing post adds exactly 1 to its [view_count],
        changes nothing else in the store and renders the updated row with
        its comments and whether the address has liked it; viewing a
        missing post redirects to the list with the not-found flash and
        leaves the store as it was (the UPDATE of line 74 matched no row). *)
Theorem view_post_spec pid res w' :
      db_up w = true → view_post pid r w = (res, w') →
      match posts (db w) !! pid with
      | Some p =>
          res = Ok (Render (PageView (set_view_count (view_count p + 1) p)
                              (Sql.select_comments pid (db w))
                              (bool_decide (Sql.count_likes pid (remote_addr r) (db w) > 0)))) ∧
          posts (db w') = <[pid := set_view_count (view_count p + 1) p]> (posts (db w)) ∧
          likes (db w') = likes (db w) ∧ comments (db w') = comments (db w) ∧
          flashes w' = flashes w
      | None =>
          res = Ok (Redirect ToIndex) ∧ db w' = db w ∧ flashes w' = flashes w ++ [MsgPostNotFound]
      end.
    Proof.
      intros Hup H. destruct (posts (db w) !! pid) as [p|] eqn:Hp.
      - rewrite (view_post_found_run r w pid p) in H by done.
        injection H as <- <-. cbn. rewrite app_nil_r. split_and!; [done| |done..].
        unfold Sql.incr_view_count, set_posts. cbn. apply map_eq. intros k.
        destruct (decide (pid = k)) as [->|Hne].
        + by rewrite lookup_alter_eq, lookup_insert_eq, Hp.
        + by rewrite lookup_alter_ne, lookup_insert_ne.
      - rewrite (view_post_missing_run r w pid) in H by done. by injection H as <- <-.
    Qed.

    (** C13: a form with a missing or empty required field stores
        nothing, opens no connection and redirects back to its form: a new
        post needs title, author and content, an edit title and content. *)
Theorem form_rejects_missing :
      (∀ res w',
         filled (form_lookup "title" (form r)) = None ∨
         filled (form_lookup "author" (form r)) = None ∨
         filled (form_lookup "content" (form r)) = None →
         create_post r w = (res, w') →
         res = Ok (Redirect ToCreateForm) ∧ db w' = db w ∧ conns w' = conns w ∧
         flashes w' = flashes w ++ [MsgFillAllFields]) ∧
      (∀ pid res w',
         filled (form_lookup "title" (form r)) = None ∨
         filled (form_lookup "content" (form r)) = None →
         edit_post pid r w = (res, w') →
         res = Ok (Redirect (ToEditForm pid)) ∧ db w' = db w ∧ conns w' = conns w ∧
         flashes w' = flashes w ++ [MsgTitleContentRequired]).
    Proof.
      split.
      - intros res w' Hm H. rewrite (create_post_missing_run r w) in H by done.
        by injection H as <- <-.
      - intros pid res w' Hm H. rewrite (edit_post_missing_run r w pid) in H by done.
        by injection H as <- <-.
    Qed.

    (** C7: a like from an address that has none for the post inserts
        exactly one like row and adds 1 to that post's [like_count]. *)
Theorem like_post_toggle_add pid res w' :
      db_up w = true → Sql.count_likes pid (remote_addr r) (db w) = 0 →
      like_post pid r w = (res, w') →
      res = Ok (Redirect (ToViewPost pid)) ∧
      likes (db w') = likes (db w) ++ [mkLike pid (remote_addr r)] ∧
      posts (db w') = alter (λ p, set_like_count (like_count p + 1) p) pid (posts (db w)) ∧
      flashes w' = flashes w ++ [MsgLikeAdded].
    Proof.
      intros Hup Hn H. rewrite (like_post_add_run r w pid) in H by done.
      by injection H as <- <-.
    Qed.

    (** C8: a like from an address that has one for the post deletes every
        like row of that address for the post and subtracts 1 from its
        [like_count]. *)
Theorem like_post_toggle_remove pid res w' :
      db_up w = true → Sql.count_likes pid (remote_addr r) (db w) > 0 →
      like_post pid r w = (res, w') →
      res = Ok (Redirect (ToViewPost pid)) ∧
      likes (db w') = filter (λ l, l ≠ mkLike pid (remote_addr r)) (likes (db w)) ∧
      posts (db w') = alter (λ p, set_like_count (like_count p + -1) p) pid (posts (db w)) ∧
      flashes w' = flashes w ++ [MsgLikeRemoved].
    Proof.
      intros Hup Hn H. rewrite (like_post_remove_run r w pid) in H by done.
      by injection H as <- <-.
    Qed.

    (** C22: an edit with title and content sets those two columns and
        [updated_at] of the post and nothing else; a missing id matches no
        row. *)
Theorem edit_post_updates pid t c res w' :
      db_up w = true →
      filled (form_lookup "title" (form r)) = Some t →
      filled (form_lookup "content" (form r)) = Some c →
      edit_post pid r w = (res, w') →
      res = Ok (Redirect (ToViewPost pid)) ∧
      posts (db w') !! pid =
        (λ p, mkPost (post_id p) t (author p) c (created_at p) (Some (now r))
                (view_count p) (like_count p)) <$> posts (db w) !! pid ∧
      (∀ k, k ≠ pid → posts (db w') !! k = posts (db w) !! k) ∧
      flashes w' = flashes w ++ [MsgPostEdited].
    Proof.
      intros Hup Ht Hc H. rewrite (edit_post_run r w pid t c) in H by done.
      injection H as <- <-. cbn. split_and!; [done| |intros k Hk|done].
      - by rewrite lookup_alter_eq.
      - by rewrite lookup_alter_ne.
    Qed.

    (** C23: deleting a post removes its row and nothing else: its
        comments and like rows stay in their tables (no cascade). *)
Theorem delete_post_removes pid res w' :
      db_up w = true → delete_post pid r w = (res, w') →
      res = Ok (Redirect ToIndex) ∧ posts (db w') = delete pid (posts (db w)) ∧
      comments (db w') = comments (db w) ∧ likes (db w') = likes (db w) ∧
      flashes w' = flashes w ++ [MsgPostDeleted].
    Proof.
      intros Hup H. rewrite (delete_post_run r w pid) in H by done.
      by injection H as <- <-.
    Qed.

    (** C24: the list page shows every post once, newest first. *)
Theorem index_lists_newest_first res w' :
      db_up w = true → index r w = (res, w') →
      ∃ rows, res = Ok (Render (PageIndex rows)) ∧
        rows ≡ₚ Sql.index_row <$> (snd <$> map_to_list (posts (db w))) ∧
        Sorted Sql.newer_first rows ∧ db w' = db w.
    Proof.
      intros Hup H. rewrite (index_run r w) in H by done. injection H as <- <-.
      eexists; split_and!; [done| apply merge_sort_Permutation | | done].
      apply Sorted_merge_sort. intros a b. unfold Sql.newer_first. lia.
    Qed.
  End Properties.

  (** [int] either rejects a literal or parses every one. *)
Lemma ints_of_length l ns : ints_of l = Ok ns → length ns = length l.
  Proof.
    revert ns. induction l as [|s l IH]; intros ns; cbn; [by intros [= <-]|].
    destruct (PyInt.parse s); [|done]. destruct (ints_of l); [|done].
    intros [= <-]. cbn. by rewrite (IH _ eq_refl).
  Qed.

  Section BatchProperties.
Context (r : Request) (w : World).

    (** C14: a batch of well-formed ids deletes exactly the posts whose id
        is among them, and keeps every other post. *)
Theorem delete_batch_removes_exactly ids ns res w' :
      db_up w = true → form_values "post_ids" (form r) = ids → ids ≠ [] →
      ints_of ids = Ok ns → delete_batch r w = (res, w') →
      res = Ok (Redirect ToIndex) ∧
      ∀ k, posts (db w') !! k = if decide (k ∈ ns) then None else posts (db w) !! k.
    Proof.
      intros Hup Hids Hne Hns H. rewrite (delete_batch_ok_run r w ids ns) in H by done.
      injection H as <- <-. split; [done|]. apply SqlFacts2.lookup_delete_posts_any.
    Qed.

    (** C20: the success message counts the submitted ids, not the deleted
        rows: repeated ids and ids without a post are counted too. *)
Theorem delete_batch_reports_submitted ids ns res w' :
      db_up w = true → form_values "post_ids" (form r) = ids → ids ≠ [] →
      ints_of ids = Ok ns → delete_batch r w = (res, w') →
      flashes w' = flashes w ++ [MsgBatchDeleted (length ids)].
    Proof.
      intros Hup Hids Hne Hns H. rewrite (delete_batch_ok_run r w ids ns) in H by done.
      injection H as <- <-. cbn. by rewrite (ints_of_length _ _ Hns).
    Qed.

    (** C15: an id [int()] rejects does not fail the request: the
        [ValueError] is caught, nothing is deleted, the error is flashed and
        the connection is closed. *)
Theorem delete_batch_catches_bad_literal ids s res w' :
      db_up w = true → form_values "post_ids" (form r) = ids → ids ≠ [] →
      ints_of ids = Raise (ValueError s) → delete_batch r w = (res, w') →
      res = Ok (Redirect ToIndex) ∧ db w' = db w ∧
      flashes w' = flashes w ++ [MsgBatchError (ValueError s)] ∧
      (conns_fresh w → conns w' = conns w).
    Proof.
      intros Hup Hids Hne He H. rewrite (delete_batch_bad_run r w ids _) in H by done.
      injection H as <- <-. split_and!; [done..|]. apply request_done_conns.
    Qed.
  End BatchProperties.

  Section FmsProperties.
Context (r : Request) (w : World) (Hup : db_up w = true).

    (** C25: the dashboard leaves the store as it was and reports what
        [fms.chick_info] holds: the number of rows; the average weight,
        absent exactly when no row has a weight and otherwise their sum
        over their number (NULL weights skipped, not counted as zero); each
        breed present exactly once with its number of rows; and the
        [min 5 n] latest hatchings, none before a row it leaves out. *)
Theorem fms_dashboard_reports res w' :
      fms_dashboard r w = (res, w') →
      ∃ s stats recent rest, res = Ok (Render (PageFms s stats recent)) ∧ db w' = db w ∧
        Fms.total s = Z.of_nat (length (chick_info (db w))) ∧
        (Fms.avg_weight s = None ↔ Fms.weights (chick_info (db w)) = []) ∧
        (∀ q, Fms.avg_weight s = Some q →
          (q * inject_Z (Z.of_nat (length (Fms.weights (chick_info (db w))))) ==
             inject_Z (foldr Z.add 0%Z (Fms.weights (chick_info (db w)))))%Q) ∧
        NoDup stats.*1 ∧
        (∀ b n, (b, n) ∈ stats ↔
          (0 < count_where (λ c, breeds c = b) (chick_info (db w)))%nat ∧
          n = Z.of_nat (count_where (λ c, breeds c = b) (chick_info (db w)))) ∧
        recent ++ rest ≡ₚ chick_info (db w) ∧ Sorted Fms.later_hatch (recent ++ rest) ∧
        length recent = Nat.min 5 (length (chick_info (db w))).
    Proof.
      rewrite (fms_dashboard_run r w Hup). intros [= <- <-].
      destruct (Fms.select_recent_prefix (db w)) as (rest & ? & ? & ?).
      exists (Fms.select_summary (db w)), (Fms.select_breed_stats (db w)), (Fms.select_recent (db w)), rest.
      split_and!; try done.
      - apply Fms.select_summary_avg_none.
      - apply Fms.select_summary_avg.
      - apply Fms.select_breed_stats_NoDup.
      - apply Fms.select_breed_stats_elem.
    Qed.
  End FmsProperties.

  (** C16: the batch delete never raises: whatever the form and whether
      the server accepts connections, it redirects to the list; and an
      empty selection leaves the store untouched and opens no
      connection. *)
Theorem delete_batch_total r w :
    (delete_batch r w).1 = Ok (Redirect ToIndex) ∧
    (form_values "post_ids" (form r) = [] →
       db (delete_batch r w).2 = db w ∧ conns (delete_batch r w).2 = conns w ∧
       flashes (delete_batch r w).2 = flashes w ++ [MsgSelectPosts]).
  Proof.
    split; [|intros Hids; by rewrite (delete_batch_empty_run r w)].
    destruct (form_values "post_ids" (form r)) as [|s l] eqn:Hids.
    - by rewrite (delete_batch_empty_run r w).
    - destruct (db_up w) eqn:Hup; [|by rewrite (delete_batch_down_run r w (s :: l))].
      destruct (ints_of (s :: l)) eqn:Hns.
      + by rewrite (delete_batch_ok_run r w (s :: l) a).
      + by rewrite (delete_batch_bad_run r w (s :: l) e).
  Qed.

  (** * Witnesses *)

  Import Demo.

Lemma create_post_stores_swapped_witness :
    let r := req form_post ip_other in
    let res := (create_post r demo_world).1 in
    let w' := (create_post r demo_world).2 in
    res = Ok (Redirect (ToViewPost 2)) ∧
    posts (db w') = <[2 := mkPost 2 "T" "C" "A" 200 None 0 0]> (posts demo_db) ∧
    post_seq (db w') = 2 + 1 ∧ likes (db w') = likes demo_db ∧
    comments (db w') = comments demo_db ∧ flashes w' = [] ++ [MsgPostCreated].
  Proof.
    exact (create_post_stores_swapped (req form_post ip_other) demo_world "T" "A" "C" _ _
             eq_refl eq_refl eq_refl eq_refl eq_refl).
  Defined.

Lemma view_post_spec_witness :
    let r := req [] ip_liker in
    let res := (view_post 1 r demo_world).1 in
    let w' := (view_post 1 r demo_world).2 in
    posts demo_db !! 1 = Some demo_post ∧
    res = Ok (Render (PageView (set_view_count (3 + 1) demo_post)
                        (Sql.select_comments 1 demo_db)
                        (bool_decide (Sql.count_likes 1 ip_liker demo_db > 0)))) ∧
    posts (db w') = <[1 := set_view_count (3 + 1) demo_post]> (posts demo_db) ∧
    likes (db w') = likes demo_db ∧ comments (db w') = comments demo_db ∧
    flashes w' = [].
  Proof.
    cbn zeta. split; [reflexivity|].
    exact (view_post_spec (req [] ip_liker) demo_world 1 _ _ eq_refl eq_refl).
  Defined.

Lemma form_rejects_missing_witness :
    let r := req form_no_content ip_other in
    let r' := req [("title", "T")] ip_other in
    (create_post r demo_world).1 = Ok (Redirect ToCreateForm) ∧
    db (create_post r demo_world).2 = demo_db ∧
    conns (create_post r demo_world).2 = ∅ ∧
    flashes (create_post r demo_world).2 = [] ++ [MsgFillAllFields] ∧
    (edit_post 1 r' demo_world).1 = Ok (Redirect (ToEditForm 1)) ∧
    db (edit_post 1 r' demo_world).2 = demo_db ∧
    conns (edit_post 1 r' demo_world).2 = ∅ ∧
    flashes (edit_post 1 r' demo_world).2 = [] ++ [MsgTitleContentRequired].
  Proof.
    cbn zeta.
    destruct (proj1 (form_rejects_missing (req form_no_content ip_other) demo_world) _ _
                (or_intror (or_intror eq_refl)) eq_refl) as (H1 & H2 & H3 & H4).
    destruct (proj2 (form_rejects_missing (req [("title", "T")] ip_other) demo_world) 1 _ _
                (or_intror eq_refl) eq_refl) as (H5 & H6 & H7 & H8).
    split_and!; assumption.
  Defined.

Lemma like_post_toggle_add_witness :
    let r := req [] ip_other in
    let w' := (like_post 1 r demo_world).2 in
    (like_post 1 r demo_world).1 = Ok (Redirect (ToViewPost 1)) ∧
    likes (db w') = likes demo_db ++ [mkLike 1 ip_other] ∧
    posts (db w') = alter (λ p, set_like_count (like_count p + 1) p) 1 (posts demo_db) ∧
    flashes w' = [] ++ [MsgLikeAdded].
  Proof.
    exact (like_post_toggle_add (req [] ip_other) demo_world 1 _ _ eq_refl eq_refl eq_refl).
  Defined.

Lemma like_post_toggle_remove_witness :
    let r := req [] ip_liker in
    let w' := (like_post 1 r demo_world).2 in
    (like_post 1 r demo_world).1 = Ok (Redirect (ToViewPost 1)) ∧
    likes (db w') = filter (λ l, l ≠ mkLike 1 ip_liker) (likes demo_db) ∧
    posts (db w') = alter (λ p, set_like_count (like_count p + -1) p) 1 (posts demo_db) ∧
    flashes w' = [] ++ [MsgLikeRemoved].
  Proof.
    exact (like_post_toggle_remove (req [] ip_liker) demo_world 1 _ _ eq_refl eq_refl eq_refl).
  Defined.

Lemma edit_post_updates_witness :
    let r := req [("title", "T2"); ("content", "C2")] ip_other in
    let w' := (edit_post 1 r demo_world).2 in
    (edit_post 1 r demo_world).1 = Ok (Redirect (ToViewPost 1)) ∧
    posts (db w') !! 1 =
      (λ p, mkPost (post_id p) "T2" (author p) "C2" (created_at p) (Some 200)
              (view_count p) (like_count p)) <$> posts demo_db !! 1 ∧
    (∀ k, k ≠ 1 → posts (db w') !! k = posts demo_db !! k) ∧
    flashes w' = [] ++ [MsgPostEdited].
  Proof.
    exact (edit_post_updates (req [("title", "T2"); ("content", "C2")] ip_other) demo_world
             1 "T2" "C2" _ _ eq_refl eq_refl eq_refl eq_refl).
  Defined.

Lemma delete_post_removes_witness :
    let w' := (delete_post 1 (req [] ip_other) demo_world).2 in
    (delete_post 1 (req [] ip_other) demo_world).1 = Ok (Redirect ToIndex) ∧
    posts (db w') = delete 1 (posts demo_db) ∧ comments (db w') = comments demo_db ∧
    likes (db w') = likes demo_db ∧ flashes w' = [] ++ [MsgPostDeleted].
  Proof. exact (delete_post_removes (req [] ip_other) demo_world 1 _ _ eq_refl eq_refl). Defined.

Lemma index_lists_newest_first_witness :
    ∃ rows, (index (req [] ip_other) demo_world).1 = Ok (Render (PageIndex rows)) ∧
      rows ≡ₚ Sql.index_row <$> (snd <$> map_to_list (posts demo_db)) ∧
      Sorted Sql.newer_first rows ∧ db (index (req [] ip_other) demo_world).2 = demo_db.
  Proof. exact (index_lists_newest_first (req [] ip_other) demo_world _ _ eq_refl eq_refl). Defined.

Lemma delete_batch_removes_exactly_witness :
    let r := req form_batch ip_other in
    (delete_batch r demo_world).1 = Ok (Redirect ToIndex) ∧
    ∀ k, posts (db (delete_batch r demo_world).2) !! k =
           if decide (k ∈ [1; 1; 7]) then None else posts demo_db !! k.
  Proof.
    exact (delete_batch_removes_exactly (req form_batch ip_other) demo_world
             ["1"; " 1 "; "7"] [1; 1; 7] _ _ eq_refl eq_refl ltac:(discriminate) eq_refl eq_refl).
  Defined.

  (** Three ids submitted, one post deleted, "3" reported. *)
Lemma delete_batch_reports_submitted_witness :
    flashes (delete_batch (req form_batch ip_other) demo_world).2 = [] ++ [MsgBatchDeleted 3].
  Proof.
    exact (delete_batch_reports_submitted (req form_batch ip_other) demo_world
             ["1"; " 1 "; "7"] [1; 1; 7] _ _ eq_refl eq_refl ltac:(discriminate) eq_refl eq_refl).
  Defined.

Lemma delete_batch_total_witness :
    let w' := (delete_batch (req [] ip_other) demo_world).2 in
    form_values "post_ids" (form (req [] ip_other)) = [] ∧
    db w' = demo_db ∧ conns w' = ∅ ∧ flashes w' = [] ++ [MsgSelectPosts].
  Proof.
    cbn zeta. split; [reflexivity|].
    exact (proj2 (delete_batch_total (req [] ip_other) demo_world) eq_refl).
  Defined.

Lemma delete_batch_catches_bad_literal_witness :
    let w' := (delete_batch (req form_batch_bad ip_other) demo_world).2 in
    (delete_batch (req form_batch_bad ip_other) demo_world).1 = Ok (Redirect ToIndex) ∧
    db w' = demo_db ∧ flashes w' = [] ++ [MsgBatchError (ValueError "abc")] ∧
    (conns_fresh demo_world → conns w' = ∅).
  Proof.
    exact (delete_batch_catches_bad_literal (req form_batch_bad ip_other) demo_world
             ["1"; "abc"] "abc" _ _ eq_refl eq_refl ltac:(discriminate) eq_refl eq_refl).
  Defined.
  (** Six rows, three breeds: two leghorn, one brahma, three silkie. *)
Lemma fms_dashboard_reports_witness :
    ∃ s stats recent rest,
      (fms_dashboard (req [] ip_other) demo_world).1 = Ok (Render (PageFms s stats recent)) ∧
      db (fms_dashboard (req [] ip_other) demo_world).2 = demo_db ∧
      Fms.total s = Z.of_nat (length demo_chicks) ∧
      (Fms.avg_weight s = None ↔ Fms.weights demo_chicks = []) ∧
      (∀ q, Fms.avg_weight s = Some q →
        (q * inject_Z (Z.of_nat (length (Fms.weights demo_chicks))) ==
           inject_Z (foldr Z.add 0%Z (Fms.weights demo_chicks)))%Q) ∧
      NoDup stats.*1 ∧
      (∀ b n, (b, n) ∈ stats ↔
        (0 < count_where (λ c, breeds c = b) demo_chicks)%nat ∧
        n = Z.of_nat (count_where (λ c, breeds c = b) demo_chicks)) ∧
      recent ++ rest ≡ₚ demo_chicks ∧ Sorted Fms.later_hatch (recent ++ rest) ∧
      length recent = Nat.min 5 (length demo_chicks).
  Proof.
    exact (fms_dashboard_reports (req [] ip_other) demo_world eq_refl _ _ eq_refl).
  Defined.

  (** On the demo table the page shows the five latest hatchings, newest
      first, the average 254/5 of the five recorded weights, and the breeds in
      the order of the model's map (SQL leaves it unspecified). *)
Example fms_dashboard_demo :
    (fms_dashboard (req [] ip_other) demo_world).1 =
      Ok (Render (PageFms (Fms.mkSummary 6 (Some (Qmake 254 5)))
                    [("silkie", 3); ("brahma", 1); ("leghorn", 2)]
                    [mkChick 6 "silkie" (Some 42) 60; mkChick 4 "brahma" (Some 60) 50;
                     mkChick 5 "leghorn" (Some 57) 40; mkChick 2 "leghorn" (Some 55) 30;
                     mkChick 3 "silkie" None 20])).
  Proof. vm_compute. reflexivity. Qed.
End Handlers.
