(* ===== verification/Router.v ===== *)
(** * The route table and URL building

    The [@app.route] decorators of [src/app.py] as a table of rules, the
    matching of a request's method and path against it as Werkzeug's
    router does it (segments, the [int] converter, the automatic [HEAD]
    and [OPTIONS] methods, the redirect to a rule's trailing slash, 404
    and 405), [url_for] on the redirect targets of the handlers, and
    [str] of the id (in [PyStr.v]), which [url_for] puts in the path. *)

From S2P Require Import Prelude Schema Sql Runtime Handlers PyStr.
From Stdlib Require Import Ascii.


(** * The URL map *)
Module Router.
  Import Handlers.
  Local Open Scope Z_scope.

  (** The request methods; Werkzeug compares them upper-cased. *)
Inductive Method := GET | HEAD | POST | OPTIONS | OtherMethod (m : string).
#[export] Instance Method_eq_dec : EqDecision Method.
  Proof. solve_decision. Defined.

  (** A segment of a rule's path: a literal, or [<int:...>]. *)
Inductive Seg := Lit (s : string) | IntArg.
#[export] Instance Seg_eq_dec : EqDecision Seg.
  Proof. solve_decision. Defined.

  (** The view a rule names, with the arguments its converters give. *)
Inductive Endpoint := E0 (rt : Route) | E1 (f : Z → Route).

Record Rule := mkRule {
    rule_path : list Seg;
    rule_methods : list Method;
    rule_endpoint : Endpoint;
  }.

  (** The decorators, in the order of the file; [methods] defaults to
      [['GET']]. *)
Definition url_map : list Rule := [
    mkRule [Lit ""] [GET] (E0 RIndex);                              (* line 29  *)
    mkRule [Lit "create"; Lit ""] [GET] (E0 RCreateForm);           (* line 43  *)
    mkRule [Lit "create"; Lit ""] [POST] (E0 RCreatePost);          (* line 47  *)
    mkRule [Lit "post"; IntArg] [GET] (E1 RViewPost);               (* line 69  *)
    mkRule [Lit "edit"; IntArg] [GET] (E1 REditForm);               (* line 101 *)
    mkRule [Lit "edit"; IntArg] [POST] (E1 REditPost);              (* line 116 *)
    mkRule [Lit "delete"; IntArg] [POST] (E1 RDeletePost);          (* line 137 *)
    mkRule [Lit "post"; Lit "comment"; IntArg] [POST] (E1 RAddComment); (* line 148 *)
    mkRule [Lit "post"; Lit "like"; IntArg] [POST] (E1 RLikePost);  (* line 169 *)
    mkRule [Lit "delete"; Lit "batch"] [POST] (E0 RDeleteBatch);    (* line 192 *)
    mkRule [Lit "fms"] [GET] (E0 RFms)                              (* line 227 *)
  ]%string.

  (** The methods a rule answers: Flask adds [OPTIONS] (automatic
      options) and Werkzeug adds [HEAD] to a rule with [GET]. *)
Definition rule_all_methods (r : Rule) : list Method :=
    rule_methods r ++ (if decide (GET ∈ rule_methods r) then [HEAD] else []) ++ [OPTIONS].

  (** [path.split('/')] of the path after its leading slash. *)
Fixpoint split_slash (l : list ascii) : list (list ascii) :=
    match l with
    | [] => [[]]
    | a :: l' =>
        if decide (a = "/"%char) then [] :: split_slash l'
        else match split_slash l' with
             | s :: ss => (a :: s) :: ss
             | [] => [[a]]
             end
    end.

Definition path_segments (path : string) : option (list string) :=
    match String.list_ascii_of_string path with
    | "/"%char :: rest => Some (String.string_of_list_ascii <$> split_slash rest)
    | _ => None
    end.

  (** The [int] converter: the regular expression [\d+], then [int()]. *)
Definition conv_int (s : string) : option Z :=
    let l := String.list_ascii_of_string s in
    if decide (l ≠ [] ∧ Forall (λ a, is_Some (PyInt.digit_value a)) l)
    then PyInt.unsigned l else None.

Fixpoint match_segs (p : list Seg) (segs : list string) : option (list Z) :=
    match p, segs with
    | [], [] => Some []
    | Lit a :: p', s :: segs' => if decide (a = s) then match_segs p' segs' else None
    | IntArg :: p', s :: segs' => n ← conv_int s; (n ::.) <$> match_segs p' segs'
    | _, _ => None
    end.

Definition build (e : Endpoint) (args : list Z) : option Route :=
    match e, args with
    | E0 rt, [] => Some rt
    | E1 f, [n] => Some (f n)
    | _, _ => None
    end.

  (** The route of rule [r] for a request with method [m] and path
      segments [segs], if [r] matches both. *)
Definition rule_match (m : Method) (segs : list string) (r : Rule) : option Route :=
    if decide (m ∈ rule_all_methods r) then
      args ← match_segs (rule_path r) segs; build (rule_endpoint r) args
    else None.

  (** [MapAdapter.allowed_methods]: the methods of the rules whose path
      matches. *)
Definition allowed_methods (segs : list string) : list Method :=
    remove_dups (mjoin ((λ r, if match_segs (rule_path r) segs is Some _
                              then rule_all_methods r else []) <$> url_map)).

Inductive Dispatched :=
    | Dispatch (rt : Route)                     (* the view function runs *)
    | AutoOptions (allowed : list Method)       (* Flask's default OPTIONS response *)
    | RedirectSlash (location : string)         (* 308 to the rule with its slash *)
    | MethodNotAllowed (allowed : list Method)  (* 405 *)
    | NotFound.                                 (* 404 *)

  (** [MapAdapter.match] and Flask's [dispatch_request]: the first rule
      that matches path and method; else the same path with a trailing
      slash (the rule's [strict_slashes]); else 405 when some rule matches
      the path with another method; else 404. *)
Definition route (m : Method) (path : string) : Dispatched :=
    match path_segments path with
    | None => NotFound
    | Some segs =>
        match head (omap (rule_match m segs) url_map) with
        | Some rt => if decide (m = OPTIONS) then AutoOptions (allowed_methods segs) else Dispatch rt
        | None =>
            if head (omap (rule_match m (segs ++ [""%string])) url_map) is Some _
            then RedirectSlash (path +:+ "/")
            else match allowed_methods segs with
                 | [] => NotFound
                 | ms => MethodNotAllowed ms
                 end
        end
    end.

  (** * Building URLs *)

Fixpoint join_slash (ls : list (list ascii)) : list ascii :=
    match ls with
    | [] => []
    | [l] => l
    | l :: ls' => l ++ "/"%char :: join_slash ls'
    end.

Definition join_path (segs : list string) : string :=
    String.string_of_list_ascii ("/"%char :: join_slash (String.list_ascii_of_string <$> segs)).

  (** [url_for(endpoint, post_id=...)]: the rule's path with [str] of the
      argument in place of the converter. *)
Definition route_segs (rt : Route) : list string :=
    match rt with
    | RIndex => [""]
    | RCreateForm | RCreatePost => ["create"; ""]
    | RViewPost pid => ["post"; PyStr.py_str pid]
    | REditForm pid | REditPost pid => ["edit"; PyStr.py_str pid]
    | RDeletePost pid => ["delete"; PyStr.py_str pid]
    | RAddComment pid => ["post"; "comment"; PyStr.py_str pid]
    | RLikePost pid => ["post"; "like"; PyStr.py_str pid]
    | RDeleteBatch => ["delete"; "batch"]
    | RFms => ["fms"]
    end%string.

Definition url_for (rt : Route) : string := join_path (route_segs rt).

  (** The method of the rule of each route. *)
Definition route_method (rt : Route) : Method :=
    match rt with
    | RIndex | RCreateForm | RViewPost _ | REditForm _ | RFms => GET
    | _ => POST
    end.

  (** * Splitting and joining paths *)

Lemma split_slash_nonempty l : split_slash l ≠ [].
  Proof.
    induction l as [|a l IH]; cbn; [done|]. case_decide; [done|].
    by destruct (split_slash l).
  Qed.

Lemma split_slash_app x rest :
    "/"%char ∉ x →
    split_slash (x ++ rest) =
      match split_slash rest with s :: ss => (x ++ s) :: ss | [] => [x] end.
  Proof.
    induction x as [|a x IH]; intros Hx; cbn.
    - destruct (split_slash rest) eqn:E; [by destruct (split_slash_nonempty rest)|done].
    - apply not_elem_of_cons in Hx as [Ha Hx]. rewrite decide_False by done.
      rewrite IH by done. by destruct (split_slash rest).
  Qed.

Lemma split_join ls :
    ls ≠ [] → Forall (λ l, "/"%char ∉ l) ls → split_slash (join_slash ls) = ls.
  Proof.
    induction ls as [|l ls IH]; [done|]. intros _ [Hl Hls]%Forall_cons.
    destruct ls as [|l' ls].
    - cbn. rewrite <-(app_nil_r l) at 1. rewrite split_slash_app by done. cbn.
      by rewrite app_nil_r.
    - change (join_slash (l :: l' :: ls)) with (l ++ "/"%char :: join_slash (l' :: ls)).
      rewrite split_slash_app by done.
      replace (split_slash ("/"%char :: _)) with ([] :: split_slash (join_slash (l' :: ls)))
        by (cbn [split_slash]; by rewrite decide_True).
      rewrite IH by done. by rewrite app_nil_r.
  Qed.

Lemma path_segments_join segs :
    segs ≠ [] → Forall (λ s, "/"%char ∉ String.list_ascii_of_string s) segs →
    path_segments (join_path segs) = Some segs.
  Proof.
    intros Hne Hs. unfold path_segments, join_path.
    rewrite String.list_ascii_of_string_of_list_ascii, split_join.
    - f_equal. rewrite <-list_fmap_compose. rewrite <-(list_fmap_id segs) at 2.
      apply list_fmap_ext. intros _ x _. apply String.string_of_list_ascii_of_string.
    - by destruct segs.
    - by apply Forall_fmap.
  Qed.

  (** * The [int] converter *)

Lemma conv_int_py_str n : 0 ≤ n → conv_int (PyStr.py_str n) = Some n.
  Proof.
    intros Hn. destruct (PyStr.py_str_digits n Hn) as (l & -> & Hne & Hok & Hv).
    unfold conv_int. rewrite String.list_ascii_of_string_of_list_ascii, decide_True; [done|].
    split; [done|]. by apply PyStr.digits_ok_is_digit.
  Qed.

  (** A literal the converter rejects is not the path of an id. *)
Lemma lit_ne_py_str a n : 0 ≤ n → conv_int a = None → a ≠ PyStr.py_str n.
  Proof. intros Hn Ha ->. by rewrite conv_int_py_str in Ha. Qed.

  (** * Matching by segment classes

      The literals of the table are not digit strings, so matching a path
      depends only on whether each segment is a literal of the table, an
      integer the converter reads, or neither. *)

Definition url_literals : list string :=
    mjoin ((λ r, omap (λ sg, if sg is Lit a then Some a else None) (rule_path r)) <$> url_map).

Inductive SegCls := KLit (s : string) | KInt (n : Z) | KOther.

Definition cls (s : string) : SegCls :=
    if decide (s ∈ url_literals) then KLit s
    else if conv_int s is Some n then KInt n else KOther.

Fixpoint match_cls (p : list Seg) (cs : list SegCls) : option (list Z) :=
    match p, cs with
    | [], [] => Some []
    | Lit a :: p', KLit b :: cs' => if decide (a = b) then match_cls p' cs' else None
    | IntArg :: p', KLit b :: cs' => n ← conv_int b; (n ::.) <$> match_cls p' cs'
    | IntArg :: p', KInt n :: cs' => (n ::.) <$> match_cls p' cs'
    | _, _ => None
    end.

Definition rule_match_cls (m : Method) (cs : list SegCls) (r : Rule) : option Route :=
    if decide (m ∈ rule_all_methods r) then
      args ← match_cls (rule_path r) cs; build (rule_endpoint r) args
    else None.

Definition allowed_methods_cls (cs : list SegCls) : list Method :=
    remove_dups (mjoin ((λ r, if match_cls (rule_path r) cs is Some _
                              then rule_all_methods r else []) <$> url_map)).

Definition route_cls (m : Method) (path : string) (cs : list SegCls) : Dispatched :=
    match head (omap (rule_match_cls m cs) url_map) with
    | Some rt => if decide (m = OPTIONS) then AutoOptions (allowed_methods_cls cs) else Dispatch rt
    | None =>
        if head (omap (rule_match_cls m (cs ++ [KLit ""%string])) url_map) is Some _
        then RedirectSlash (path +:+ "/")
        else match allowed_methods_cls cs with
             | [] => NotFound
             | ms => MethodNotAllowed ms
             end
    end.

Lemma match_segs_cls p segs :
    Forall (λ sg, ∀ a, sg = Lit a → a ∈ url_literals) p →
    match_segs p segs = match_cls p (cls <$> segs).
  Proof.
    revert segs. induction p as [|sg p IH]; intros [|s segs] Hp; [done| |by destruct sg|].
    { destruct (cls s); done. }
    apply Forall_cons in Hp as [Hsg Hp]. rewrite fmap_cons. unfold cls at 1.
    destruct (decide (s ∈ url_literals)) as [Hin|Hin]; destruct sg as [a|]; cbn -[conv_int].
    - destruct (decide (a = s)); [by apply IH|done].
    - destruct (conv_int s); cbn; [|done]. by rewrite IH.
    - rewrite decide_False by (intros ->; by apply Hin, Hsg). by destruct (conv_int s).
    - destruct (conv_int s); cbn; [|done]. by rewrite IH.
  Qed.

Lemma url_map_literals :
    Forall (λ r, Forall (λ sg, ∀ a, sg = Lit a → a ∈ url_literals) (rule_path r)) url_map.
  Proof.
    apply Forall_forall. intros r Hr. apply Forall_forall. intros sg Hsg a ->.
    apply list_elem_of_join. exists (omap (λ sg, if sg is Lit a then Some a else None) (rule_path r)).
    split; [apply list_elem_of_omap; by exists (Lit a)|]. apply list_elem_of_fmap. by exists r.
  Qed.

Lemma route_by_cls m path segs :
    path_segments path = Some segs → route m path = route_cls m path (cls <$> segs).
  Proof.
    intros Hp. unfold route, route_cls, allowed_methods, allowed_methods_cls. rewrite Hp.
    assert (∀ segs', omap (rule_match m segs') url_map =
                     omap (rule_match_cls m (cls <$> segs')) url_map) as Homap.
    { intros segs'. apply list_omap_ext, Forall_Forall2_diag.
      eapply Forall_impl; [exact url_map_literals|]. intros r Hr.
      unfold rule_match, rule_match_cls. by rewrite match_segs_cls. }
    assert (Hall : (λ r, if match_segs (rule_path r) segs is Some _ then rule_all_methods r else []) <$>
                     url_map =
                   (λ r, if match_cls (rule_path r) (cls <$> segs) is Some _
                         then rule_all_methods r else []) <$> url_map).
    { apply Forall_fmap_ext_1. eapply Forall_impl; [exact url_map_literals|]. intros r Hr.
      by rewrite match_segs_cls. }
    rewrite !Homap, Hall, fmap_app. reflexivity.
  Qed.

Lemma literals_not_int : Forall (λ a, conv_int a = None) url_literals.
  Proof. apply (bool_decide_unpack _). vm_compute. exact I. Qed.

Lemma cls_py_str n : 0 ≤ n → cls (PyStr.py_str n) = KInt n.
  Proof.
    intros Hn. unfold cls. rewrite decide_False; [by rewrite conv_int_py_str|].
    intros Hin. eapply Forall_forall in Hin; [|exact literals_not_int].
    cbv beta in Hin. by rewrite conv_int_py_str in Hin.
  Qed.

  (** The ids Werkzeug's [int] converter gives: no sign, so at least 0. *)
Definition route_args_ok (rt : Route) : Prop :=
    match rt with
    | RViewPost pid | REditForm pid | REditPost pid | RDeletePost pid
    | RAddComment pid | RLikePost pid => 0 ≤ pid
    | _ => True
    end.

Lemma route_segs_ok rt :
    route_segs rt ≠ [] ∧ Forall (λ s, "/"%char ∉ String.list_ascii_of_string s) (route_segs rt).
  Proof.
    split; [by destruct rt|].
    destruct rt; repeat constructor;
      first [apply PyStr.py_str_no_slash | apply (bool_decide_unpack _); vm_compute; exact I].
  Qed.

  (** * Overlapping rules *)

  (** Whether some path could match both patterns. *)
Fixpoint pat_overlap (p q : list Seg) : bool :=
    match p, q with
    | [], [] => true
    | Lit a :: p', Lit b :: q' => bool_decide (a = b) && pat_overlap p' q'
    | Lit a :: p', IntArg :: q' => bool_decide (is_Some (conv_int a)) && pat_overlap p' q'
    | IntArg :: p', Lit b :: q' => bool_decide (is_Some (conv_int b)) && pat_overlap p' q'
    | IntArg :: p', IntArg :: q' => pat_overlap p' q'
    | _, _ => false
    end.

  (** Two rules are compatible when their paths cannot overlap or they
      share no method but the automatic [OPTIONS]. *)
Definition compatible (r r' : Rule) : bool :=
    negb (pat_overlap (rule_path r) (rule_path r')) ||
    forallb (λ m, bool_decide (m = OPTIONS ∨ m ∉ rule_all_methods r')) (rule_all_methods r).

Fixpoint pairwise_compatible (rs : list Rule) : bool :=
    match rs with
    | [] => true
    | r :: rs' => forallb (compatible r) rs' && pairwise_compatible rs'
    end.

Lemma match_segs_overlap p q segs xs ys :
    match_segs p segs = Some xs → match_segs q segs = Some ys → pat_overlap p q = true.
  Proof.
    revert q segs xs ys. induction p as [|sg p IH]; intros q segs xs ys Hp Hq.
    - destruct segs; [|done]. by destruct q as [|[] q].
    - destruct segs as [|s segs]; [by destruct sg|]. destruct q as [|sg' q]; [done|].
      destruct sg as [a|], sg' as [b|]; cbn in Hp, Hq |- *.
      + destruct (decide (a = s)), (decide (b = s)); simplify_eq.
        rewrite bool_decide_true by done. cbn. eauto.
      + destruct (decide (a = s)); simplify_eq.
        destruct (conv_int s) eqn:E, (match_segs q segs) eqn:E'; simplify_eq.
        rewrite bool_decide_true by done. cbn. eauto.
      + destruct (decide (b = s)); simplify_eq.
        destruct (conv_int s) eqn:E, (match_segs p segs) eqn:E'; simplify_eq.
        rewrite bool_decide_true by done. cbn. eauto.
      + destruct (conv_int s); [|done].
        destruct (match_segs p segs) eqn:E, (match_segs q segs) eqn:E'; simplify_eq. eauto.
  Qed.

Lemma pairwise_compatible_lookup rs (i j : nat) r r' :
    pairwise_compatible rs = true → rs !! i = Some r → rs !! j = Some r' → (i < j)%nat →
    compatible r r' = true.
  Proof.
    revert i j. induction rs as [|r0 rs IH]; intros i j; [done|].
    cbn. intros [Hall Hrs]%andb_prop Hi Hj Hij.
    destruct i as [|i], j as [|j]; cbn in Hi, Hj; [lia| |lia|].
    - simplify_eq. apply forallb_forall with (x := r') in Hall; [done|].
      by eapply list_elem_of_In, list_elem_of_lookup_2.
    - apply (IH i j); [done..|lia].
  Qed.

Lemma url_map_compatible : pairwise_compatible url_map = true.
  Proof. vm_compute. reflexivity. Qed.

Lemma rule_match_Some m segs r rt :
    rule_match m segs r = Some rt →
    m ∈ rule_all_methods r ∧ ∃ xs, match_segs (rule_path r) segs = Some xs.
  Proof.
    unfold rule_match. case_decide; [|done].
    destruct (match_segs _ _); [eauto|done].
  Qed.

  (** Compatible rules never both match a request other than [OPTIONS]. *)
Lemma compatible_excl r r' m segs rt rt' :
    compatible r r' = true → m ≠ OPTIONS →
    rule_match m segs r = Some rt → rule_match m segs r' = Some rt' → False.
  Proof.
    intros Hc Hm (Hm1 & xs & Hx)%rule_match_Some (Hm2 & ys & Hy)%rule_match_Some.
    apply orb_prop in Hc as [Hc|Hc].
    - by rewrite (match_segs_overlap _ _ _ _ _ Hx Hy) in Hc.
    - eapply forallb_forall in Hc; [|by apply list_elem_of_In].
      apply bool_decide_eq_true_1 in Hc as [|]; done.
  Qed.

Lemma cls_py_str_neg n : n < 0 → cls (PyStr.py_str n) = KOther.
  Proof.
    intros Hn. assert (conv_int (PyStr.py_str n) = None) as Hc.
    { unfold conv_int, PyStr.py_str. destruct (Z.ltb_spec n 0); [|lia].
      rewrite String.list_ascii_of_string_of_list_ascii, decide_False; [done|].
      intros [_ Hall%Forall_cons]. by destruct Hall as [[? ?] _]. }
    unfold cls. rewrite Hc, decide_False; [done|].
    assert (Forall (λ a, head (String.list_ascii_of_string a) ≠ Some "-"%char) url_literals) as Hl
      by (apply (bool_decide_unpack _); vm_compute; exact I).
    intros Hin. eapply Forall_forall in Hin; [|exact Hl]. apply Hin.
    unfold PyStr.py_str. destruct (Z.ltb_spec n 0); [|lia].
    by rewrite String.list_ascii_of_string_of_list_ascii.
  Qed.

  (** The route of a request for the URL of [rt], by segment classes. *)
Lemma route_url_for_by_cls m rt :
    route m (url_for rt) = route_cls m (url_for rt) (cls <$> route_segs rt).
  Proof. apply route_by_cls, path_segments_join; apply route_segs_ok. Qed.

  (** The routes whose rule accepts only [POST]. *)
Definition post_only (rt : Route) : bool :=
    match rt with
    | RDeletePost _ | RAddComment _ | RLikePost _ | RDeleteBatch => true
    | _ => false
    end.

Lemma route_url_for_ok rt : route_args_ok rt → route (route_method rt) (url_for rt) = Dispatch rt.
  Proof.
    intros Hok. rewrite route_url_for_by_cls.
    destruct rt; cbn [route_segs fmap list_fmap]; rewrite ?cls_py_str by done;
      vm_compute; reflexivity.
  Qed.

  (** The page a redirect names, as a route. *)
Definition target_route (t : Target) : Route :=
    match t with
    | ToIndex => RIndex
    | ToCreateForm => RCreateForm
    | ToViewPost pid => RViewPost pid
    | ToEditForm pid => REditForm pid
    end.
End Router.

Module RouterProps.
  Import Handlers Router.
  Local Open Scope Z_scope.

  (** C10: every route's URL, as [url_for] builds it, requested with the
      route's method, dispatches to that route: the table is unambiguous
      on the URLs the application builds, [/delete/batch] included, and
      [int] reads back the [str] of every id. *)
Theorem route_url_for rt : route_args_ok rt → route (route_method rt) (url_for rt) = Dispatch rt.
  Proof. apply route_url_for_ok. Qed.
  (** C11: Werkzeug's first-match rule never has to choose: for any
      method but [OPTIONS] and any path, at most one rule of the table
      matches. *)
Theorem route_deterministic m segs (i j : nat) ri rj rti rtj :
    m ≠ OPTIONS → url_map !! i = Some ri → url_map !! j = Some rj →
    rule_match m segs ri = Some rti → rule_match m segs rj = Some rtj → i = j.
  Proof.
    intros Hm Hi Hj Hri Hrj. destruct (lt_eq_lt_dec i j) as [[Hlt|]|Hgt]; [exfalso| done |exfalso].
    - eapply (compatible_excl ri rj); [|done..].
      exact (pairwise_compatible_lookup _ _ _ _ _ url_map_compatible Hi Hj Hlt).
    - eapply (compatible_excl rj ri); [|done..].
      exact (pairwise_compatible_lookup _ _ _ _ _ url_map_compatible Hj Hi Hgt).
  Qed.

  (** C21: the router's two refusals of a URL that [url_for] builds: the
      converter has no sign, so the URL of a negative id matches no rule
      whatever the method (404); and a [GET] on the URL of a route that
      accepts only [POST] (delete, comment, like, batch delete) is refused
      with 405, listing [POST] and the automatic [OPTIONS], so the handler
      does not run. *)
Theorem route_refusals rt :
    (¬ route_args_ok rt → ∀ m, route m (url_for rt) = NotFound) ∧
    (route_args_ok rt → post_only rt = true →
       route GET (url_for rt) = MethodNotAllowed [POST; OPTIONS]).
  Proof.
    split.
    - intros Hok m. rewrite route_url_for_by_cls.
      destruct rt; cbn in Hok; try done; cbn [route_segs fmap list_fmap];
        rewrite cls_py_str_neg by lia; destruct m; vm_compute; reflexivity.
    - intros Hok Hpost. rewrite route_url_for_by_cls.
      destruct rt; cbn in Hok, Hpost; try done; cbn [route_segs fmap list_fmap];
        rewrite ?cls_py_str by done; vm_compute; reflexivity.
  Qed.
End RouterProps.

Module RouterWitnesses.
  Import Handlers Router RouterProps.
  Local Open Scope Z_scope.

Lemma route_url_for_witness :
    route_args_ok (RViewPost 12) ∧
    route (route_method (RViewPost 12)) (url_for (RViewPost 12)) = Dispatch (RViewPost 12).
  Proof.
    split; [cbn; lia|]. exact (route_url_for (RViewPost 12) ltac:(cbn; lia)).
  Defined.

Lemma route_deterministic_witness :
    url_map !! 3%nat = Some (mkRule [Lit "post"; IntArg] [GET] (E1 RViewPost)) ∧ (3 = 3)%nat.
  Proof.
    split; [reflexivity|].
    exact (route_deterministic GET ["post"; "5"]%string 3 3 _ _ (RViewPost 5) (RViewPost 5)
             ltac:(discriminate) eq_refl eq_refl ltac:(vm_compute; reflexivity)
             ltac:(vm_compute; reflexivity)).
  Defined.

Lemma route_refusals_witness :
    ¬ route_args_ok (RViewPost (-1)) ∧ route POST (url_for (RViewPost (-1))) = NotFound ∧
    route_args_ok (RDeletePost 5) ∧ post_only (RDeletePost 5) = true ∧
    route GET (url_for (RDeletePost 5)) = MethodNotAllowed [POST; OPTIONS].
  Proof.
    assert (H1 : ¬ route_args_ok (RViewPost (-1))) by (cbn; lia).
    assert (H2 : route_args_ok (RDeletePost 5)) by (cbn; lia).
    split_and!; [exact H1| exact (proj1 (route_refusals (RViewPost (-1))) H1 POST)
                | exact H2 | reflexivity
                | exact (proj2 (route_refusals (RDeletePost 5)) H2 eq_refl)].
  Defined.
End RouterWitnesses.
