(* ===== verification/Invariant.v ===== *)
(** * The invariant of the board's store

    [db_inv]: the posts map is keyed by each row's [id], every id (of a
    post or of a like) was issued by the sequence, [board.likes] holds no
    duplicate row, and each post's [like_count] equals its number of rows
    in [board.likes] (spec §3).  [world_inv] adds that connection ids at or
    above [conn_seq] are unused.  First each SQL statement, then each
    handler, preserves it; the requests form a step relation whose
    reachable worlds satisfy it, and their counters are never negative. *)

From S2P Require Import Prelude Schema Sql Runtime Handlers.

Module Invariant.
  Import Handlers.
  Local Open Scope Z_scope.

Record db_inv (d : Db) : Prop := {
    inv_keys : map_Forall (λ k p, post_id p = k ∧ k < post_seq d) (posts d);
    inv_likes_issued : Forall (λ l, like_post_id l < post_seq d) (likes d);
    inv_likes_nodup : NoDup (likes d);
    inv_like_count : map_Forall (λ k p, like_count p = Z.of_nat (post_likes k d)) (posts d);
  }.

Definition world_inv (w : World) : Prop := db_inv (db w) ∧ conns_fresh w.

  (** A like names an id the sequence has issued: the pages link only to
      posts that exist or existed. *)
Definition route_ok (rt : Route) (d : Db) : Prop :=
    match rt with
    | RLikePost pid => pid < post_seq d
    | _ => True
    end.

  (** A request, or the server going down or coming back. *)
Inductive step : World → World → Prop :=
    | step_request rt r w res w' :
        route_ok rt (db w) → handle rt r w = (res, w') → step w w'
    | step_server w b :
        step w (mkWorld (db w) b (conns w) (conn_seq w) (flashes w)).

Definition world_init : World := mkWorld db_empty true ∅ 0 [].

  (** Two requests from one address: an empty form, and a filled post form. *)
Definition req_anon : Request := mkRequest [] "203.0.113.7" 0.
Definition req_new_post : Request :=
    mkRequest [("title", "t"); ("author", "a"); ("content", "c")]%string "203.0.113.7" 1.

  (** Any request at all, likes of ids not issued yet included, or the
      server going down or coming back. *)
Inductive step_any : World → World → Prop :=
    | any_request rt r w res w' : handle rt r w = (res, w') → step_any w w'
    | any_server w b :
        step_any w (mkWorld (db w) b (conns w) (conn_seq w) (flashes w)).

  (** The writes a route makes to the store, by the statements it runs. *)
Inductive db_write (r : Request) : Route → Db → Db → Prop :=
    | write_none rt d : db_write r rt d d
    | write_create t a c d :
        db_write r RCreatePost d (Sql.insert_post t a c (now r) d).2
    | write_view pid d : db_write r (RViewPost pid) d (Sql.incr_view_count pid d)
    | write_edit pid t c d :
        db_write r (REditPost pid) d (Sql.update_post pid t c (now r) d)
    | write_delete pid d : db_write r (RDeletePost pid) d (Sql.delete_post pid d)
    | write_comment pid a c d :
        db_write r (RAddComment pid) d (Sql.insert_comment pid a c (now r) d)
    | write_like_add pid d :
        ip_likes pid (remote_addr r) d = 0%nat →
        db_write r (RLikePost pid) d (Sql.add_like_count 1 pid (Sql.insert_like pid (remote_addr r) d))
    | write_like_remove pid d :
        (0 < ip_likes pid (remote_addr r) d)%nat →
        db_write r (RLikePost pid) d
          (Sql.add_like_count (-1) pid (Sql.delete_likes pid (remote_addr r) d))
    | write_batch ns d : db_write r RDeleteBatch d (Sql.delete_posts_any ns d).

  (** The two counters of a post are natural numbers. *)
Definition counters_ok (d : Db) : Prop :=
    map_Forall (λ _ p, 0 ≤ view_count p ∧ 0 ≤ like_count p) (posts d).

  (** * The statements *)

  (** A write that keeps the likes and the sequence, and keeps the id and
      the [like_count] of every post it keeps. *)
Lemma db_inv_sub d d' :
    db_inv d → likes d' = likes d → post_seq d' = post_seq d →
    (∀ k p', posts d' !! k = Some p' →
       ∃ p, posts d !! k = Some p ∧ post_id p' = post_id p ∧ like_count p' = like_count p) →
    db_inv d'.
  Proof.
    intros [Hk Hl Hn Hc] Hlk Hs Hsub. split; rewrite ?Hlk, ?Hs; [| done | done |].
    - intros k p' Hp'. destruct (Hsub k p' Hp') as (p & Hp & -> & _). by apply Hk.
    - intros k p' Hp'. destruct (Hsub k p' Hp') as (p & Hp & _ & ->).
      unfold post_likes. rewrite Hlk. by apply Hc.
  Qed.

Lemma alter_sub (f : Post → Post) pid (m : gmap Z Post) k p' :
    (∀ p, post_id (f p) = post_id p ∧ like_count (f p) = like_count p) →
    alter f pid m !! k = Some p' →
    ∃ p, m !! k = Some p ∧ post_id p' = post_id p ∧ like_count p' = like_count p.
  Proof.
    intros Hf. destruct (decide (pid = k)) as [->|Hne].
    - rewrite lookup_alter_eq. destruct (m !! k) as [p|]; cbn; intros; simplify_eq.
      exists p. naive_solver.
    - rewrite lookup_alter_ne by done. eauto.
  Qed.

Lemma incr_view_count_inv pid d : db_inv d → db_inv (Sql.incr_view_count pid d).
  Proof. intros Hd. apply (db_inv_sub d); [done..|]. intros k p'. by apply alter_sub. Qed.

Lemma update_post_inv pid t c tm d : db_inv d → db_inv (Sql.update_post pid t c tm d).
  Proof. intros Hd. apply (db_inv_sub d); [done..|]. intros k p'. by apply alter_sub. Qed.

Lemma delete_post_inv pid d : db_inv d → db_inv (Sql.delete_post pid d).
  Proof.
    intros Hd. apply (db_inv_sub d); [done..|].
    intros k p'. cbn [Sql.delete_post set_posts posts]. intros [_ Hp']%lookup_delete_Some. eauto.
  Qed.

Lemma delete_posts_any_inv ids d : db_inv d → db_inv (Sql.delete_posts_any ids d).
  Proof.
    intros Hd. apply (db_inv_sub d); [done..|].
    intros k p'. cbn [Sql.delete_posts_any set_posts posts].
    intros [Hp' _]%map_lookup_filter_Some. eauto.
  Qed.

Lemma insert_comment_inv pid a c tm d : db_inv d → db_inv (Sql.insert_comment pid a c tm d).
  Proof. intros Hd. apply (db_inv_sub d); [done..|]. eauto. Qed.

  (** A new post has no like row: every like names an issued id. *)
Lemma insert_post_inv t c a tm d : db_inv d → db_inv (Sql.insert_post t c a tm d).2.
  Proof.
    intros [Hk Hl Hn Hc]. split; cbn [Sql.insert_post snd posts post_seq likes].
    - apply map_Forall_insert_2; [cbn; lia|].
      eapply map_Forall_impl; [exact Hk|]. cbn. intros; lia.
    - eapply Forall_impl; [exact Hl|]. cbn. intros; lia.
    - done.
    - apply map_Forall_insert_2; [|exact Hc].
      change (0 = Z.of_nat (post_likes (post_seq d) d)).
      unfold post_likes. rewrite (proj2 (count_where_zero _ _)); [done|].
      eapply Forall_impl; [exact Hl|]. cbn. intros; lia.
  Qed.

Lemma map_Forall_alter (P : Z → Post → Prop) f pid (m : gmap Z Post) :
    map_Forall P m → (∀ p, m !! pid = Some p → P pid p → P pid (f p)) →
    map_Forall P (alter f pid m).
  Proof.
    intros HP Hf k p. destruct (decide (pid = k)) as [->|Hne].
    - rewrite lookup_alter_eq. destruct (m !! k) eqn:E; cbn; intros; simplify_eq.
      apply Hf; [done|]. by apply HP.
    - rewrite lookup_alter_ne by done. apply HP.
  Qed.

Ltac unfold_like :=
    cbn [Sql.add_like_count Sql.insert_like Sql.delete_likes set_posts set_likes
         posts likes post_seq set_like_count post_id like_count].

  (** [like_count] follows the rows: a like added by [like_post]... *)
Lemma like_add_inv pid ip d :
    db_inv d → pid < post_seq d → ip_likes pid ip d = 0%nat →
    db_inv (Sql.add_like_count 1 pid (Sql.insert_like pid ip d)).
  Proof.
    intros [Hk Hl Hn Hc] Hpid H0. apply count_where_zero in H0.
    split; [unfold_like..|].
    - by apply map_Forall_alter.
    - apply Forall_app. split; [done|]. by constructor.
    - apply NoDup_app. split_and!; [done| |by apply NoDup_singleton].
      intros x Hx ->%list_elem_of_singleton. by eapply Forall_forall in H0.
    - intros k p. rewrite SqlFacts.lookup_add_like_count. cbn [Sql.insert_like set_likes posts].
      unfold Sql.add_like_count. rewrite SqlFacts.post_likes_set_posts, SqlFacts.post_likes_insert_like.
      case_decide as Hk'; [subst k|].
      + destruct (posts d !! pid) as [p0|] eqn:E; cbn; intros; simplify_eq. unfold_like.
        rewrite (Hc _ _ E). lia.
      + intros Hp. rewrite (Hc _ _ Hp). lia.
  Qed.

  (** ... and removed by it. *)
Lemma like_remove_inv pid ip d :
    db_inv d → (0 < ip_likes pid ip d)%nat →
    db_inv (Sql.add_like_count (-1) pid (Sql.delete_likes pid ip d)).
  Proof.
    intros [Hk Hl Hn Hc] Hpos.
    assert (ip_likes pid ip d = 1%nat) as H1.
    { unfold ip_likes in *. rewrite (count_where_eq_NoDup _ _ Hn) in *.
      case_decide; [done|lia]. }
    split; [unfold_like..|].
    - by apply map_Forall_alter.
    - apply Forall_forall. intros x [_ Hx]%list_elem_of_filter. by eapply Forall_forall in Hl.
    - by apply NoDup_filter.
    - intros k p. rewrite SqlFacts.lookup_add_like_count. cbn [Sql.delete_likes set_likes posts].
      unfold Sql.add_like_count. rewrite SqlFacts.post_likes_set_posts.
      case_decide as Hk'; [subst k|].
      + destruct (posts d !! pid) as [p0|] eqn:E; cbn; intros; simplify_eq. unfold_like.
        pose proof (count_where_filter_sub (λ l, l = mkLike pid ip)
                      (λ l, like_post_id l = pid) (likes d)) as Hsub.
        unfold post_likes, ip_likes in *. cbn [Sql.delete_likes set_likes likes].
        rewrite (Hc _ _ E). unfold post_likes.
        specialize (Hsub ltac:(by intros ? ->)). unfold count_where in *. lia.
      + intros Hp. rewrite (Hc _ _ Hp). unfold post_likes. cbn [Sql.delete_likes set_likes likes].
        rewrite count_where_filter_disjoint; [done|]. intros ? ? ->. done.
  Qed.

  (** * The handlers *)

Lemma count_likes_pos pid ip d :
    Sql.count_likes pid ip d > 0 → (0 < ip_likes pid ip d)%nat.
  Proof. unfold Sql.count_likes. lia. Qed.

Lemma count_likes_zero pid ip d :
    ¬ Sql.count_likes pid ip d > 0 → ip_likes pid ip d = 0%nat.
  Proof. unfold Sql.count_likes. lia. Qed.

Lemma count_likes_zero' pid ip d :
    ¬ Sql.count_likes pid ip d > 0 → Sql.count_likes pid ip d = 0.
  Proof. unfold Sql.count_likes. lia. Qed.

#[export] Hint Resolve count_likes_pos count_likes_zero count_likes_zero' : core.

Lemma create_form_run r w : create_form r w = (Ok (Render PageCreate), w).
  Proof. done. Qed.

  (** [handle_cases Hh k]: split [Hh : handle rt r w = (res, w')] into the
      branches of the handler, calling [k L] with the theorem [L] that
      gives the run of each branch (the [*_run] and [*_down] theorems of
      [Handlers.v]). *)
Ltac handle_cases w r rt Hh k :=
    destruct (db_up w) eqn:?Hup; destruct rt as [| | |?pid|?pid|?pid|?pid|?pid|?pid| |];
      cbn [handle] in Hh;
    [ k index_run
    | k create_form_run
    | destruct (filled (form_lookup "title" (form r))) eqn:?Ht;
        [destruct (filled (form_lookup "author" (form r))) eqn:?Ha;
         [destruct (filled (form_lookup "content" (form r))) eqn:?Hc|]|];
      [k create_post_run | k create_post_missing_run | k create_post_missing_run
      | k create_post_missing_run]
    | lazymatch type of Hh with view_post ?p _ _ = _ =>
        destruct (posts (db w) !! p) eqn:?Hp; [k view_post_found_run | k view_post_missing_run] end
    | lazymatch type of Hh with edit_form ?p _ _ = _ =>
        destruct (posts (db w) !! p) eqn:?Hp; [k edit_form_found_run | k edit_form_missing_run] end
    | destruct (filled (form_lookup "title" (form r))) eqn:?Ht;
        [destruct (filled (form_lookup "content" (form r))) eqn:?Hc|];
      [k edit_post_run | k edit_post_missing_run | k edit_post_missing_run]
    | k delete_post_run
    | destruct (filled (form_lookup "author" (form r))) eqn:?Ha;
        [destruct (filled (form_lookup "content" (form r))) eqn:?Hc|];
      [k add_comment_run | k add_comment_missing_run | k add_comment_missing_run]
    | lazymatch type of Hh with like_post ?p _ _ = _ =>
        destruct (decide (Sql.count_likes p (remote_addr r) (db w) > 0));
        [k like_post_remove_run | k like_post_add_run] end
    | destruct (form_values "post_ids" (form r)) as [|?s ?l] eqn:?Hids;
        [k delete_batch_empty_run
        | lazymatch goal with Hids : form_values _ _ = ?l |- _ =>
            destruct (ints_of l) eqn:?Hns; [k delete_batch_ok_run | k delete_batch_bad_run] end]
    | k fms_dashboard_run
    | k index_down
    | k create_form_run
    | destruct (filled (form_lookup "title" (form r))) eqn:?Ht;
        [destruct (filled (form_lookup "author" (form r))) eqn:?Ha;
         [destruct (filled (form_lookup "content" (form r))) eqn:?Hc|]|];
      [k create_post_down | k create_post_missing_run | k create_post_missing_run
      | k create_post_missing_run]
    | k view_post_down
    | k edit_form_down
    | destruct (filled (form_lookup "title" (form r))) eqn:?Ht;
        [destruct (filled (form_lookup "content" (form r))) eqn:?Hc|];
      [k edit_post_down | k edit_post_missing_run | k edit_post_missing_run]
    | k delete_post_down
    | destruct (filled (form_lookup "author" (form r))) eqn:?Ha;
        [destruct (filled (form_lookup "content" (form r))) eqn:?Hc|];
      [k add_comment_down | k add_comment_missing_run | k add_comment_missing_run]
    | k like_post_down
    | destruct (form_values "post_ids" (form r)) as [|?s ?l] eqn:?Hids;
        [k delete_batch_empty_run | k delete_batch_down_run]
    | k fms_dashboard_down ].

  (** [run_in L] rewrites the run of the handler in [Hh] with the branch
      theorem [L]; the write is then one of [db_write]. *)
Local Ltac run_in L Hh :=
    erewrite L in Hh by first [eauto | naive_solver];
    apply pair_equal_spec in Hh as [_ <-];
    first [ split; [cbn [db request_done]; econstructor; eauto
                   | intros Hf; split; [by apply request_done_conns | by apply request_done_fresh]]
          | split; [apply write_none | done] ].

  (** What a request does to the store is one of [db_write], and it closes
      every connection it opens, whatever it returns. *)
Theorem handle_write rt r w res w' :
    handle rt r w = (res, w') →
    db_write r rt (db w) (db w') ∧ (conns_fresh w → conns w' = conns w ∧ conns_fresh w').
  Proof. intros Hh. handle_cases w r rt Hh ltac:(fun L => run_in L Hh). Qed.

Lemma db_write_inv r rt d d' :
    db_inv d → route_ok rt d → db_write r rt d d' → db_inv d'.
  Proof.
    intros Hd Hok Hw. revert Hd Hok. destruct Hw; intros Hd Hok; cbn [route_ok] in Hok.
    - done.
    - by apply insert_post_inv.
    - by apply incr_view_count_inv.
    - by apply update_post_inv.
    - by apply delete_post_inv.
    - by apply insert_comment_inv.
    - by apply like_add_inv.
    - by apply like_remove_inv.
    - by apply delete_posts_any_inv.
  Qed.


Lemma step_inv w w' : world_inv w → step w w' → world_inv w'.
  Proof.
    intros [Hd Hf] Hs. inversion Hs as [rt r w0 res w1 Hok Hh|w0 b]; subst.
    - destruct (handle_write _ _ _ _ _ Hh) as [Hw Hc].
      split; [by eapply db_write_inv | apply Hc, Hf].
    - split; [done|]. intros c Hc. by apply Hf.
  Qed.

Lemma world_init_inv : world_inv world_init.
  Proof.
    split.
    - split; cbn; [apply map_Forall_empty | constructor | constructor | apply map_Forall_empty].
    - intros c _. apply lookup_empty.
  Qed.

Lemma steps_inv w w' : rtc step w w' → world_inv w → world_inv w'.
  Proof. induction 1; eauto using step_inv. Qed.

  (** C2: every world reachable from the empty board by requests the
      invariant allows (and by the server going down or up) satisfies it:
      in particular each post's [like_count] is its number of like rows. *)
Theorem reachable_inv w : rtc step world_init w → world_inv w.
  Proof. intros Hr. exact (steps_inv _ _ Hr world_init_inv). Qed.

  (** * The counters are never negative *)

Lemma db_write_views r rt d d' :
    db_write r rt d d' →
    map_Forall (λ _ p, 0 ≤ view_count p) (posts d) → map_Forall (λ _ p, 0 ≤ view_count p) (posts d').
  Proof.
    destruct 1; intros Hv; cbn; try done.
    - apply map_Forall_insert_2; [cbn; lia|done].
    - apply map_Forall_alter; [done|cbn; intros; lia].
    - apply map_Forall_alter; [done|cbn; intros; lia].
    - by apply map_Forall_delete.
    - apply map_Forall_alter; [done|cbn; intros; lia].
    - apply map_Forall_alter; [done|cbn; intros; lia].
    - intros k p [Hp _]%map_lookup_filter_Some. by apply (Hv k).
  Qed.

Lemma steps_any w w' : rtc step w w' → rtc step_any w w'.
  Proof.
    induction 1 as [|w1 w2 w3 Hs _ IH]; [done|]. eapply rtc_l; [|exact IH].
    destruct Hs; [by eapply any_request|apply any_server].
  Qed.

Lemma steps_views w w' :
    rtc step_any w w' →
    map_Forall (λ _ p, 0 ≤ view_count p) (posts (db w)) →
    map_Forall (λ _ p, 0 ≤ view_count p) (posts (db w')).
  Proof.
    induction 1 as [|w1 w2 w3 Hs _ IH]; [done|]. intros Hv. apply IH.
    inversion Hs as [rt r w0 res w4 Hh|]; subst; [|done].
    eapply db_write_views; [|exact Hv]. apply (handle_write _ _ _ _ _ Hh).
  Qed.

  (** C28: the [INTEGER] counters of a post are never negative:
      [view_count] in every world reachable by any requests at all (views
      only ever add one), and [like_count] in every world reachable by
      requests that like only issued ids (a like is taken back only after
      it was counted).  Without that restriction a like of an id not
      issued yet is counted on no row, and a later unlike of the post
      created with that id takes [like_count] to [-1] (C19). *)
Theorem reachable_counters_ok w :
    (rtc step_any world_init w → map_Forall (λ _ p, 0 ≤ view_count p) (posts (db w))) ∧
    (rtc step world_init w → counters_ok (db w)).
  Proof.
    split; [intros Hr; exact (steps_views _ _ Hr (map_Forall_empty _))|].
    intros Hr. destruct (steps_inv _ _ Hr world_init_inv) as [Hd _].
    pose proof (steps_views _ _ (steps_any _ _ Hr) (map_Forall_empty _)) as Hv.
    intros k p Hp. split; [exact (Hv k p Hp)|].
    rewrite (inv_like_count _ Hd k p Hp). lia.
  Qed.

  (** * Views only go up *)

Lemma alter_view_mono (f : Post → Post) pid (m : gmap Z Post) k p p' :
    (∀ q, view_count q ≤ view_count (f q)) →
    m !! k = Some p → alter f pid m !! k = Some p' → view_count p ≤ view_count p'.
  Proof.
    intros Hf Hp. destruct (decide (pid = k)) as [->|Hne].
    - rewrite lookup_alter_eq, Hp. cbn. intros [= <-]. apply Hf.
    - rewrite lookup_alter_ne, Hp by done. intros [= <-]. lia.
  Qed.

Local Ltac same_posts Hp Hp' :=
    rewrite Hp' in Hp; injection Hp as <-; lia.

  (** No request lowers the [view_count] of a post that survives it. *)
Lemma db_write_view_mono r rt d d' k p p' :
    db_inv d → db_write r rt d d' →
    posts d !! k = Some p → posts d' !! k = Some p' → view_count p ≤ view_count p'.
  Proof.
    intros Hd Hw. revert Hd. destruct Hw; intros Hd Hp Hp'.
    - same_posts Hp Hp'.
    - cbn in Hp'. rewrite lookup_insert_ne in Hp'.
      + same_posts Hp Hp'.
      + intros Hk. destruct (inv_keys _ Hd k p Hp). lia.
    - refine (alter_view_mono _ _ _ _ _ _ _ Hp Hp'). cbn. intros; lia.
    - refine (alter_view_mono _ _ _ _ _ _ _ Hp Hp'). cbn. intros; lia.
    - cbn in Hp'. apply lookup_delete_Some in Hp' as [_ Hp']. same_posts Hp Hp'.
    - cbn in Hp'. same_posts Hp Hp'.
    - refine (alter_view_mono _ _ _ _ _ _ _ Hp Hp'). cbn. intros; lia.
    - refine (alter_view_mono _ _ _ _ _ _ _ Hp Hp'). cbn. intros; lia.
    - cbn in Hp'. apply map_lookup_filter_Some in Hp' as [Hp' _]. same_posts Hp Hp'.
  Qed.

  (** C18: no request lowers the [view_count] of a post that survives it. *)
Theorem handle_view_count_mono rt r w res w' k p p' :
    world_inv w → handle rt r w = (res, w') →
    posts (db w) !! k = Some p → posts (db w') !! k = Some p' → view_count p ≤ view_count p'.
  Proof.
    intros [Hd _] Hh. eapply db_write_view_mono; [done|]. apply (handle_write _ _ _ _ _ Hh).
  Qed.

  (** * Toggling a like twice *)

Lemma add_like_count_cancel delta pid (m : gmap Z Post) :
    alter (λ p, set_like_count (like_count p + - delta) p) pid
      (alter (λ p, set_like_count (like_count p + delta) p) pid m) = m.
  Proof.
    rewrite alter_alter_eq. apply alter_id. intros [] _. unfold set_like_count. cbn.
    f_equal. lia.
  Qed.

Lemma ip_likes_in pid ip d :
    NoDup (likes d) → (0 < ip_likes pid ip d)%nat → mkLike pid ip ∈ likes d.
  Proof. intros Hn. unfold ip_likes. rewrite (count_where_eq_NoDup _ _ Hn). case_decide; [done|lia]. Qed.

Lemma ip_likes_notin pid ip d : ip_likes pid ip d = 0%nat → mkLike pid ip ∉ likes d.
  Proof.
    intros H0%count_where_zero Hin. by eapply Forall_forall in H0.
  Qed.

  (** C6: two like toggles in a row from one address restore the post row
      exactly (its [like_count] included) and the like rows up to their
      order (spec §8). *)
Theorem like_post_twice pid r w res1 w1 res2 w2 :
    db_inv (db w) → db_up w = true →
    like_post pid r w = (res1, w1) → like_post pid r w1 = (res2, w2) →
    posts (db w2) = posts (db w) ∧ likes (db w2) ≡ₚ likes (db w).
  Proof.
    intros Hd Hup H1 H2.
    destruct (decide (Sql.count_likes pid (remote_addr r) (db w) > 0)) as [Hn|Hn].
    - rewrite like_post_remove_run in H1 by done. apply pair_equal_spec in H1 as [_ <-].
      rewrite like_post_add_run in H2; cycle 1.
      { done. }
      { cbn [db request_done]. unfold Sql.add_like_count.
        by rewrite SqlFacts.count_likes_set_posts; unfold Sql.count_likes;
          rewrite SqlFacts.ip_likes_delete_likes. }
      apply pair_equal_spec in H2 as [_ <-]. cbn [db request_done]. split.
      + apply (add_like_count_cancel (-1)).
      + apply filter_neq_snoc_perm; [apply Hd|]. apply ip_likes_in; [apply Hd|auto].
    - rewrite like_post_add_run in H1 by auto. apply pair_equal_spec in H1 as [_ <-].
      rewrite like_post_remove_run in H2; cycle 1.
      { done. }
      { cbn [db request_done]. unfold Sql.add_like_count.
        rewrite SqlFacts.count_likes_set_posts; unfold Sql.count_likes.
        rewrite SqlFacts.ip_likes_insert_like. lia. }
      apply pair_equal_spec in H2 as [_ <-]. cbn [db request_done]. split.
      + apply (add_like_count_cancel 1).
      + cbn. rewrite filter_app, filter_neq_notin by (apply ip_likes_notin; auto).
        rewrite filter_cons_False by naive_solver. by rewrite app_nil_r.
  Qed.

  (** * A like before its post *)

  (** C17: every step closes every connection it opens, on every path
      (errors included): the open connections after a request or an outage
      are those before it. *)
Theorem handle_closes_connections w w' :
    conns_fresh w → step w w' → conns w' = conns w.
  Proof.
    intros Hf Hs. inversion Hs as [rt r w0 res w1 Hok Hh|w0 b]; subst; [|done].
    apply (handle_write _ _ _ _ _ Hh), Hf.
  Qed.

  (** * Witnesses *)

Definition world_one : World := (handle RCreatePost req_new_post world_init).2.

Lemma world_one_inv : world_inv world_one.
  Proof.
    apply (step_inv world_init); [apply world_init_inv|].
    by eapply (step_request RCreatePost req_new_post world_init).
  Qed.

Lemma reachable_counters_ok_witness :
    rtc step world_init world_one ∧ counters_ok (db world_one).
  Proof.
    assert (Hr : rtc step world_init world_one).
    { apply rtc_once.
      apply (step_request RCreatePost req_new_post world_init
               (handle RCreatePost req_new_post world_init).1); [done|apply surjective_pairing]. }
    split; [exact Hr|exact (proj2 (reachable_counters_ok world_one) Hr)].
  Defined.

Lemma reachable_inv_witness : world_inv world_one.
  Proof.
    exact (reachable_inv world_one
             (rtc_once _ _ (step_request RCreatePost req_new_post world_init _ _ I eq_refl))).
  Defined.


Lemma like_post_twice_witness :
    let w1 := (like_post 1 req_anon world_one).2 in
    let w2 := (like_post 1 req_anon w1).2 in
    posts (db w2) = posts (db world_one) ∧ likes (db w2) ≡ₚ likes (db world_one).
  Proof.
    exact (like_post_twice 1 req_anon world_one _ _ _ _ (proj1 world_one_inv) eq_refl
             eq_refl eq_refl).
  Defined.

Lemma handle_closes_connections_witness :
    conns (handle (RViewPost 1) req_anon world_one).2 = conns world_one.
  Proof.
    exact (handle_closes_connections world_one _ (proj2 world_one_inv)
             (step_request (RViewPost 1) req_anon world_one _ _ I eq_refl)).
  Defined.

  (** Post 1 of [world_one], viewed: 0 views before, 1 after. *)
Lemma handle_view_count_mono_witness :
    posts (db world_one) !! 1 = Some (mkPost 1 "t" "c" "a" 1 None 0 0) ∧
    posts (db (handle (RViewPost 1) req_anon world_one).2) !! 1 =
      Some (mkPost 1 "t" "c" "a" 1 None 1 0) ∧
    view_count (mkPost 1 "t" "c" "a" 1 None 0 0) ≤ view_count (mkPost 1 "t" "c" "a" 1 None 1 0).
  Proof.
    assert (H1 : posts (db world_one) !! 1 = Some (mkPost 1 "t" "c" "a" 1 None 0 0))
      by (vm_compute; reflexivity).
    assert (H2 : posts (db (handle (RViewPost 1) req_anon world_one).2) !! 1 =
                   Some (mkPost 1 "t" "c" "a" 1 None 1 0)) by (vm_compute; reflexivity).
    split_and!; [exact H1|exact H2|].
    exact (handle_view_count_mono (RViewPost 1) req_anon world_one _ _ 1 _ _
             world_one_inv (surjective_pairing _) H1 H2).
  Defined.
End Invariant.
