(* ===== verification/Spec.v ===== *)
(** * The board as the spec describes it, and the handlers' refinement

    An abstract board: each post with its fields, its view count, the set
    of addresses that like it and its comments, the next post id and the
    next comment id.  [abs] reads it off the store: the like rows of a post
    become the set of its likers, its comment rows its comments; rows of
    posts that no longer exist are invisible, and [like_count] is not kept
    (it is the size of the likers' set, [like_count_abs]).  [spec_handle]
    is what each request does to the abstract board, from the spec (§4);
    [db_effect] is what the handler writes to the store, and [handle_db]
    proves it is exactly that.  The refinement theorem says that, on a
    store satisfying [abs_inv], the handler's write is the abstract
    operation seen through [abs], for every route but [create_post], which
    implements the abstract creation with author and content exchanged.
    The last theorem shows what a like or a comment sent to a post id the
    sequence has not issued does once that post is created. *)

From S2P Require Import Prelude Schema Sql Fms Runtime Demo Handlers Invariant.

Module Spec.
  Import Handlers Invariant.
  Local Open Scope Z_scope.

  (** * The abstract board *)

Record APost := mkAPost {
    a_title : string;
    a_author : string;
    a_content : string;
    a_created : timestamp;
    a_updated : option timestamp;
    a_views : Z;
    a_likers : gset string;
    a_comments : list Comment;
  }.

Record Board := mkBoard {
    b_posts : gmap Z APost;
    b_next : Z;
    b_comment_next : Z;
  }.

  (** The addresses with a like row for post [pid]. *)
Definition likers (pid : Z) (ls : list Like) : gset string :=
    list_to_set (user_ip <$> filter (λ l, like_post_id l = pid) ls).

Definition post_comments (pid : Z) (cs : list Comment) : list Comment :=
    filter (λ c, comment_post_id c = pid) cs.

Definition abs_post (ls : list Like) (cs : list Comment) (p : Post) : APost :=
    mkAPost (title p) (author p) (content p) (created_at p) (updated_at p)
      (view_count p) (likers (post_id p) ls) (post_comments (post_id p) cs).

Definition abs (d : Db) : Board :=
    mkBoard (abs_post (likes d) (comments d) <$> posts d) (post_seq d) (comment_seq d).

  (** * The abstract operations (spec §4) *)

Definition b_set_posts (f : gmap Z APost → gmap Z APost) (B : Board) : Board :=
    mkBoard (f (b_posts B)) (b_next B) (b_comment_next B).

  (** §4.3: a new post under the next id, no views, likers or comments. *)
Definition b_create (t a c : string) (tm : timestamp) (B : Board) : Board :=
    mkBoard (<[b_next B := mkAPost t a c tm None 0 ∅ []]> (b_posts B))
      (b_next B + 1) (b_comment_next B).

  (** §4.4: one more view, if the post exists. *)
Definition b_view (pid : Z) : Board → Board :=
    b_set_posts (alter (λ ap, mkAPost (a_title ap) (a_author ap) (a_content ap) (a_created ap)
                                (a_updated ap) (a_views ap + 1) (a_likers ap) (a_comments ap)) pid).

  (** §4.5: new title and content, stamped with the edit time. *)
Definition b_edit (pid : Z) (t c : string) (tm : timestamp) : Board → Board :=
    b_set_posts (alter (λ ap, mkAPost t (a_author ap) c (a_created ap)
                                (Some tm) (a_views ap) (a_likers ap) (a_comments ap)) pid).

  (** §4.6 and §4.9. *)
Definition b_delete (pid : Z) : Board → Board := b_set_posts (delete pid).
Definition b_delete_any (ns : list Z) : Board → Board :=
    b_set_posts (filter (λ kv, kv.1 ∉ ns)).

  (** §4.7: the comment gets the next comment id; a comment on a post that
      does not exist is not seen. *)
Definition b_comment (pid : Z) (a c : string) (tm : timestamp) (B : Board) : Board :=
    mkBoard (alter (λ ap, mkAPost (a_title ap) (a_author ap) (a_content ap) (a_created ap)
                            (a_updated ap) (a_views ap) (a_likers ap)
                            (a_comments ap ++ [mkComment (b_comment_next B) pid a c tm]))
               pid (b_posts B))
      (b_next B) (b_comment_next B + 1).

  (** §4.8: the address joins the likers, or leaves them if it was one. *)
Definition b_toggle (pid : Z) (ip : string) : Board → Board :=
    b_set_posts (alter (λ ap, mkAPost (a_title ap) (a_author ap) (a_content ap) (a_created ap)
                                (a_updated ap) (a_views ap)
                                (if decide (ip ∈ a_likers ap) then a_likers ap ∖ {[ip]}
                                 else {[ip]} ∪ a_likers ap)
                                (a_comments ap)) pid).

  (** What a request does to the abstract board when the store is up. *)
Definition spec_handle (rt : Route) (r : Request) (B : Board) : Board :=
    match rt with
    | RCreatePost =>
        match filled (form_lookup "title" (form r)), filled (form_lookup "author" (form r)),
              filled (form_lookup "content" (form r)) with
        | Some t, Some a, Some c => b_create t a c (now r) B
        | _, _, _ => B
        end
    | RViewPost pid => b_view pid B
    | REditPost pid =>
        match filled (form_lookup "title" (form r)), filled (form_lookup "content" (form r)) with
        | Some t, Some c => b_edit pid t c (now r) B
        | _, _ => B
        end
    | RDeletePost pid => b_delete pid B
    | RAddComment pid =>
        match filled (form_lookup "author" (form r)), filled (form_lookup "content" (form r)) with
        | Some a, Some c => b_comment pid a c (now r) B
        | _, _ => B
        end
    | RLikePost pid => b_toggle pid (remote_addr r) B
    | RDeleteBatch =>
        match form_values "post_ids" (form r) with
        | [] => B
        | l => match ints_of l with Ok ns => b_delete_any ns B | Raise _ => B end
        end
    | RIndex | RCreateForm | REditForm _ | RFms => B
    end%string.

#[export] Instance Route_eq_dec : EqDecision Route.
  Proof. solve_decision. Defined.

  (** A request the abstract board allows: likes and comments name an id
      the sequence has issued (the pages link only to such posts). *)
Definition spec_route_ok (rt : Route) (d : Db) : Prop :=
    match rt with
    | RLikePost pid | RAddComment pid => pid < post_seq d
    | _ => True
    end.

  (** What the code does to the abstract board: the spec's operation of
      each route, except that a creation stores the submitted content as
      author and the submitted author as content (line 62). *)
Definition impl_handle (rt : Route) (r : Request) (B : Board) : Board :=
    match rt with
    | RCreatePost =>
        match filled (form_lookup "title" (form r)), filled (form_lookup "author" (form r)),
              filled (form_lookup "content" (form r)) with
        | Some t, Some a, Some c => b_create t c a (now r) B
        | _, _, _ => B
        end
    | _ => spec_handle rt r B
    end%string.

  (** The events of a run: a request, or the server going down or up. *)
Inductive Event :=
    | ERequest (rt : Route) (r : Request)
    | EServer (up : bool).

  (** A request the abstract board allows (likes and comments name an
      issued id), or the server going down or coming back. *)
Inductive lstep : World → Event → World → Prop :=
    | ls_request rt r w res w' :
        spec_route_ok rt (db w) → handle rt r w = (res, w') → lstep w (ERequest rt r) w'
    | ls_server w b :
        lstep w (EServer b) (mkWorld (db w) b (conns w) (conn_seq w) (flashes w)).

Inductive lsteps : World → list Event → World → Prop :=
    | lsteps_nil w : lsteps w [] w
    | lsteps_cons w e w1 tr w2 : lstep w e w1 → lsteps w1 tr w2 → lsteps w (e :: tr) w2.

  (** The abstract run of the same events: a request applies its
      operation while the server is up and nothing while it is down. *)
Fixpoint spec_run (up : bool) (tr : list Event) (B : Board) : Board :=
    match tr with
    | [] => B
    | ERequest rt r :: tr' => spec_run up tr' (if up then impl_handle rt r B else B)
    | EServer b :: tr' => spec_run b tr' B
    end.

  (** * What each handler writes *)

  (** The store after the handler of [rt] ran on an up store, read off
      the branches of the handler. *)
Definition db_effect (rt : Route) (r : Request) (d : Db) : Db :=
    match rt with
    | RCreatePost =>
        match filled (form_lookup "title" (form r)), filled (form_lookup "author" (form r)),
              filled (form_lookup "content" (form r)) with
        | Some t, Some a, Some c => (Sql.insert_post t a c (now r) d).2
        | _, _, _ => d
        end
    | RViewPost pid => Sql.incr_view_count pid d
    | REditPost pid =>
        match filled (form_lookup "title" (form r)), filled (form_lookup "content" (form r)) with
        | Some t, Some c => Sql.update_post pid t c (now r) d
        | _, _ => d
        end
    | RDeletePost pid => Sql.delete_post pid d
    | RAddComment pid =>
        match filled (form_lookup "author" (form r)), filled (form_lookup "content" (form r)) with
        | Some a, Some c => Sql.insert_comment pid a c (now r) d
        | _, _ => d
        end
    | RLikePost pid =>
        if bool_decide (Sql.count_likes pid (remote_addr r) d > 0)
        then Sql.add_like_count (-1) pid (Sql.delete_likes pid (remote_addr r) d)
        else Sql.add_like_count 1 pid (Sql.insert_like pid (remote_addr r) d)
    | RDeleteBatch =>
        match form_values "post_ids" (form r) with
        | [] => d
        | l => match ints_of l with Ok ns => Sql.delete_posts_any ns d | Raise _ => d end
        end
    | RIndex | RCreateForm | REditForm _ | RFms => d
    end%string.

  (** An [UPDATE] of a missing id changes nothing. *)
Lemma incr_view_count_None pid d :
    posts d !! pid = None → Sql.incr_view_count pid d = d.
  Proof.
    intros Hp. destruct d as [ps ? ? ? ? ?]. unfold Sql.incr_view_count, set_posts. cbn in *.
    by rewrite alter_id by (intros ? ?; simplify_eq).
  Qed.

  (** [eff_in L Hh]: rewrite the run of the handler in [Hh] with the branch
      theorem [L], and compare the store it leaves with [db_effect]. *)
Local Ltac eff_in L Hh :=
    erewrite L in Hh by first [eauto | naive_solver];
    apply pair_equal_spec in Hh as [_ <-]; cbn [db request_done db_effect];
    repeat match goal with H : ?a = _ |- context [?a] => rewrite H end;
    simplify_option_eq; rewrite ?bool_decide_true, ?bool_decide_false by done;
    first [done | by rewrite incr_view_count_None].

  (** A request leaves the store as [db_effect] says on an up store, and
      as it was on a down one: the handler's every branch, errors
      included. *)
Lemma handle_db rt r w res w' :
    handle rt r w = (res, w') → db w' = if db_up w then db_effect rt r (db w) else db w.
  Proof.
    intros Hh. handle_cases w r rt Hh ltac:(fun L => eff_in L Hh).
  Qed.

  (** * The abstraction of each statement *)

  (** Comments name an id the sequence has issued; with [db_inv] this is
      what the refinement needs. *)
Definition abs_inv (d : Db) : Prop :=
    db_inv d ∧ Forall (λ c, comment_post_id c < post_seq d) (comments d).

Lemma likers_elem pid ls ip : ip ∈ likers pid ls ↔ mkLike pid ip ∈ ls.
  Proof.
    unfold likers. rewrite elem_of_list_to_set, list_elem_of_fmap. split.
    - intros ([pid' ip'] & -> & [Hp Hin]%list_elem_of_filter). cbn in *. by subst.
    - intros Hin. exists (mkLike pid ip). by rewrite list_elem_of_filter.
  Qed.

Lemma likers_ext pid ls (X : gset string) :
    (∀ ip, mkLike pid ip ∈ ls ↔ ip ∈ X) → likers pid ls = X.
  Proof. intros H. apply set_eq. intros ip. by rewrite likers_elem. Qed.

  (** A like row exists exactly when [COUNT( * )] is positive. *)
Lemma ip_likes_pos pid ip d : (0 < ip_likes pid ip d)%nat ↔ ip ∈ likers pid (likes d).
  Proof.
    rewrite likers_elem. unfold ip_likes, count_where. split.
    - intros Hlen. destruct (filter _ (likes d)) as [|l ls] eqn:E; [cbn in Hlen; lia|].
      assert (l ∈ filter (λ l, l = mkLike pid ip) (likes d)) as Hl by (rewrite E; set_solver).
      apply list_elem_of_filter in Hl as [-> Hl]. done.
    - intros Hin. assert (mkLike pid ip ∈ filter (λ l, l = mkLike pid ip) (likes d)) as Hl
        by (by apply list_elem_of_filter).
      destruct (filter _ (likes d)); [set_solver|cbn; lia].
  Qed.

  (** Statements that do not touch likes and comments act on each row. *)
Lemma abs_set_posts f d :
    abs (set_posts f d) = mkBoard (abs_post (likes d) (comments d) <$> f (posts d))
                            (post_seq d) (comment_seq d).
  Proof. done. Qed.

Lemma abs_incr_view_count pid d : abs (Sql.incr_view_count pid d) = b_view pid (abs d).
  Proof.
    unfold Sql.incr_view_count, b_view, b_set_posts. rewrite abs_set_posts. f_equal.
    by apply fmap_alter.
  Qed.

Lemma abs_update_post pid t c tm d : abs (Sql.update_post pid t c tm d) = b_edit pid t c tm (abs d).
  Proof.
    unfold Sql.update_post, b_edit, b_set_posts. rewrite abs_set_posts. f_equal.
    by apply fmap_alter.
  Qed.

Lemma abs_delete_post pid d : abs (Sql.delete_post pid d) = b_delete pid (abs d).
  Proof.
    unfold Sql.delete_post, b_delete, b_set_posts. rewrite abs_set_posts. f_equal.
    apply fmap_delete.
  Qed.

Lemma abs_delete_posts_any ns d : abs (Sql.delete_posts_any ns d) = b_delete_any ns (abs d).
  Proof.
    unfold Sql.delete_posts_any, b_delete_any, b_set_posts. rewrite abs_set_posts. f_equal.
    apply map_eq. intros k. cbn [b_posts abs].
    rewrite lookup_fmap, !map_lookup_filter, lookup_fmap.
    destruct (posts d !! k); cbn; [|done]. by case_guard.
  Qed.

  (** [like_count] is not part of the abstract board. *)
Lemma abs_add_like_count delta pid d : abs (Sql.add_like_count delta pid d) = abs d.
  Proof.
    unfold Sql.add_like_count. rewrite abs_set_posts. unfold abs. f_equal.
    rewrite (fmap_alter _ _ id) by done. apply alter_id. done.
  Qed.

Lemma filter_none {A} (P : A → Prop) `{∀ x, Decision (P x)} l :
    Forall (λ x, ¬ P x) l → filter P l = [].
  Proof. intros Hl. by apply length_zero_iff_nil, (count_where_zero P l). Qed.

  (** A new post has no like rows and no comment rows: the ids of both
      are below the sequence. *)
Lemma abs_insert_post t pc pa tm d :
    abs_inv d → abs (Sql.insert_post t pc pa tm d).2 = b_create t pa pc tm (abs d).
  Proof.
    intros [[Hk Hl Hn Hc] Hcm]. unfold abs, b_create. cbn. rewrite fmap_insert. do 2 f_equal.
    unfold abs_post. cbn. f_equal.
    - apply likers_ext. intros ip. split; [|set_solver]. intros Hin.
      eapply Forall_forall in Hin; [|exact Hl]. cbn in Hin. lia.
    - apply filter_none. eapply Forall_impl; [exact Hcm|]. cbn. lia.
  Qed.

Lemma post_comments_snoc k cs (c : Comment) :
    post_comments k (cs ++ [c]) =
      post_comments k cs ++ (if decide (comment_post_id c = k) then [c] else []).
  Proof. unfold post_comments. by rewrite filter_app, filter_singleton. Qed.

  (** The lookup of a key in [abs], through [post_id p = k]. *)
Lemma abs_lookup ls cs (m : gmap Z Post) k :
    (abs_post ls cs <$> m) !! k = abs_post ls cs <$> m !! k.
  Proof. apply lookup_fmap. Qed.

Lemma abs_insert_comment pid a c tm d :
    db_inv d → abs (Sql.insert_comment pid a c tm d) = b_comment pid a c tm (abs d).
  Proof.
    intros [Hk _ _ _]. unfold abs, b_comment. cbn. f_equal. apply map_eq. intros k.
    rewrite abs_lookup. destruct (decide (pid = k)) as [->|Hne];
      [rewrite lookup_alter_eq | rewrite lookup_alter_ne by done]; rewrite abs_lookup;
      destruct (posts d !! k) as [p|] eqn:E; cbn; try done;
      destruct (Hk k p E) as [Hid _]; unfold abs_post; rewrite Hid, post_comments_snoc; cbn.
    - by rewrite decide_True.
    - by rewrite decide_False, app_nil_r.
  Qed.

Lemma likers_snoc k ls pid ip :
    likers k (ls ++ [mkLike pid ip]) =
      if decide (pid = k) then {[ip]} ∪ likers k ls else likers k ls.
  Proof.
    apply likers_ext. intros ip'. rewrite elem_of_app, list_elem_of_singleton.
    case_decide; subst; rewrite ?elem_of_union, ?elem_of_singleton, likers_elem; naive_solver.
  Qed.

Lemma likers_delete k ls pid ip :
    likers k (filter (λ l, l ≠ mkLike pid ip) ls) =
      if decide (pid = k) then likers k ls ∖ {[ip]} else likers k ls.
  Proof.
    apply likers_ext. intros ip'. rewrite list_elem_of_filter.
    case_decide; subst; rewrite ?elem_of_difference, ?elem_of_singleton, likers_elem; naive_solver.
  Qed.

  (** The toggle of [like_post]: [COUNT( * ) > 0] exactly when the address
      is among the likers. *)
Lemma abs_like pid ip d :
    db_inv d →
    abs (if bool_decide (Sql.count_likes pid ip d > 0)
         then Sql.add_like_count (-1) pid (Sql.delete_likes pid ip d)
         else Sql.add_like_count 1 pid (Sql.insert_like pid ip d)) = b_toggle pid ip (abs d).
  Proof.
    intros [Hk _ _ _].
    assert (Sql.count_likes pid ip d > 0 ↔ ip ∈ likers pid (likes d)) as Hdec
      by (unfold Sql.count_likes; rewrite <-ip_likes_pos; lia).
    unfold b_toggle, b_set_posts.
    case_bool_decide as Hn; rewrite abs_add_like_count; unfold abs; cbn; f_equal;
      apply map_eq; intros k; rewrite abs_lookup;
      (destruct (decide (pid = k)) as [->|Hne];
        [rewrite lookup_alter_eq | rewrite lookup_alter_ne by done]); rewrite abs_lookup;
      destruct (posts d !! k) as [p|] eqn:E; cbn; try done;
      destruct (Hk k p E) as [Hid _]; unfold abs_post; rewrite Hid;
      rewrite ?likers_delete, ?likers_snoc; repeat case_decide; naive_solver.
  Qed.

  (** [db_effect] is one of the writes [db_write] allows. *)
Lemma db_effect_write rt r d : db_write r rt d (db_effect rt r d).
  Proof.
    destruct rt; cbn.
    all: try (case_bool_decide; [apply write_like_remove | apply write_like_add];
              unfold Sql.count_likes in *; lia).
    all: repeat case_match; first [apply write_none | econstructor].
  Qed.

Lemma db_effect_seq rt r d : post_seq d ≤ post_seq (db_effect rt r d).
  Proof. destruct rt; cbn; repeat case_match; cbn; lia. Qed.

Lemma abs_inv_effect rt r d :
    abs_inv d → spec_route_ok rt d → abs_inv (db_effect rt r d).
  Proof.
    intros [Hd Hcm] Hok. split.
    - eapply db_write_inv; [done| |apply db_effect_write]. by destruct rt.
    - pose proof (db_effect_seq rt r d) as Hseq.
      eapply Forall_impl with (P := λ c, comment_post_id c < post_seq d); [|intros; lia].
      destruct rt; cbn; repeat case_match; cbn; try done.
      apply Forall_app. split; [done|]. by constructor.
  Qed.

  (** Each route but [create_post] writes the abstract operation of the
      spec; [create_post] writes the abstract creation with the submitted
      content as author and the submitted author as content. *)
Lemma abs_db_effect rt r d :
    abs_inv d → rt ≠ RCreatePost → abs (db_effect rt r d) = spec_handle rt r (abs d).
  Proof.
    intros Hinv Hrt. pose proof (proj1 Hinv) as Hd.
    destruct rt; cbn; try done; try (by apply abs_like); repeat case_match; try done.
    all: first [apply abs_incr_view_count | apply abs_update_post | apply abs_delete_post
               | by apply abs_insert_comment | apply abs_delete_posts_any].
  Qed.

Lemma abs_db_effect_create r d t a c :
    abs_inv d →
    filled (form_lookup "title" (form r)) = Some t →
    filled (form_lookup "author" (form r)) = Some a →
    filled (form_lookup "content" (form r)) = Some c →
    abs (db_effect RCreatePost r d) = b_create t c a (now r) (abs d).
  Proof. intros Hinv Ht Ha Hc. cbn. rewrite Ht, Ha, Hc. by apply abs_insert_post. Qed.

  (** Requests do not change whether the store accepts connections. *)
Local Ltac up_in L Hh :=
    erewrite L in Hh by first [eauto | naive_solver];
    apply pair_equal_spec in Hh as [_ <-]; done.

Lemma handle_db_up rt r w res w' : handle rt r w = (res, w') → db_up w' = db_up w.
  Proof. intros Hh. handle_cases w r rt Hh ltac:(fun L => up_in L Hh). Qed.

  (** One request, seen through [abs]. *)
Lemma handle_impl rt r w res w' :
    abs_inv (db w) → spec_route_ok rt (db w) → handle rt r w = (res, w') →
    abs (db w') = (if db_up w then impl_handle rt r (abs (db w)) else abs (db w)) ∧
    abs_inv (db w') ∧ db_up w' = db_up w.
  Proof.
    intros Hinv Hok Hh. rewrite (handle_db_up _ _ _ _ _ Hh), (handle_db _ _ _ _ _ Hh).
    destruct (db_up w); [|done]. split_and!; [|by apply abs_inv_effect|done].
    destruct (decide (rt = RCreatePost)) as [->|Hrt].
    - cbn [impl_handle db_effect].
      destruct (filled (form_lookup "title" (form r))), (filled (form_lookup "author" (form r))),
        (filled (form_lookup "content" (form r))); try done. by apply abs_insert_post.
    - rewrite abs_db_effect by done. by destruct rt.
  Qed.

Lemma lsteps_spec_run w tr w' :
    lsteps w tr w' → abs_inv (db w) →
    abs (db w') = spec_run (db_up w) tr (abs (db w)) ∧ abs_inv (db w').
  Proof.
    induction 1 as [w|w e w1 tr w2 Hs _ IH]; intros Hinv; [done|].
    destruct Hs as [rt r w res w1 Hok Hh|w b]; cbn [spec_run].
    - destruct (handle_impl _ _ _ _ _ Hinv Hok Hh) as (Habs & Hinv1 & Hup).
      destruct (IH Hinv1) as [-> ?]. by rewrite Hup, Habs.
    - by apply IH.
  Qed.

Lemma abs_inv_init : abs_inv (db world_init).
  Proof. split; [apply (proj1 world_init_inv)|constructor]. Qed.

  (** * The refinement theorems *)

  (** C4: on a store satisfying [abs_inv], every request but
      [create_post] does to the abstract board exactly what the spec's
      operation for its route does, branch by branch (missing fields,
      missing post, the like toggle, a batch with a bad literal), and
      nothing when the store refuses connections. *)
Theorem handle_refines rt r w res w' :
    rt ≠ RCreatePost → abs_inv (db w) → handle rt r w = (res, w') →
    abs (db w') = if db_up w then spec_handle rt r (abs (db w)) else abs (db w).
  Proof.
    intros Hrt Hinv Hh. rewrite (handle_db _ _ _ _ _ Hh).
    destruct (db_up w); [by apply abs_db_effect|done].
  Qed.

  (** C5: the refinement of runs.  For every run of requests from the
      empty board (each like or comment naming an issued id, the server
      going down and up in between), the abstract board of the store at
      the end is the one the spec's operations give when applied to the
      same requests in the same order, those made while the server is down
      doing nothing; creation is the spec's with author and content
      exchanged (line 62). *)
Theorem reachable_refines tr w :
    lsteps world_init tr w → abs (db w) = spec_run true tr (abs (db world_init)).
  Proof. intros Hr. exact (proj1 (lsteps_spec_run _ _ _ Hr abs_inv_init)). Qed.

  (** Two requests on an up store, read through [db_effect]. *)
Lemma handle_handle_db rt1 r1 rt2 r2 w :
    db_up w = true →
    db (handle rt2 r2 (handle rt1 r1 w).2).2 = db_effect rt2 r2 (db_effect rt1 r1 (db w)).
  Proof.
    intros Hup. destruct (handle rt1 r1 w) as [res1 w1] eqn:H1. cbn [snd].
    destruct (handle rt2 r2 w1) as [res2 w2] eqn:H2. cbn [snd].
    rewrite (handle_db _ _ _ _ _ H2), (handle_db_up _ _ _ _ _ H1), Hup.
    by rewrite (handle_db _ _ _ _ _ H1), Hup.
  Qed.

  (** A post counted 0 beside one like row breaks the invariant. *)
Lemma count_mismatch d k p :
    posts d !! k = Some p → like_count p = 0 → post_likes k d = 1%nat → ¬ db_inv d.
  Proof. intros Hp H0 H1 [_ _ _ Hlc]. specialize (Hlc _ _ Hp). cbn in Hlc. lia. Qed.

  (** No row of a store satisfying [abs_inv] names the next id. *)
Lemma next_id_unused d :
    abs_inv d →
    posts d !! post_seq d = None ∧ Forall (λ l, like_post_id l ≠ post_seq d) (likes d) ∧
    Forall (λ c, comment_post_id c ≠ post_seq d) (comments d).
  Proof.
    intros [[Hk Hl _ _] Hcm]. split_and!.
    - destruct (posts d !! post_seq d) as [p|] eqn:E; [|done].
      destruct (Hk _ p E). lia.
    - eapply Forall_impl; [exact Hl|]. intros x Hx; cbn in *; lia.
    - eapply Forall_impl; [exact Hcm|]. intros x Hx; cbn in *; lia.
  Qed.

  (** C19: neither [like_post] (lines 169-190) nor [add_comment] (lines
      148-167) checks that the post exists, so what they store under the
      id the sequence issues next attaches to the post then created.  On
      any up store satisfying [abs_inv]: a like of that id stores a like
      row, and the post created next starts with [like_count = 0] beside
      it, so the invariant fails; a comment to that id is stored, and the
      post created next lists it among its comments, where the spec's
      creation gives a new post none. *)
Theorem unissued_post_id_attaches w rl rc r t a c a' c' :
    abs_inv (db w) → db_up w = true →
    filled (form_lookup "title" (form r)) = Some t →
    filled (form_lookup "author" (form r)) = Some a →
    filled (form_lookup "content" (form r)) = Some c →
    filled (form_lookup "author" (form rc)) = Some a' →
    filled (form_lookup "content" (form rc)) = Some c' →
    (let d2 := db (handle RCreatePost r (handle (RLikePost (post_seq (db w))) rl w).2).2 in
     (∃ p, posts d2 !! post_seq (db w) = Some p ∧ like_count p = 0 ∧
           post_likes (post_seq (db w)) d2 = 1%nat) ∧ ¬ db_inv d2) ∧
    (let d2 := db (handle RCreatePost r (handle (RAddComment (post_seq (db w))) rc w).2).2 in
     a_comments <$> b_posts (abs d2) !! post_seq (db w) =
       Some [mkComment (comment_seq (db w)) (post_seq (db w)) a' c' (now rc)] ∧
     a_comments <$> b_posts (spec_handle RCreatePost r
                               (spec_handle (RAddComment (post_seq (db w))) rc (abs (db w))))
                     !! post_seq (db w) = Some [])%string.
  Proof.
    intros Hinv Hup Ht Ha Hc Ha' Hc'.
    destruct (next_id_unused _ Hinv) as (Hn & Hl & Hcm). cbn zeta.
    rewrite !handle_handle_db by done. cbn [db_effect]. rewrite Ht, Ha, Hc, Ha', Hc'. split.
    - assert (Hz : Sql.count_likes (post_seq (db w)) (remote_addr rl) (db w) = 0).
      { unfold Sql.count_likes, ip_likes. rewrite (proj2 (count_where_zero _ _)); [done|].
        eapply Forall_impl; [exact Hl|]. by intros l ? ->. }
      rewrite Hz, bool_decide_false by lia.
      match goal with |- (∃ p, posts ?D !! _ = _ ∧ _) ∧ _ => set (d2 := D) end.
      assert (Hp : ∃ p, posts d2 !! post_seq (db w) = Some p ∧ like_count p = 0)
        by (subst d2; cbn; rewrite lookup_insert_eq; by eexists).
      assert (Hc1 : post_likes (post_seq (db w)) d2 = 1%nat).
      { subst d2. unfold post_likes.
        cbn [Sql.insert_post Sql.add_like_count Sql.insert_like set_posts set_likes likes snd].
        rewrite count_where_app, (proj2 (count_where_zero _ _)) by done.
        unfold count_where. cbn. by rewrite decide_True. }
      destruct Hp as (p & Hp & H0). split; [by exists p|]. exact (count_mismatch d2 _ p Hp H0 Hc1).
    - split.
      + unfold abs. cbn [b_posts Sql.insert_post Sql.insert_comment snd posts post_seq comments].
        rewrite abs_lookup. simplify_map_eq.
        rewrite post_comments_snoc, decide_True by reflexivity.
        unfold post_comments. by rewrite filter_none by exact Hcm.
      + cbn. rewrite Ht, Ha, Hc. by simplify_map_eq.
  Qed.

  (** * Witnesses *)

Lemma world_one_abs_inv : abs_inv (db world_one).
  Proof.
    refine (proj2 (lsteps_spec_run world_init [ERequest RCreatePost req_new_post] world_one
                     _ abs_inv_init)).
    eapply lsteps_cons; [|apply lsteps_nil].
    eapply (ls_request RCreatePost req_new_post world_init); [done|apply surjective_pairing].
  Qed.

Lemma handle_refines_witness :
    abs (db (handle (RLikePost 1) req_anon world_one).2) =
      spec_handle (RLikePost 1) req_anon (abs (db world_one)).
  Proof.
    exact (handle_refines (RLikePost 1) req_anon world_one _ _ ltac:(discriminate)
             world_one_abs_inv eq_refl).
  Defined.

  (** A post created, the server down during a like, back up, a like. *)
Lemma reachable_refines_witness :
    let tr := [ERequest RCreatePost req_new_post; EServer false;
               ERequest (RLikePost 1) req_anon; EServer true;
               ERequest (RLikePost 1) req_anon] in
    ∃ w, lsteps world_init tr w ∧ abs (db w) = spec_run true tr (abs (db world_init)).
  Proof.
    cbn zeta. eexists. split; [|apply reachable_refines].
    all: repeat (eapply lsteps_cons;
                 [first [ eapply ls_request; [vm_compute; first [exact I|reflexivity]
                                             |apply surjective_pairing]
                        | apply ls_server ]|]); apply lsteps_nil.
  Defined.

  (** After the first post of [world_one], a comment to id 2, then a
      new post: it lists that comment. *)
Lemma unissued_post_id_attaches_witness :
    post_seq (db world_one) = 2 ∧
    a_comments <$> b_posts (abs (db (handle RCreatePost req_new_post
        (handle (RAddComment 2) (Demo.req Demo.form_comment Demo.ip_other) world_one).2).2))
      !! 2 = Some [mkComment (comment_seq (db world_one)) 2 "park" "me too"
                     (now (Demo.req Demo.form_comment Demo.ip_other))]%string.
  Proof.
    split; [reflexivity|].
    exact (proj1 (proj2 (unissued_post_id_attaches world_one req_anon
             (Demo.req Demo.form_comment Demo.ip_other) req_new_post _ _ _ _ _
             world_one_abs_inv eq_refl eq_refl eq_refl eq_refl eq_refl eq_refl))).
  Defined.
End Spec.
