(* ===== verification/App.v ===== *)
(** * The application: routing, then the handler

    Flask's request dispatch composed of the router of [Router.v] and the
    handlers of [Handlers.v]: a request that matches a rule runs the view
    function, and an exception it raises becomes a 500 response (Flask's
    [handle_exception]); a request the router refuses is answered without
    running any handler.  Started by [app.run(debug=True)] (lines 252-253)
    the exception reaches Werkzeug's debugger, which shows its traceback.
    The file holds the model only: the routing theorems are in [Router.v]
    and those of the handlers in [Handlers.v]. *)

From S2P Require Import Prelude Schema Sql Runtime Handlers Router.

Module App.
  Import Handlers Router.
  Local Open Scope Z_scope.

Inductive HttpResponse :=
    | HPage (resp : Response)            (* the view's redirect or page *)
    | HOptions (allowed : list Method)   (* automatic OPTIONS *)
    | HRedirect308 (location : string)   (* the rule's trailing slash *)
    | H404
    | H405 (allowed : list Method)
    | H500 (e : Exn)                     (* an exception of the view *)
    | HDebugger (e : Exn).               (* the debugger's traceback of it *)

  (** Lines 252-253: [app.run(debug=True)].  [debug] makes Flask propagate
      a view's exception to Werkzeug's debugger, which answers with the
      traceback page; [threaded], [app.run]'s default since Flask 1.0, runs
      each request on a thread of its own, so requests interleave. *)
Record RunOptions := mkRunOptions { debug : bool; threaded : bool }.

Definition main_options : RunOptions := mkRunOptions true true.

  (** The view function of [rt]: Flask's 500 on an exception, or in debug
      mode the debugger's page. *)
Definition run_route (dbg : bool) (rt : Route) : M HttpResponse :=
    try: (resp ← handle rt; mret (HPage resp))
    except e => mret (if dbg then HDebugger e else H500 e).

Definition serve (dbg : bool) (m : Method) (path : string) : M HttpResponse :=
    match route m path with
    | Dispatch rt => run_route dbg rt
    | AutoOptions ms => mret (HOptions ms)
    | RedirectSlash l => mret (HRedirect308 l)
    | MethodNotAllowed ms => mret (H405 ms)
    | NotFound => mret H404
    end.

End App.
