(* ===== verification/Interleave.v ===== *)
(** * Two like toggles at once

    [like_post] (lines 169-190) runs three statements on its connection,
    each committed on its own (autocommit): the [COUNT] of line 175, the
    [DELETE] or [INSERT] of lines 179 and 183, and the [UPDATE] of
    [like_count] of line 180 or 184.  Spec §4.8 and §5 note that two
    toggles from one address may interleave.  A thread is the statement
    it runs next; a schedule says which of two threads runs each
    statement, and [sched_run] runs it for any two threads ([Race.v]
    reuses it).  The theorems: a schedule in which one thread counts after the other's
    [DELETE]/[INSERT] ends as the two toggles one after the other and
    keeps the invariant; every other schedule breaks it on an existing
    post. *)

From S2P Require Import Prelude Schema Sql Fms Runtime Demo Handlers Invariant Spec.

Module Interleave.
  Import Handlers Invariant.
  Local Open Scope Z_scope.

  (** The statement a thread runs next, with the count it read. *)
Inductive Pc := PcStart | PcCounted (n : Z) | PcWrote (n : Z) | PcDone.

  (** Lines 179/183: the write the count selects; lines 180/184: the
      change of [like_count]. *)
Definition like_write (pid : Z) (ip : string) (n : Z) : Db → Db :=
    if bool_decide (n > 0) then Sql.delete_likes pid ip else Sql.insert_like pid ip.
Definition like_delta (n : Z) : Z := if bool_decide (n > 0) then -1 else 1.

  (** One statement of [like_post pid] for the address [ip]. *)
Definition th_step (pid : Z) (ip : string) (pc : Pc) (d : Db) : Pc * Db :=
    match pc with
    | PcStart => (PcCounted (Sql.count_likes pid ip d), d)
    | PcCounted n => (PcWrote n, like_write pid ip n d)
    | PcWrote n => (PcDone, Sql.add_like_count (like_delta n) pid d)
    | PcDone => (PcDone, d)
    end.

  (** Two threads, each at the statement it runs next, and the store. *)
Record Conf (TA TB : Type) := mkConf { pcA : TA; pcB : TB; cdb : Db }.
Arguments mkConf {_ _}.
Arguments pcA {_ _}.
Arguments pcB {_ _}.
Arguments cdb {_ _}.

  (** A scheduler of two threads, each given by its statement step. *)
Section Sched.
  Context {TA TB : Type} (stepA : TA → Db → TA * Db) (stepB : TB → Db → TB * Db).

  (** [true] runs a statement of thread A, [false] one of thread B. *)
Definition sched_step (c : Conf TA TB) (a : bool) : Conf TA TB :=
    if a then let '(pc, d) := stepA (pcA c) (cdb c) in mkConf pc (pcB c) d
    else let '(pc, d) := stepB (pcB c) (cdb c) in mkConf (pcA c) pc d.

Definition sched_run (s : list bool) (c : Conf TA TB) : Conf TA TB :=
    foldl sched_step c s.
End Sched.

  (** Two [like_post] threads for one post and one address. *)
Definition run (pid : Z) (ip : string) (s : list bool) (c : Conf Pc Pc) : Conf Pc Pc :=
    sched_run (th_step pid ip) (th_step pid ip) s c.

  (** The schedules of [n] statements of A and [m] of B. *)
Fixpoint interleavings (n : nat) : nat → list (list bool) :=
    fix go m :=
      match n, m with
      | O, _ => [replicate m false]
      | _, O => [replicate n true]
      | S n', S m' => ((true ::.) <$> interleavings n' m) ++ ((false ::.) <$> go m')
      end.

  (** The position of the [k]-th statement of a thread in a schedule. *)
Fixpoint nth_pos (a : bool) (k : nat) (s : list bool) : nat :=
    match s with
    | [] => 0
    | b :: s' =>
        if bool_decide (b = a) then (match k with O => 0 | S k' => S (nth_pos a k' s') end)
        else S (nth_pos a k s')
    end.

  (** One thread counts after the other's write: the reads see the
      writes in an order a serial run could give. *)
Definition serializable (s : list bool) : bool :=
    bool_decide (nth_pos true 1 s < nth_pos false 0 s)%nat ||
    bool_decide (nth_pos false 1 s < nth_pos true 0 s)%nat.

  (** One toggle, the three statements in a row. *)
Definition toggle (pid : Z) (ip : string) (d : Db) : Db :=
    let n := Sql.count_likes pid ip d in
    Sql.add_like_count (like_delta n) pid (like_write pid ip n d).

  (** Both threads count on the same store: both take the branch of its
      count. *)
Definition race (pid : Z) (ip : string) (d : Db) : Db :=
    let n := Sql.count_likes pid ip d in
    Sql.add_like_count (like_delta n + like_delta n) pid (like_write pid ip n (like_write pid ip n d)).

  (** * Statements that commute *)

Lemma count_add pid ip delta q d :
    Sql.count_likes pid ip (Sql.add_like_count delta q d) = Sql.count_likes pid ip d.
  Proof. done. Qed.

Lemma insert_add pid ip delta q d :
    Sql.insert_like pid ip (Sql.add_like_count delta q d) =
      Sql.add_like_count delta q (Sql.insert_like pid ip d).
  Proof. done. Qed.

Lemma delete_add pid ip delta q d :
    Sql.delete_likes pid ip (Sql.add_like_count delta q d) =
      Sql.add_like_count delta q (Sql.delete_likes pid ip d).
  Proof. done. Qed.

Lemma add_add a b q d :
    Sql.add_like_count a q (Sql.add_like_count b q d) = Sql.add_like_count (b + a) q d.
  Proof.
    unfold Sql.add_like_count, set_posts. cbn. f_equal.
    rewrite alter_alter_eq. apply alter_ext. intros p _. unfold set_like_count. cbn. f_equal. lia.
  Qed.

Lemma count_insert pid ip d :
    Sql.count_likes pid ip (Sql.insert_like pid ip d) = Sql.count_likes pid ip d + 1.
  Proof. unfold Sql.count_likes. rewrite SqlFacts.ip_likes_insert_like. lia. Qed.

Lemma count_delete pid ip d : Sql.count_likes pid ip (Sql.delete_likes pid ip d) = 0.
  Proof. unfold Sql.count_likes. by rewrite SqlFacts.ip_likes_delete_likes. Qed.

Lemma count_nonneg pid ip d : 0 ≤ Sql.count_likes pid ip d.
  Proof. unfold Sql.count_likes. lia. Qed.

Create Rewrite HintDb interleave.
#[export] Hint Rewrite count_add insert_add delete_add add_add count_insert count_delete
  : interleave.

  (** [norm_db]: push the [UPDATE]s of [like_count] out, merge them, and
      decide each count from the one before. *)
Ltac norm_db pid ip d :=
    pose proof (count_nonneg pid ip d);
    unfold toggle, race, like_write, like_delta;
    repeat (autorewrite with interleave; cbn zeta;
            first [ rewrite bool_decide_true by lia | rewrite bool_decide_false by lia
                  | case_bool_decide ]).

  (** Every schedule of the two toggles runs to its end, as the two
      toggles one after the other when one thread counts after the other's
      write, and as two toggles on the count of the first store otherwise. *)
Lemma run_interleaving pid ip d s :
    s ∈ interleavings 3 3 →
    run pid ip s (mkConf PcStart PcStart d) =
      mkConf PcDone PcDone (if serializable s then toggle pid ip (toggle pid ip d) else race pid ip d).
  Proof.
    intros Hs. apply list_elem_of_In in Hs. vm_compute in Hs.
    repeat destruct Hs as [<-|Hs]; try done; unfold serializable;
      cbn -[Sql.count_likes Sql.add_like_count Sql.insert_like Sql.delete_likes like_write
            like_delta toggle race]; f_equal; norm_db pid ip d; f_equal; lia.
  Qed.

  (** Discharge the lookup premise of [inv_like_count] after an update of
      [like_count]. *)
Local Ltac feed_lookup H Hp :=
    specialize (H ltac:(rewrite SqlFacts.lookup_add_like_count, decide_True by done;
                        cbn [Sql.delete_likes Sql.insert_like set_likes posts]; by rewrite Hp));
    cbn [like_count set_like_count] in H.

  (** One toggle keeps the invariant (the handler's two branches). *)
Lemma toggle_inv pid ip d : db_inv d → pid < post_seq d → db_inv (toggle pid ip d).
  Proof.
    intros Hd Hpid. unfold toggle, like_write, like_delta. case_bool_decide as Hn.
    - apply like_remove_inv; [done|]. unfold Sql.count_likes in Hn. lia.
    - apply like_add_inv; [done..|]. unfold Sql.count_likes in Hn. lia.
  Qed.

Lemma toggle_seq pid ip d : post_seq (toggle pid ip d) = post_seq d.
  Proof. unfold toggle, like_write. by case_bool_decide. Qed.

  (** C26: a schedule of two toggles from one address in which one thread
      counts after the other's [DELETE]/[INSERT] ends as the two toggles
      one after the other, and keeps the invariant. *)
Theorem like_toggles_serializable_inv pid ip d s :
    db_inv d → pid < post_seq d → s ∈ interleavings 3 3 → serializable s = true →
    run pid ip s (mkConf PcStart PcStart d) =
      mkConf PcDone PcDone (toggle pid ip (toggle pid ip d)) ∧
    db_inv (toggle pid ip (toggle pid ip d)).
  Proof.
    intros Hd Hpid Hs Hser. rewrite run_interleaving, Hser by done. split; [done|].
    apply toggle_inv; [by apply toggle_inv|]. by rewrite toggle_seq.
  Qed.

  (** C27: on an existing post every other schedule (both threads count
      before either writes) breaks the invariant: two like rows for one
      address when neither had liked, or [like_count] two below the rows
      when it had. *)
Theorem like_toggles_race_breaks pid ip d s p :
    db_inv d → posts d !! pid = Some p → s ∈ interleavings 3 3 → serializable s = false →
    ¬ db_inv (cdb (run pid ip s (mkConf PcStart PcStart d))).
  Proof.
    intros Hd Hp Hs Hser. rewrite run_interleaving, Hser by done. cbn [cdb].
    unfold race, like_write, like_delta. intros Hd'. case_bool_decide as Hn.
    - (* Both delete, both decrement. *)
      pose proof (inv_like_count _ Hd pid p Hp) as Hc.
      assert (Hd1 : ip_likes pid ip d = 1%nat).
      { pose proof (count_where_eq_NoDup _ (mkLike pid ip) (inv_likes_nodup _ Hd)) as E.
        unfold Sql.count_likes, ip_likes in *. rewrite E in Hn |- *. case_decide; [done|lia]. }
      pose proof (inv_like_count _ Hd' pid (set_like_count (like_count p + (-1 + -1)) p)) as Hc'.
      feed_lookup Hc' Hp.
      unfold post_likes in Hc, Hc'. cbn in Hc'.
      rewrite filter_neq_notin in Hc'
        by (intros [Hne _]%list_elem_of_filter; by apply Hne).
      assert (length (filter (λ l, like_post_id l = pid)
                (filter (λ l, l ≠ mkLike pid ip) (likes d))) + 1 =
              count_where (λ l, like_post_id l = pid) (likes d))%nat as Hsub.
      { unfold ip_likes in Hd1. rewrite <-Hd1.
        apply (count_where_filter_sub (λ l, l = mkLike pid ip)). by intros ? ->. }
      lia.
    - (* Both insert: the same row twice. *)
      pose proof (inv_likes_nodup _ Hd') as Hn'. cbn in Hn'.
      rewrite <-app_assoc in Hn'. apply NoDup_app in Hn' as (_ & _ & Hn').
      apply NoDup_cons in Hn' as [Hin _]. apply Hin. set_solver.
  Qed.

  (** * Witnesses *)

Lemma like_toggles_serializable_inv_witness :
    db_inv (toggle 1 Demo.ip_other (toggle 1 Demo.ip_other (db world_one))).
  Proof.
    exact (proj2 (like_toggles_serializable_inv 1 Demo.ip_other (db world_one)
                    [true; true; false; true; false; false] (proj1 world_one_inv)
                    ltac:(vm_compute; reflexivity) ltac:(apply (bool_decide_unpack _); vm_compute; exact I)
                    eq_refl)).
  Defined.

Lemma like_toggles_race_breaks_witness :
    ¬ db_inv (cdb (run 1 Demo.ip_other [true; false; true; false; true; false]
                   (mkConf PcStart PcStart (db world_one)))).
  Proof.
    exact (like_toggles_race_breaks 1 Demo.ip_other (db world_one)
             [true; false; true; false; true; false] (mkPost 1 "t" "c" "a" 1 None 0 0)
             (proj1 world_one_inv) eq_refl ltac:(apply (bool_decide_unpack _); vm_compute; exact I)
             eq_refl).
  Defined.
End Interleave.
