(* ===== verification/Race.v ===== *)
(** * A like toggle racing the deletion of posts

    [delete_post] (lines 137-146) and [delete_batch] (lines 192-225) each
    write the store with a single autocommitted statement, the [DELETE]
    of line 141 or of line 210.  Run on a thread of its own beside a
    [like_post] thread (the scheduler of [Interleave.v]), that statement
    can fall before, between or after the three statements of the
    toggle.  The section below proves, for any single statement that
    touches only [board.posts] and commutes with the toggle's statements,
    that all four schedules end in the same store, the one the two
    requests give in either serial order; the two deletions of the code
    are instances, and the store invariant holds at the end.  Spec §5
    names only the like toggle and the batch delete as unsafe: against a
    like, a deletion is safe. *)

From S2P Require Import Prelude Schema Sql Runtime Handlers Invariant Interleave.

Module Race.
  Import Handlers Invariant Interleave.
  Local Open Scope Z_scope.

  (** A request that runs one statement [f]: before it, and after it. *)
Inductive Once := OnceStart | OnceDone.

Definition once_step (f : Db → Db) (pc : Once) (d : Db) : Once * Db :=
    match pc with
    | OnceStart => (OnceDone, f d)
    | OnceDone => (OnceDone, d)
    end.

  (** Every schedule of a toggle and the statement [del] ends in the
      store of the two in sequence, either order, and keeps the
      invariant. *)
Definition serial_with (del : Db → Db) (pid : Z) (ip : string) (d : Db) : Prop :=
    ∀ s, s ∈ interleavings 3 1 →
      sched_run (th_step pid ip) (once_step del) s (mkConf PcStart OnceStart d) =
        mkConf PcDone OnceDone (del (toggle pid ip d)) ∧
      del (toggle pid ip d) = toggle pid ip (del d) ∧
      db_inv (del (toggle pid ip d)).

Section Commute.
  Variables (del : Db → Db) (pid : Z) (ip : string).
  Hypothesis del_count : ∀ d, Sql.count_likes pid ip (del d) = Sql.count_likes pid ip d.
  Hypothesis del_insert : ∀ d, del (Sql.insert_like pid ip d) = Sql.insert_like pid ip (del d).
  Hypothesis del_delete : ∀ d, del (Sql.delete_likes pid ip d) = Sql.delete_likes pid ip (del d).
  Hypothesis del_add :
    ∀ delta d, del (Sql.add_like_count delta pid d) = Sql.add_like_count delta pid (del d).
  Hypothesis del_inv : ∀ d, db_inv d → db_inv (del d).

Lemma del_like_write n d : del (like_write pid ip n d) = like_write pid ip n (del d).
  Proof. unfold like_write. by case_bool_decide. Qed.

Lemma del_toggle d : del (toggle pid ip d) = toggle pid ip (del d).
  Proof. unfold toggle. by rewrite del_add, del_like_write, del_count. Qed.

  (** The four schedules, each by pushing [del] through the toggle. *)
Lemma run_once d s :
    s ∈ interleavings 3 1 →
    sched_run (th_step pid ip) (once_step del) s (mkConf PcStart OnceStart d) =
      mkConf PcDone OnceDone (del (toggle pid ip d)).
  Proof.
    intros Hs. apply list_elem_of_In in Hs. vm_compute in Hs.
    repeat destruct Hs as [<-|Hs]; try done; cbn; f_equal;
      rewrite del_toggle; unfold toggle;
      rewrite ?del_add, ?del_like_write, ?del_count; reflexivity.
  Qed.

Lemma commute_serial d : db_inv d → pid < post_seq d → serial_with del pid ip d.
  Proof.
    intros Hd Hpid s Hs. split_and!; [by apply run_once|apply del_toggle|].
    by apply del_inv, toggle_inv.
  Qed.
End Commute.

  (** * The two deletions commute with the toggle's statements *)

Lemma alter_delete_comm (f : Post → Post) q pid (m : gmap Z Post) :
    delete q (alter f pid m) = alter f pid (delete q m).
  Proof.
    apply map_eq. intros k. destruct (decide (q = k)) as [->|Hq].
    - rewrite lookup_delete_eq. destruct (decide (pid = k)) as [->|Hp].
      + by rewrite lookup_alter_eq, lookup_delete_eq.
      + by rewrite lookup_alter_ne, lookup_delete_eq.
    - rewrite lookup_delete_ne by done. destruct (decide (pid = k)) as [->|Hp].
      + by rewrite !lookup_alter_eq, lookup_delete_ne.
      + by rewrite !lookup_alter_ne, lookup_delete_ne.
  Qed.

Lemma alter_filter_comm (f : Post → Post) (ids : list Z) pid (m : gmap Z Post) :
    filter (λ kv, kv.1 ∉ ids) (alter f pid m) = alter f pid (filter (λ kv, kv.1 ∉ ids) m).
  Proof.
    apply map_eq. intros k. rewrite !map_lookup_filter.
    destruct (decide (pid = k)) as [->|Hp].
    - rewrite !lookup_alter_eq, map_lookup_filter.
      destruct (m !! k); cbn; [|done].
      destruct (decide (k ∉ ids)); [rewrite !option_guard_True|rewrite !option_guard_False]; done.
    - by rewrite !lookup_alter_ne, map_lookup_filter.
  Qed.

Lemma delete_post_commutes q pid ip d :
    db_inv d → pid < post_seq d → serial_with (Sql.delete_post q) pid ip d.
  Proof.
    apply commute_serial; [done..| |].
    - intros delta d'. unfold Sql.delete_post, Sql.add_like_count, set_posts. cbn.
      by rewrite alter_delete_comm.
    - apply delete_post_inv.
  Qed.

Lemma delete_posts_any_commutes ns pid ip d :
    db_inv d → pid < post_seq d → serial_with (Sql.delete_posts_any ns) pid ip d.
  Proof.
    apply commute_serial; [done..| |].
    - intros delta d'. unfold Sql.delete_posts_any, Sql.add_like_count, set_posts. cbn.
      by rewrite alter_filter_comm.
    - apply delete_posts_any_inv.
  Qed.

  (** C12: a like toggle racing the deletion of a post, by [delete_post]
      or by the batch delete, is safe: in each of the four schedules of
      the toggle's three statements and the deletion's one, the store
      ends as the two requests in sequence (in either order, which give
      the same store) and keeps the invariant.  A like row written after
      the deletion stays, naming an id the sequence issued. *)
Theorem like_delete_race_safe q ns pid ip d :
    db_inv d → pid < post_seq d →
    serial_with (Sql.delete_post q) pid ip d ∧ serial_with (Sql.delete_posts_any ns) pid ip d.
  Proof.
    intros Hd Hpid. split; [by apply delete_post_commutes|by apply delete_posts_any_commutes].
  Qed.

  (** The post of [world_one] deleted while it is liked, with the
      deletion between the count and the insert. *)
Lemma like_delete_race_safe_witness :
    db_inv (db world_one) ∧ 1 < post_seq (db world_one) ∧
    sched_run (th_step 1 "203.0.113.7") (once_step (Sql.delete_post 1)) [true; false; true; true]
      (mkConf PcStart OnceStart (db world_one)) =
      mkConf PcDone OnceDone (Sql.delete_post 1 (toggle 1 "203.0.113.7" (db world_one))).
  Proof.
    assert (Hd : db_inv (db world_one)) by apply world_one_inv.
    assert (Hs : (1 < post_seq (db world_one))) by (vm_compute; reflexivity).
    split_and!; [exact Hd|exact Hs|].
    apply (proj1 (like_delete_race_safe 1 [] 1 "203.0.113.7" (db world_one) Hd Hs)).
    apply (bool_decide_unpack _); vm_compute; exact I.
  Defined.
End Race.
